(** * wotan.flatten: a shallow embedding of [src/wotan/flatten.py]

    The orchestrator [flatten] validates its parameters, fills in defaults,
    copies the two input sequences into fresh float32 arrays, masks the
    samples whose product is NaN, asks the gap segmenter for segment
    boundaries, sends every segment to the trend estimator selected by
    [method], and finally transplants the concatenated segment trends into
    a full-length array and divides the flux by it.

    Floating point numbers are [spec_float] values of the Standard Library
    (the IEEE 754 specification borrowed from Flocq), rounded with the
    precision the code uses at each place: binary32 for the copies made by
    [array(..., dtype=float32)], binary64 for Python floats and for the
    arrays [full(n, nan)] and [flux / trend_lc].

    numpy arrays are objects of a store; names hold references to them.
    The estimators that live outside [flatten.py] are fields of a record
    [Runtime]; they are pure functions from the contents of the views they
    are handed to a trend segment or an exception. *)

From Stdlib Require Import ZArith Bool Lia SpecFloat.
From stdpp Require Import base list strings.

Open Scope string_scope.
Open Scope list_scope.
Open Scope Z_scope.

(** ** Floating point values *)

Module F.

Definition float := spec_float.

(** Python floats and numpy float64 are binary64; numpy float32 is binary32. *)
Definition prec64 : Z := 53.
Definition emax64 : Z := 1024.
Definition prec32 : Z := 24.
Definition emax32 : Z := 128.

Definition nan : float := S754_nan.
Definition inf : float := S754_infinity false.

(** The binary64 value of an integer, rounded to nearest even. *)
Definition of_Z (z : Z) : float := binary_normalize prec64 emax64 z 0 false.

(** The binary64 value of the decimal literal [n / d]: both are exact in
    binary64 for the literals of this file, so the correctly rounded
    quotient is the value Python reads. *)
Definition dec (n d : Z) : float := SFdiv prec64 emax64 (of_Z n) (of_Z d).

Definition isnan (x : float) : bool :=
  match x with S754_nan => true | _ => false end.

Definition isfinite (x : float) : bool :=
  match x with S754_nan | S754_infinity _ => false | _ => true end.

(** Conversion of a binary64 value to float32 (round to nearest even;
    magnitudes beyond the float32 range become infinities). *)
Definition to_float32 (x : float) : float :=
  match x with
  | S754_finite s m e => binary_round prec32 emax32 s m e
  | _ => x
  end.

(** The same number in the binary64 format (exact for a float32). *)
Definition to_float64 (x : float) : float :=
  match x with
  | S754_finite s m e => binary_round prec64 emax64 s m e
  | _ => x
  end.

Definition mul32 : float -> float -> float := SFmul prec32 emax32.
Definition sub32 : float -> float -> float := SFsub prec32 emax32.
Definition add64 : float -> float -> float := SFadd prec64 emax64.
Definition div64 : float -> float -> float := SFdiv prec64 emax64.

Definition gtb (x y : float) : bool := SFltb y x.
Definition ltb (x y : float) : bool := SFltb x y.
Definition geb (x y : float) : bool := SFleb y x.
Definition leb (x y : float) : bool := SFleb x y.
Definition eqb (x y : float) : bool := SFeqb x y.

(** [x % 2 == 0] on a Python float: true exactly on zeros and even
    integers; infinities and NaN give NaN, which is not equal to 0. *)
Definition mod2_is_zero (x : float) : bool :=
  match x with
  | S754_zero _ => true
  | S754_finite _ m e =>
      if 0 <? e then true else Zpos m mod 2 ^ (1 - e) =? 0
  | _ => false
  end.

End F.

Abbreviation float := F.float.

(** ** Python numbers, exceptions and results *)

(** The numeric parameters are Python ints or floats. *)
Inductive num :=
  | PInt (z : Z)
  | PFloat (f : float).

Inductive exn :=
  | ValueError (msg : string)
  | ImportError (msg : string)
  | IndexError (msg : string)
  | OverflowError (msg : string)
  | UnboundLocalError (msg : string)
  | TypeError (msg : string)
  | MaskError (msg : string)
  | OtherError (msg : string).

Inductive result (A : Type) :=
  | Ok (a : A)
  | Raise (e : exn).
Arguments Ok {A} a.
Arguments Raise {A} e.

Definition rbind {A B} (r : result A) (k : A -> result B) : result B :=
  match r with
  | Ok a => k a
  | Raise e => Raise e
  end.

Declare Scope res_scope.
Delimit Scope res_scope with res.
Notation "'let*' x ':=' r 'in' k" := (rbind r (fun x => k))
  (at level 10, x name, r at level 100, k at level 200) : res_scope.

Module Py.

(** Comparison of a number with an integer literal of the source. *)
Definition cmp_lit (x : num) (k : Z) : option comparison :=
  match x with
  | PInt z => Some (z ?= k)
  | PFloat f => SFcompare f (F.of_Z k)
  end.

Definition gt_lit (x : num) (k : Z) : bool :=
  match cmp_lit x k with Some Gt => true | _ => false end.
Definition lt_lit (x : num) (k : Z) : bool :=
  match cmp_lit x k with Some Lt => true | _ => false end.
Definition eq_lit (x : num) (k : Z) : bool :=
  match cmp_lit x k with Some Eq => true | _ => false end.

(** [x / 2] under [from __future__ import division]: an int gives the
    correctly rounded float quotient or OverflowError, a float is divided
    in binary64. *)
Definition truediv2 (x : num) : result float :=
  match x with
  | PInt z =>
      match binary_normalize F.prec64 F.emax64 z (-1) false with
      | S754_infinity _ =>
          Raise (OverflowError "integer division result too large for a float")
      | q => Ok q
      end
  | PFloat f => Ok (F.div64 f (F.of_Z 2))
  end.

(** The float a number stands for in a comparison with a float. *)
Definition to_float (x : num) : float :=
  match x with
  | PInt z => F.of_Z z
  | PFloat f => f
  end.

(** [x % 2 == 0]. *)
Definition mod2_is_zero (x : num) : bool :=
  match x with
  | PInt z => Z.even z
  | PFloat f => F.mod2_is_zero f
  end.

(** [x += 1]. *)
Definition incr (x : num) : num :=
  match x with
  | PInt z => PInt (z + 1)
  | PFloat f => PFloat (F.add64 f (F.of_Z 1))
  end.

(** [int(x)]: truncation toward zero. *)
Definition int (x : num) : result Z :=
  match x with
  | PInt z => Ok z
  | PFloat (S754_zero _) => Ok 0
  | PFloat (S754_finite s m e) => Ok (cond_Zopp s (Z.shiftl (Zpos m) e))
  | PFloat (S754_infinity _) =>
      Raise (OverflowError "cannot convert float infinity to integer")
  | PFloat S754_nan =>
      Raise (ValueError "cannot convert float NaN to integer")
  end.

(** [x in xs] for a string and a sequence of strings. *)
Definition str_in (x : string) (xs : list string) : bool :=
  existsb (String.eqb x) xs.

(** The builtin [max] and [min] over the elements of a sequence: the
    first element is the candidate, a later one replaces it when it
    compares greater (smaller); a comparison with NaN is false. *)
Definition max (l : list float) : result float :=
  match l with
  | [] => Raise (ValueError "max() arg is an empty sequence")
  | x :: r => Ok (fold_left (fun cur y => if F.gtb y cur then y else cur) r x)
  end.

Definition min (l : list float) : result float :=
  match l with
  | [] => Raise (ValueError "min() arg is an empty sequence")
  | x :: r => Ok (fold_left (fun cur y => if F.ltb y cur then y else cur) r x)
  end.

(** [a[i:j]] on a sequence: negative bounds count from the end, and both
    bounds are clamped to the length. *)
Definition clamp (len i : Z) : Z :=
  if i <? 0 then Z.max 0 (i + len) else Z.min i len.

Definition slice {A} (i j : Z) (l : list A) : list A :=
  let len := Z.of_nat (length l) in
  let a := clamp len i in
  let b := clamp len j in
  take (Z.to_nat (b - a)) (drop (Z.to_nat a) l).

End Py.

(** ** The store of array objects *)

Inductive dtype := float32 | float64.

Record ndarray := mk_ndarray { dt : dtype; data : list float }.

(** A reference to an object of the store. *)
Abbreviation loc := nat.

Abbreviation store := (list ndarray).

(** Computations that read and update the store and may raise: the store
    survives an exception, as the heap of the interpreter does. *)
Definition M (A : Type) : Type := store -> result A * store.

Definition ret {A} (a : A) : M A := fun s => (Ok a, s).
Definition raise {A} (e : exn) : M A := fun s => (Raise e, s).
Definition lift {A} (r : result A) : M A := fun s => (r, s).
Definition bind {A B} (m : M A) (k : A -> M B) : M B :=
  fun s =>
    match m s with
    | (Ok a, s') => k a s'
    | (Raise e, s') => (Raise e, s')
    end.

Declare Scope m_scope.
Delimit Scope m_scope with M.
Notation "'do' x <- m ; k" := (bind m (fun x => k))
  (at level 10, x name, m at level 100, k at level 200) : m_scope.

Module Np.

(** A new object is placed after all existing ones. *)
Definition alloc (a : ndarray) : M loc :=
  fun s => (Ok (length s), s ++ [a]).

(** The contents behind a reference. Every reference of a Python program
    points to an object; the exception covers references that were never
    allocated, which the language cannot express. *)
Definition read (l : loc) : M ndarray :=
  fun s =>
    match s !! l with
    | Some a => (Ok a, s)
    | None => (Raise (TypeError "dangling reference"), s)
    end.

(** [array(x, dtype=float32)]: always a new array (copy is the default),
    every element converted to float32. *)
Definition array_float32 (x : loc) : M loc :=
  (do a <- read x;
   alloc (mk_ndarray float32 (map F.to_float32 (data a))))%M.

(** [isnan(time * flux)] on two float32 arrays. Arrays of the same length
    are multiplied element by element. With different lengths numpy
    either refuses to broadcast, or broadcasts a one-element operand and
    then [masked_array] refuses the mask whose size differs from that
    operand's: both ways an exception leaves [flatten] before the data
    are touched. *)
Definition isnan_product (t f : list float) : result (list bool) :=
  if (length t =? length f)%nat
  then Ok (zip_with (fun x y => F.isnan (F.mul32 x y)) t f)
  else if ((length t =? 1) || (length f =? 1))%nat
  then Raise (MaskError "Mask and data not compatible")
  else Raise (ValueError "operands could not be broadcast together").

(** The elements of [l] whose mask bit is false, in order. *)
Fixpoint compress {A} (l : list A) (mask : list bool) : list A :=
  match l, mask with
  | x :: l', b :: mask' =>
      if b then compress l' mask' else x :: compress l' mask'
  | _, _ => []
  end.

(** [numpy.ma.compressed(numpy.ma.masked_array(a, mask))]: a new array. *)
Definition ma_compressed (a : loc) (mask : list bool) : M loc :=
  (do x <- read a;
   alloc (mk_ndarray (dt x) (compress (data x) mask)))%M.

(** [where(~mask)[0]]: the indices whose mask bit is false. *)
Fixpoint where_not_from (i : nat) (mask : list bool) : list nat :=
  match mask with
  | [] => []
  | b :: mask' =>
      if b then where_not_from (S i) mask'
      else i :: where_not_from (S i) mask'
  end.

Definition where_not (mask : list bool) : list nat := where_not_from 0 mask.

(** [full(n, nan)]: a new float64 array. *)
Definition full_nan (n : nat) : M loc :=
  alloc (mk_ndarray float64 (replicate n F.nan)).

(** [a[i] = v] for an index [0 <= i]: in place, IndexError out of range. *)
Definition setitem (a : loc) (i : nat) (v : float) : M unit :=
  fun s =>
    match s !! a with
    | Some x =>
        if (i <? length (data x))%nat
        then (Ok tt, <[a := mk_ndarray (dt x) (<[i := v]> (data x))]> s)
        else (Raise (IndexError "index out of bounds"), s)
    | None => (Raise (TypeError "dangling reference"), s)
    end.

(** [a[i]] on the contents of an array, for an index [0 <= i]. *)
Definition getitem (a : list float) (i : nat) : result float :=
  match a !! i with
  | Some v => Ok v
  | None => Raise (IndexError "index out of bounds")
  end.

(** [numpy.max(a)] and [numpy.min(a)]: NaN propagates, an empty array
    has no maximum. *)
Definition fmax (x y : float) : float :=
  if F.isnan x then x else if F.isnan y then y
  else if F.ltb x y then y else x.
Definition fmin (x y : float) : float :=
  if F.isnan x then x else if F.isnan y then y
  else if F.ltb y x then y else x.

Definition max (a : list float) : result float :=
  match a with
  | [] => Raise (ValueError
      "zero-size array to reduction operation maximum which has no identity")
  | x :: r => Ok (fold_left fmax r x)
  end.

Definition min (a : list float) : result float :=
  match a with
  | [] => Raise (ValueError
      "zero-size array to reduction operation minimum which has no identity")
  | x :: r => Ok (fold_left fmin r x)
  end.

(** [flux / trend_lc]: a float32 array divided by a float64 array of the
    same length gives a new float64 array; numpy divides by zero without
    raising. *)
Definition divide (a b : loc) : M loc :=
  (do x <- read a;
   do y <- read b;
   if (length (data x) =? length (data y))%nat
   then alloc (mk_ndarray float64 (zip_with F.div64 (data x) (data y)))
   else raise (ValueError "operands could not be broadcast together"))%M.

End Np.

(** ** What [flatten] imports *)

(** A trend segment or an exception. *)
Definition segment_result := result (list float).

(** The names [flatten.py] imports from the rest of the package and from
    third-party packages. [constants_methods] is [constants.methods], the
    sequence of supported method names. The three packages imported inside
    the segment loop are optional: [None] says the import fails.

    Each estimator takes the contents of the views it is handed. Where the
    source prepares an argument with arithmetic whose result type depends
    on the numpy version or on [wotan.constants], the ingredients are
    passed on as they are:
    - [statsmodels_lowess endog exog window_length duration] stands for
      [lowess(endog, exog, frac=window_length / duration, ...)];
    - [supersmoother alpha window_length span time_view flux_view] stands
      for the [SuperSmoother] built from [alpha] and the spans derived from
      [win = window_length / span], fitted and evaluated on the views;
    - [untrendy_fit_trend time_view flux_view window_length] stands for
      lines 241 to 243: the flux divided by its median, [fit_trend], and
      the fitted trend scaled back.
    The progress line printed before [pspline] is not modelled. *)
Record Runtime := {
  constants_methods : list string;
  get_gaps_indexes : list float -> num -> result (list Z);
  running_segment :
    list float -> list float -> num -> num -> num -> Z -> segment_result;
  running_segment_huber :
    list float -> list float -> num -> num -> num -> segment_result;
  statsmodels_lowess :
    option (list float -> list float -> num -> float -> segment_result);
  detrend_huber_spline : list float -> list float -> num -> segment_result;
  supersmoother :
    option (option num -> num -> float ->
            list float -> list float -> segment_result);
  detrend_cofiam :
    list float -> list float -> list float -> num -> segment_result;
  savgol_filter : list float -> num -> Z -> segment_result;
  medfilt : list float -> num -> segment_result;
  make_gp :
    list float -> list float ->
    option string -> option num -> option num -> segment_result;
  untrendy_fit_trend :
    option (list float -> list float -> num -> segment_result);
  pspline : list float -> list float -> segment_result
}.

(** ** The arguments of [flatten] *)

Record kwargs := {
  window_length : option num;
  edge_cutoff : num;
  break_tolerance : option num;
  cval : option num;
  return_trend : bool;
  method : string;
  kernel : option string;
  kernel_size : option num;
  kernel_period : option num;
  proportiontocut : num
}.

(** The defaults of the signature (lines 21 to 23). *)
Definition defaults : kwargs := {|
  window_length := None;
  edge_cutoff := PInt 0;
  break_tolerance := None;
  cval := None;
  return_trend := false;
  method := "biweight";
  kernel := None;
  kernel_size := None;
  kernel_period := None;
  proportiontocut := PFloat (F.dec 1 10)
|}.

(** ** Lines 87 to 144: validation and defaults *)

Definition unknown_method : exn := ValueError "Unknown detrending method".

Definition error_text : string := "proportiontocut must be >0 and <0.5".

(** Lines 90 to 106: the location estimator as an int; the name stays
    unbound for the other methods. *)
Definition method_code (method : string) : option Z :=
  if (method =? "biweight")%string then Some 1
  else if (method =? "andrewsinewave")%string then Some 2
  else if (method =? "welsch")%string then Some 3
  else if (method =? "hodges")%string then Some 4
  else if (method =? "median")%string then Some 5
  else if (method =? "mean")%string then Some 6
  else if (method =? "trim_mean")%string then Some 7
  else if (method =? "winsorize")%string then Some 8
  else None.

(** Lines 108 to 112. *)
Definition check_proportiontocut (proportiontocut : num) : result unit :=
  match proportiontocut with
  | PFloat p =>
      if F.geb p (F.dec 5 10) || F.leb p (F.of_Z 0)
      then Raise (ValueError error_text)
      else Ok tt
  | PInt _ => Raise (ValueError error_text)
  end.

(** Lines 115 to 129. *)
Definition default_cval
    (method : string) (cval : option num) (proportiontocut : num) : num :=
  match cval with
  | Some c => c
  | None =>
      if (method =? "biweight")%string then PInt 5
      else if (method =? "andrewsinewave")%string then PFloat (F.dec 1339 1000)
      else if (method =? "welsch")%string then PFloat (F.dec 211 100)
      else if (method =? "huber")%string then PFloat (F.dec 15 10)
      else if Py.str_in method ["trim_mean"; "winsorize"] then proportiontocut
      else if (method =? "savgol")%string then PInt 2
      else PInt 0
  end.

(** Lines 131 to 135. [cval] is never [None] here, line 115 has seen to
    that. The outer option says whether the name is bound; the inner one is
    the Python value, [None] or a number. *)
Definition supersmoother_alpha (method : string) (cval : num)
    : option (option num) :=
  if (method =? "supersmoother")%string then
    if Py.gt_lit cval 0 && Py.lt_lit cval 10 then Some (Some cval)
    else Some None
  else None.

(** Lines 139 to 140. *)
Definition default_window_length (window_length : option num) : num :=
  match window_length with
  | Some w => w
  | None => PInt 2
  end.

(** Lines 141 to 144. *)
Definition default_break_tolerance
    (window_length : num) (break_tolerance : option num) : result num :=
  (let* b :=
     match break_tolerance with
     | Some b => Ok b
     | None => let* h := Py.truediv2 window_length in Ok (PFloat h)
     end in
   if Py.eq_lit b 0 then Ok (PFloat F.inf) else Ok b)%res.

(** The local names after line 144. *)
Record settings := {
  s_method_code : option Z;
  s_cval : num;
  s_supersmoother_alpha : option (option num);
  s_window_length : num;
  s_break_tolerance : num
}.

Definition prologue (R : Runtime) (kw : kwargs) : result settings :=
  (if negb (Py.str_in (method kw) (constants_methods R))
   then Raise unknown_method
   else
     let code := method_code (method kw) in
     let* _ := check_proportiontocut (proportiontocut kw) in
     let c := default_cval (method kw) (cval kw) (proportiontocut kw) in
     let alpha := supersmoother_alpha (method kw) c in
     let w := default_window_length (window_length kw) in
     let* b := default_break_tolerance w (break_tolerance kw) in
     Ok {| s_method_code := code;
           s_cval := c;
           s_supersmoother_alpha := alpha;
           s_window_length := w;
           s_break_tolerance := b |})%res.

(** ** Lines 161 to 248: the loop over the segments *)

(** The names the loop reads and rebinds from one segment to the next:
    [window_length] (line 222), [trend_segment] and [trend_flux]. *)
Record loop_state := {
  ls_window_length : num;
  ls_trend_segment : list float;
  ls_trend_flux : list float
}.

Definition with_segment (ls : loop_state) (seg : list float) : loop_state :=
  {| ls_window_length := ls_window_length ls;
     ls_trend_segment := seg;
     ls_trend_flux := ls_trend_flux ls |}.

(** Lines 165 to 166. *)
Definition methods : list string :=
  ["biweight"; "andrewsinewave"; "welsch"; "hodges"; "median"; "mean";
   "trim_mean"; "winsorize"].

(** Lines 167 to 246: the trend of one segment. [time] is the float32 copy
    of the whole series (line 206 reads it), [time_compressed] the series
    without the masked samples (line 188 reads it). A method without a
    branch leaves [trend_segment] as it was. *)
Definition segment_trend (R : Runtime) (kw : kwargs) (st : settings)
    (time time_compressed : list float) (ls : loop_state)
    (time_view flux_view : list float) : result loop_state :=
  (let m := method kw in
   let w := ls_window_length ls in
   if Py.str_in m methods then
     match s_method_code st with
     | None => Raise (UnboundLocalError "method_code")
     | Some code =>
         let* seg := running_segment R time_view flux_view w
                       (edge_cutoff kw) (s_cval st) code in
         Ok (with_segment ls seg)
     end
   else if (m =? "huber")%string then
     let* seg := running_segment_huber R time_view flux_view w
                   (edge_cutoff kw) (s_cval st) in
     Ok (with_segment ls seg)
   else if (m =? "lowess")%string then
     match statsmodels_lowess R with
     | None => Raise (ImportError "Could not import statsmodels")
     | Some lowess =>
         let* hi := Np.max time_compressed in
         let* lo := Np.min time_compressed in
         let duration := F.sub32 hi lo in
         let* seg := lowess flux_view time_view w duration in
         Ok (with_segment ls seg)
     end
   else if (m =? "hspline")%string then
     let* seg := detrend_huber_spline R time_view flux_view w in
     Ok (with_segment ls seg)
   else if (m =? "supersmoother")%string then
     match supersmoother R with
     | None => Raise (ImportError "Could not import supersmoother")
     | Some smoother =>
         let* hi := Py.max time in
         let* lo := Py.min time in
         let span := F.sub32 hi lo in
         match s_supersmoother_alpha st with
         | None => Raise (UnboundLocalError "supersmoother_alpha")
         | Some alpha =>
             let* seg := smoother alpha w span time_view flux_view in
             Ok (with_segment ls seg)
         end
     end
   else if (m =? "cofiam")%string then
     let ones := replicate (length time_view) (F.of_Z 1) in
     let* seg := detrend_cofiam R time_view flux_view ones w in
     Ok (with_segment ls seg)
   else if (m =? "savgol")%string then
     let w' := if Py.mod2_is_zero w then Py.incr w else w in
     let* polyorder := Py.int (s_cval st) in
     let* seg := savgol_filter R flux_view w' polyorder in
     Ok {| ls_window_length := w';
           ls_trend_segment := seg;
           ls_trend_flux := ls_trend_flux ls |}
   else if (m =? "medfilt")%string then
     let* seg := medfilt R flux_view w in
     Ok (with_segment ls seg)
   else if (m =? "gp")%string then
     let* seg := make_gp R time_view flux_view
                   (kernel kw) (kernel_size kw) (kernel_period kw) in
     Ok (with_segment ls seg)
   else if (m =? "untrendy")%string then
     match untrendy_fit_trend R with
     | None => Raise (ImportError "Could not import untrendy")
     | Some fit => 
         let* seg := fit time_view flux_view w in
         Ok (with_segment ls seg)
     end
   else if (m =? "pspline")%string then
     let* seg := pspline R time_view flux_view in
     Ok (with_segment ls seg)
   else Ok ls)%res.

(** Lines 163 to 248: one turn of the loop, for the boundaries
    [gaps_indexes[i]] and [gaps_indexes[i+1]]. *)
Definition segment_step (R : Runtime) (kw : kwargs) (st : settings)
    (time time_compressed flux_compressed : list float)
    (lo hi : Z) (ls : loop_state) : result loop_state :=
  (let time_view := Py.slice lo hi time_compressed in
   let flux_view := Py.slice lo hi flux_compressed in
   let* ls' := segment_trend R kw st time time_compressed ls
                 time_view flux_view in
   Ok {| ls_window_length := ls_window_length ls';
         ls_trend_segment := ls_trend_segment ls';
         ls_trend_flux := ls_trend_flux ls' ++ ls_trend_segment ls' |})%res.

(** Line 162: [for i in range(len(gaps_indexes) - 1)]. *)
Fixpoint segment_loop (R : Runtime) (kw : kwargs) (st : settings)
    (time time_compressed flux_compressed : list float)
    (gaps_indexes : list Z) (ls : loop_state) : result loop_state :=
  match gaps_indexes with
  | lo :: ((hi :: _) as rest) =>
      match segment_step R kw st time time_compressed flux_compressed
              lo hi ls with
      | Ok ls' =>
          segment_loop R kw st time time_compressed flux_compressed rest ls'
      | Raise e => Raise e
      end
  | _ => Ok ls
  end.

(** ** Lines 250 to 254: the trend on the original grid *)

(** Lines 253 to 254: [mask] holds the unmasked indices; the turn for
    position [idx] reads [trend_flux[idx]] and then writes it. *)
Fixpoint transplant (trend_lc : loc) (mask : list nat)
    (trend_flux : list float) (idx : nat) : M unit :=
  match mask with
  | [] => ret tt
  | i :: mask' =>
      (do v <- lift (Np.getitem trend_flux idx);
       do _ <- Np.setitem trend_lc i v;
       transplant trend_lc mask' trend_flux (S idx))%M
  end.

(** ** [flatten] *)

Inductive returned :=
  | Flattened (flatten_lc : loc)
  | FlattenedAndTrend (flatten_lc trend_lc : loc).

Definition initial_loop_state (st : settings) : loop_state :=
  {| ls_window_length := s_window_length st;
     ls_trend_segment := [];
     ls_trend_flux := [] |}.

Definition flatten (R : Runtime) (time flux : loc) (kw : kwargs)
    : M returned :=
  (do st <- lift (prologue R kw);
   (* lines 150 to 154 *)
   do time' <- Np.array_float32 time;
   do flux' <- Np.array_float32 flux;
   do t <- Np.read time';
   do f <- Np.read flux';
   do mask <- lift (Np.isnan_product (data t) (data f));
   do time_compressed <- Np.ma_compressed time' mask;
   do flux_compressed <- Np.ma_compressed flux' mask;
   do tc <- Np.read time_compressed;
   do fc <- Np.read flux_compressed;
   (* lines 157 to 248 *)
   do gaps_indexes <-
     lift (get_gaps_indexes R (data tc) (s_break_tolerance st));
   do ls <- lift (segment_loop R kw st (data t) (data tc) (data fc)
                    gaps_indexes (initial_loop_state st));
   (* lines 251 to 254 *)
   do trend_lc <- Np.full_nan (length (data t));
   do _ <- transplant trend_lc (Np.where_not mask) (ls_trend_flux ls) 0;
   (* lines 256 to 259 *)
   do flatten_lc <- Np.divide flux' trend_lc;
   ret (if return_trend kw
        then FlattenedAndTrend flatten_lc trend_lc
        else Flattened flatten_lc))%M.

(** Updates of single arguments. *)
Definition with_window_length (kw : kwargs) (w : option num) : kwargs :=
  {| window_length := w;
     edge_cutoff := edge_cutoff kw;
     break_tolerance := break_tolerance kw;
     cval := cval kw;
     return_trend := return_trend kw;
     method := method kw;
     kernel := kernel kw;
     kernel_size := kernel_size kw;
     kernel_period := kernel_period kw;
     proportiontocut := proportiontocut kw |}.

Definition with_break_tolerance (kw : kwargs) (b : option num) : kwargs :=
  {| window_length := window_length kw;
     edge_cutoff := edge_cutoff kw;
     break_tolerance := b;
     cval := cval kw;
     return_trend := return_trend kw;
     method := method kw;
     kernel := kernel kw;
     kernel_size := kernel_size kw;
     kernel_period := kernel_period kw;
     proportiontocut := proportiontocut kw |}.

Definition with_cval (kw : kwargs) (c : option num) : kwargs :=
  {| window_length := window_length kw;
     edge_cutoff := edge_cutoff kw;
     break_tolerance := break_tolerance kw;
     cval := c;
     return_trend := return_trend kw;
     method := method kw;
     kernel := kernel kw;
     kernel_size := kernel_size kw;
     kernel_period := kernel_period kw;
     proportiontocut := proportiontocut kw |}.

Definition with_method (kw : kwargs) (m : string) : kwargs :=
  {| window_length := window_length kw;
     edge_cutoff := edge_cutoff kw;
     break_tolerance := break_tolerance kw;
     cval := cval kw;
     return_trend := return_trend kw;
     method := m;
     kernel := kernel kw;
     kernel_size := kernel_size kw;
     kernel_period := kernel_period kw;
     proportiontocut := proportiontocut kw |}.

Definition with_proportiontocut (kw : kwargs) (p : num) : kwargs :=
  {| window_length := window_length kw;
     edge_cutoff := edge_cutoff kw;
     break_tolerance := break_tolerance kw;
     cval := cval kw;
     return_trend := return_trend kw;
     method := method kw;
     kernel := kernel kw;
     kernel_size := kernel_size kw;
     kernel_period := kernel_period kw;
     proportiontocut := p |}.

Definition with_return_trend (kw : kwargs) (b : bool) : kwargs :=
  {| window_length := window_length kw;
     edge_cutoff := edge_cutoff kw;
     break_tolerance := break_tolerance kw;
     cval := cval kw;
     return_trend := b;
     method := method kw;
     kernel := kernel kw;
     kernel_size := kernel_size kw;
     kernel_period := kernel_period kw;
     proportiontocut := proportiontocut kw |}.

(** ** A runtime to run examples in *)

Module Example.

(** Modelled from the spec: [wotan.gaps.get_gaps_indexes] is not among
    the sources. Section 4.1 of the specification: walk adjacent pairs and
    start a new segment whenever [time[i+1] - time[i] > break_tolerance];
    at least one segment is always emitted. The boundaries come in the
    shape [flatten] reads: segment [i] runs from [gaps_indexes[i]] to
    [gaps_indexes[i+1]]. *)
Fixpoint gap_starts (i : Z) (time : list float) (tol : float) : list Z :=
  match time with
  | x :: ((y :: _) as rest) =>
      if F.gtb (F.to_float64 (F.sub32 y x)) tol
      then (i + 1) :: gap_starts (i + 1) rest tol
      else gap_starts (i + 1) rest tol
  | _ => []
  end.

Definition spec_get_gaps_indexes
    (time : list float) (break_tolerance : num) : result (list Z) :=
  Ok (0 :: gap_starts 0 time (Py.to_float break_tolerance)
        ++ [Z.of_nat (length time)]).

(** Modelled from the spec: [constants.methods] is not among the sources.
    Section 6 lists the nine windowed estimators and the external
    collaborators; these are the names line 87 lets through and the
    segment loop has a branch for. *)
Definition supported_methods : list string :=
  methods ++ ["huber"; "lowess"; "hspline"; "supersmoother"; "cofiam";
              "savgol"; "medfilt"; "gp"; "untrendy"; "pspline"].

(** Modelled from the spec: the estimators of [wotan.slider] and the other
    collaborators are not among the sources. Sections 4.2 and 8: a segment
    of one sample, like any window that holds one sample, gets that
    sample's flux as its trend, for every estimator kind. Every estimator
    of this runtime returns the flux of the segment as its trend: that
    rule on segments of one sample, and a stand-in that keeps the
    same-length contract on longer ones. The three optional packages are
    installed. *)
Definition pointwise : Runtime := {|
  constants_methods := supported_methods;
  get_gaps_indexes := spec_get_gaps_indexes;
  running_segment := fun _ flux _ _ _ _ => Ok flux;
  running_segment_huber := fun _ flux _ _ _ => Ok flux;
  statsmodels_lowess := Some (fun endog _ _ _ => Ok endog);
  detrend_huber_spline := fun _ flux _ => Ok flux;
  supersmoother := Some (fun _ _ _ _ flux => Ok flux);
  detrend_cofiam := fun _ flux _ _ => Ok flux;
  savgol_filter := fun flux _ _ => Ok flux;
  medfilt := fun flux _ => Ok flux;
  make_gp := fun _ flux _ _ _ => Ok flux;
  untrendy_fit_trend := Some (fun _ flux _ => Ok flux);
  pspline := fun _ flux => Ok flux
|}.

(** The same runtime without the optional packages. *)
Definition bare : Runtime := {|
  constants_methods := supported_methods;
  get_gaps_indexes := spec_get_gaps_indexes;
  running_segment := running_segment pointwise;
  running_segment_huber := running_segment_huber pointwise;
  statsmodels_lowess := None;
  detrend_huber_spline := detrend_huber_spline pointwise;
  supersmoother := None;
  detrend_cofiam := detrend_cofiam pointwise;
  savgol_filter := savgol_filter pointwise;
  medfilt := medfilt pointwise;
  make_gp := make_gp pointwise;
  untrendy_fit_trend := None;
  pspline := pspline pointwise
|}.

(** A runtime whose windowed estimator returns one value too many. *)
Definition overlong : Runtime := {|
  constants_methods := supported_methods;
  get_gaps_indexes := spec_get_gaps_indexes;
  running_segment := fun _ flux _ _ _ _ => Ok (flux ++ [F.of_Z 7]);
  running_segment_huber := running_segment_huber pointwise;
  statsmodels_lowess := statsmodels_lowess pointwise;
  detrend_huber_spline := detrend_huber_spline pointwise;
  supersmoother := supersmoother pointwise;
  detrend_cofiam := detrend_cofiam pointwise;
  savgol_filter := savgol_filter pointwise;
  medfilt := medfilt pointwise;
  make_gp := make_gp pointwise;
  untrendy_fit_trend := untrendy_fit_trend pointwise;
  pspline := pspline pointwise
|}.

(** A runtime whose windowed estimator returns no value at all. *)
Definition short : Runtime := {|
  constants_methods := supported_methods;
  get_gaps_indexes := spec_get_gaps_indexes;
  running_segment := fun _ _ _ _ _ _ => Ok [];
  running_segment_huber := running_segment_huber pointwise;
  statsmodels_lowess := statsmodels_lowess pointwise;
  detrend_huber_spline := detrend_huber_spline pointwise;
  supersmoother := supersmoother pointwise;
  detrend_cofiam := detrend_cofiam pointwise;
  savgol_filter := savgol_filter pointwise;
  medfilt := medfilt pointwise;
  make_gp := make_gp pointwise;
  untrendy_fit_trend := untrendy_fit_trend pointwise;
  pspline := pspline pointwise
|}.

(** A runtime whose smoother answers every sample with the span it was
    given. *)
Definition span_reporting : Runtime := {|
  constants_methods := supported_methods;
  get_gaps_indexes := spec_get_gaps_indexes;
  running_segment := running_segment pointwise;
  running_segment_huber := running_segment_huber pointwise;
  statsmodels_lowess := statsmodels_lowess pointwise;
  detrend_huber_spline := detrend_huber_spline pointwise;
  supersmoother := Some (fun _ _ span _ flux => Ok (map (fun _ => span) flux));
  detrend_cofiam := detrend_cofiam pointwise;
  savgol_filter := savgol_filter pointwise;
  medfilt := medfilt pointwise;
  make_gp := make_gp pointwise;
  untrendy_fit_trend := untrendy_fit_trend pointwise;
  pspline := pspline pointwise
|}.

(** Input sequences as objects of a store. *)
Definition sequence (l : list float) : ndarray := mk_ndarray float64 l.

End Example.

(** ** The arrays a run leaves in the store *)

Definition index_error : exn := IndexError "index out of bounds".

(** The trend on the original grid: NaN where the mask is set, the next
    value of [vals] elsewhere. *)
Fixpoint expand (mask : list bool) (vals : list float) : list float :=
  match mask with
  | [] => []
  | true :: mask' => F.nan :: expand mask' vals
  | false :: mask' =>
      match vals with
      | v :: vals' => v :: expand mask' vals'
      | [] => F.nan :: expand mask' []
      end
  end.

(** The float32 copies of lines 150 and 151, the mask of line 152 and the
    compressed series of lines 153 and 154, as functions of the contents of
    the caller's sequences. *)
Definition time32 (ta : ndarray) : list float := map F.to_float32 (data ta).
Definition flux32 (fa : ndarray) : list float := map F.to_float32 (data fa).

Definition nan_mask (ta fa : ndarray) : list bool :=
  zip_with (fun x y => F.isnan (F.mul32 x y)) (time32 ta) (flux32 fa).

Definition time_compressed (ta fa : ndarray) : list float :=
  Np.compress (time32 ta) (nan_mask ta fa).
Definition flux_compressed (ta fa : ndarray) : list float :=
  Np.compress (flux32 fa) (nan_mask ta fa).

(** The four arrays lines 150 to 154 allocate. *)
Definition copies (ta fa : ndarray) : store :=
  [mk_ndarray float32 (time32 ta); mk_ndarray float32 (flux32 fa);
   mk_ndarray float32 (time_compressed ta fa);
   mk_ndarray float32 (flux_compressed ta fa)].

(** The trend and the flattened flux of lines 251 to 256. *)
Definition trend_array (ta fa : ndarray) (trend_flux : list float) : ndarray :=
  mk_ndarray float64 (expand (nan_mask ta fa) trend_flux).
Definition flattened_array (ta fa : ndarray) (trend_flux : list float)
    : ndarray :=
  mk_ndarray float64
    (zip_with F.div64 (flux32 fa) (expand (nan_mask ta fa) trend_flux)).

(** What [flatten] returns once the segment loop has delivered at least
    as many trend values as there are unmasked samples. *)
Definition returned_at (n : nat) (kw' : kwargs) : returned :=
  if return_trend kw'
  then FlattenedAndTrend (n + 5) (n + 4)
  else Flattened (n + 5).

(** ** Predicates of the statements *)

(** [proportiontocut] is a float with [0 < p < 0.5], in the arithmetic of
    Python floats. *)
Definition within_0_half (p : num) : Prop :=
  exists f, p = PFloat f /\
    F.ltb (F.of_Z 0) f = true /\ F.ltb f (F.dec 5 10) = true.

(** [0 < c < 10], in the arithmetic of Python numbers. *)
Definition within_0_10 (c : num) : Prop :=
  Py.gt_lit c 0 = true /\ Py.lt_lit c 10 = true.

(** The boundaries cut a series of [n] samples into consecutive segments:
    they start at 0, never decrease and end at [n] or beyond. *)
Fixpoint chain (lo : Z) (rest : list Z) (n : Z) : Prop :=
  match rest with
  | [] => n <= lo
  | hi :: rest' => lo <= hi /\ chain hi rest' n
  end.

Definition boundaries (gaps_indexes : list Z) (n : nat) : Prop :=
  match gaps_indexes with
  | [] => n = 0%nat
  | lo :: rest => lo = 0 /\ chain lo rest (Z.of_nat n)
  end.

(** The selected estimator answers every segment with a trend of the
    segment's length (section 6 of the specification, the contract of the
    external collaborators). *)
Definition same_length_trend (R : Runtime) (kw : kwargs) (st : settings)
    (time time_compressed : list float) : Prop :=
  forall (ls : loop_state) (time_view flux_view : list float),
    exists ls',
      segment_trend R kw st time time_compressed ls time_view flux_view =
        Ok ls' /\
      length (ls_trend_segment ls') = length flux_view.

(** A run leaves every object of [base] as it was: the store it ends in is
    [base] followed by the objects allocated since. [post] holds of the
    value of a run that returns. *)
Definition keeps {A} (base : store) (m : M A) (post : A -> Prop) : Prop :=
  forall ext : store,
    (exists ext', snd (m (base ++ ext)) = base ++ ext') /\
    (forall a, fst (m (base ++ ext)) = Ok a -> post a).

(** The runtime whose smoother is built with [alpha] whatever it is asked
    for. *)
Definition with_alpha (alpha : option num) (R : Runtime) : Runtime := {|
  constants_methods := constants_methods R;
  get_gaps_indexes := get_gaps_indexes R;
  running_segment := running_segment R;
  running_segment_huber := running_segment_huber R;
  statsmodels_lowess := statsmodels_lowess R;
  detrend_huber_spline := detrend_huber_spline R;
  supersmoother :=
    match supersmoother R with
    | Some smoother => Some (fun _ => smoother alpha)
    | None => None
    end;
  detrend_cofiam := detrend_cofiam R;
  savgol_filter := savgol_filter R;
  medfilt := medfilt R;
  make_gp := make_gp R;
  untrendy_fit_trend := untrendy_fit_trend R;
  pspline := pspline R
|}.

(** The contents of the arrays [flatten] returned. *)
Definition contents (s : store) (r : returned)
    : option (list float * option (list float)) :=
  match r with
  | Flattened l =>
      match s !! l with
      | Some a => Some (data a, None)
      | None => None
      end
  | FlattenedAndTrend l l' =>
      match s !! l, s !! l' with
      | Some a, Some b => Some (data a, Some (data b))
      | _, _ => None
      end
  end.

(** The arrays a call returned all have [n] elements, and the trend is
    among them exactly when it was asked for. *)
Definition full_length (n : nat) (kw : kwargs) (s : store) (r : returned)
    : Prop :=
  match r with
  | Flattened flatten_lc =>
      return_trend kw = false /\
      exists a, s !! flatten_lc = Some a /\ length (data a) = n
  | FlattenedAndTrend flatten_lc trend_lc =>
      return_trend kw = true /\
      exists a b,
        s !! flatten_lc = Some a /\ s !! trend_lc = Some b /\
        length (data a) = n /\ length (data b) = n
  end.

(** The example series: six samples with a gap after the third, one
    missing flux value and one infinite flux value. *)
Definition example_store : store :=
  [Example.sequence (map F.of_Z [0; 1; 2; 10; 11; 12]);
   Example.sequence [F.of_Z 1; F.of_Z 2; F.nan; F.of_Z 4; F.inf; F.of_Z 6]].

(** What the caller sees of a call: the exception, or the contents of the
    arrays it got back. *)
Definition outcome (x : result returned * store)
    : result (option (list float * option (list float))) :=
  match fst x with
  | Ok r => Ok (contents (snd x) r)
  | Raise e => Raise e
  end.

(** The example series with the third time value missing instead of the
    third flux value. *)
Definition example_store' : store :=
  [Example.sequence [F.of_Z 0; F.of_Z 1; F.nan; F.of_Z 10; F.of_Z 11;
                     F.of_Z 12];
   Example.sequence [F.of_Z 1; F.of_Z 2; F.of_Z 3; F.of_Z 4; F.inf;
                     F.of_Z 6]].

(** The package a method imports inside the segment loop (lines 185, 203
    and 236), and whether the runtime has it. *)
Definition required_package (m : string) : option string :=
  if (m =? "lowess")%string then Some "statsmodels"
  else if (m =? "supersmoother")%string then Some "supersmoother"
  else if (m =? "untrendy")%string then Some "untrendy"
  else None.

Definition installed (R : Runtime) (package : string) : bool :=
  if (package =? "statsmodels")%string
  then bool_decide (is_Some (statsmodels_lowess R))
  else if (package =? "supersmoother")%string
  then bool_decide (is_Some (supersmoother R))
  else if (package =? "untrendy")%string
  then bool_decide (is_Some (untrendy_fit_trend R))
  else true.

(** The number of unmasked samples. *)
Definition unmasked (ta fa : ndarray) : nat :=
  length (Np.where_not (nan_mask ta fa)).

(** ** Predicates of the further properties *)

(** A zero paired with an infinity: the one product of two numbers that is
    NaN. *)
Definition zero_times_inf (t f : float) : bool :=
  match t, f with
  | S754_zero _, S754_infinity _ => true
  | S754_infinity _, S754_zero _ => true
  | _, _ => false
  end.

(** Lines 162 to 164: the views the loop cuts from a series, one for every
    pair of neighbouring boundaries. *)
Fixpoint views {A} (gaps_indexes : list Z) (l : list A) : list (list A) :=
  match gaps_indexes with
  | lo :: ((hi :: _) as rest) => Py.slice lo hi l :: views rest l
  | _ => []
  end.

Definition with_edge_cutoff (kw : kwargs) (e : num) : kwargs :=
  {| window_length := window_length kw;
     edge_cutoff := e;
     break_tolerance := break_tolerance kw;
     cval := cval kw;
     return_trend := return_trend kw;
     method := method kw;
     kernel := kernel kw;
     kernel_size := kernel_size kw;
     kernel_period := kernel_period kw;
     proportiontocut := proportiontocut kw |}.

(** The methods whose branch of the segment loop (lines 183 to 200 and 217
    to 246, [savgol] apart) passes no [cval] on. *)
Definition methods_without_cval : list string :=
  ["lowess"; "hspline"; "cofiam"; "medfilt"; "gp"; "untrendy"; "pspline"].

(** What the lines after the segment loop read of it: the exception, or
    [trend_flux]. *)
Definition loop_outcome (r : result loop_state) : result (list float) :=
  match r with
  | Ok ls => Ok (ls_trend_flux ls)
  | Raise e => Raise e
  end.

(** The selected estimator answers every pair of views cut from the
    compressed series with a trend of the views' length: the contract of
    section 6 of the specification, asked of the views the loop can cut
    and of no others. *)
Definition trend_per_view (R : Runtime) (kw : kwargs) (st : settings)
    (time time_compressed flux_compressed : list float) : Prop :=
  forall (ls : loop_state) (lo hi : Z),
    exists ls',
      segment_trend R kw st time time_compressed ls
        (Py.slice lo hi time_compressed) (Py.slice lo hi flux_compressed) =
        Ok ls' /\
      length (ls_trend_segment ls') =
        length (Py.slice lo hi flux_compressed).

(** * Properties *)

(** ** Membership, the monad and the array operations *)

Lemma str_in_spec (x : string) (xs : list string) :
  Py.str_in x xs = true <-> x ∈ xs.
Proof.
  unfold Py.str_in. rewrite existsb_exists. split.
  - intros (y & Hy & Heq). apply String.eqb_eq in Heq. subst.
    by apply list_elem_of_In.
  - intros Hin. exists x. split; [by apply list_elem_of_In|].
    apply String.eqb_refl.
Qed.

Lemma str_in_false (x : string) (xs : list string) :
  Py.str_in x xs = false <-> x ∉ xs.
Proof.
  rewrite <- str_in_spec. destruct (Py.str_in x xs); split; congruence.
Qed.

Lemma bind_ok {A B} (m : M A) (k : A -> M B) (s s' : store) (a : A) :
  m s = (Ok a, s') -> bind m k s = k a s'.
Proof. intros H. unfold bind. by rewrite H. Qed.

Lemma bind_raise {A B} (m : M A) (k : A -> M B) (s s' : store) (e : exn) :
  m s = (Raise e, s') -> bind m k s = (Raise e, s').
Proof. intros H. unfold bind. by rewrite H. Qed.

Lemma lift_run {A} (r : result A) (s : store) : lift r s = (r, s).
Proof. reflexivity. Qed.

Lemma lookup_fresh (s : store) (a : ndarray) : (s ++ [a]) !! length s = Some a.
Proof. by rewrite list_lookup_middle. Qed.

Lemma lookup_old (s ext : store) (l : loc) (a : ndarray) :
  s !! l = Some a -> (s ++ ext) !! l = Some a.
Proof. intros H. by apply lookup_app_l_Some. Qed.

Lemma read_run (s : store) (l : loc) (a : ndarray) :
  s !! l = Some a -> Np.read l s = (Ok a, s).
Proof. intros H. unfold Np.read. by rewrite H. Qed.

Lemma array_float32_run (s : store) (x : loc) (a : ndarray) :
  s !! x = Some a ->
  Np.array_float32 x s =
    (Ok (length s), s ++ [mk_ndarray float32 (map F.to_float32 (data a))]).
Proof.
  intros H. unfold Np.array_float32.
  by rewrite (bind_ok _ _ _ _ _ (read_run _ _ _ H)).
Qed.

Lemma ma_compressed_run (s : store) (x : loc) (a : ndarray) (mask : list bool) :
  s !! x = Some a ->
  Np.ma_compressed x mask s =
    (Ok (length s), s ++ [mk_ndarray (dt a) (Np.compress (data a) mask)]).
Proof.
  intros H. unfold Np.ma_compressed.
  by rewrite (bind_ok _ _ _ _ _ (read_run _ _ _ H)).
Qed.

Lemma divide_run (s : store) (x y : loc) (a b : ndarray) :
  s !! x = Some a -> s !! y = Some b ->
  length (data a) = length (data b) ->
  Np.divide x y s =
    (Ok (length s),
     s ++ [mk_ndarray float64 (zip_with F.div64 (data a) (data b))]).
Proof.
  intros Ha Hb Hlen. unfold Np.divide.
  rewrite (bind_ok _ _ _ _ _ (read_run _ _ _ Ha)).
  rewrite (bind_ok _ _ _ _ _ (read_run _ _ _ Hb)).
  rewrite Hlen, Nat.eqb_refl. reflexivity.
Qed.

(** ** The mask *)

Lemma length_expand (mask : list bool) (vals : list float) :
  length (expand mask vals) = length mask.
Proof.
  revert vals. induction mask as [|[] mask IH]; intros vals; simpl.
  - reflexivity.
  - by rewrite IH.
  - destruct vals; simpl; by rewrite IH.
Qed.

Lemma length_where_not_from (i j : nat) (mask : list bool) :
  length (Np.where_not_from i mask) = length (Np.where_not_from j mask).
Proof.
  revert i j. induction mask as [|[] mask IH]; intros i j; simpl.
  - reflexivity.
  - apply IH.
  - f_equal. apply IH.
Qed.

Lemma length_compress {A} (l : list A) (mask : list bool) :
  length l = length mask ->
  length (Np.compress l mask) = length (Np.where_not mask).
Proof.
  unfold Np.where_not. generalize 0%nat.
  revert mask. induction l as [|x l IH]; intros [|[] mask] i Hlen;
    simpl in *; try discriminate; try reflexivity.
  - apply IH. lia.
  - f_equal. apply IH. lia.
Qed.

Lemma length_isnan_product (t f : list float) (mask : list bool) :
  Np.isnan_product t f = Ok mask ->
  length t = length f /\ length mask = length t.
Proof.
  unfold Np.isnan_product.
  destruct (length t =? length f)%nat eqn:E.
  - intros [= <-]. apply Nat.eqb_eq in E. split; [done|].
    rewrite length_zip_with. lia.
  - destruct (_ || _); discriminate.
Qed.

Lemma isnan_product_eq (t f : list float) :
  length t = length f ->
  Np.isnan_product t f =
    Ok (zip_with (fun x y => F.isnan (F.mul32 x y)) t f).
Proof.
  intros H. unfold Np.isnan_product. by rewrite H, Nat.eqb_refl.
Qed.

(** A masked position holds NaN, whatever the values. *)
Lemma expand_masked (mask : list bool) (vals : list float) (i : nat) :
  mask !! i = Some true -> expand mask vals !! i = Some F.nan.
Proof.
  revert vals i. induction mask as [|b mask IH]; intros vals [|i] H;
    simpl in *; try discriminate.
  - injection H as ->. reflexivity.
  - destruct b; [by apply IH|].
    destruct vals; simpl; by apply IH.
Qed.

(** ** Lines 253 to 254 *)

Lemma getitem_middle (used rest : list float) (v : float) :
  Np.getitem (used ++ v :: rest) (length used) = Ok v.
Proof. unfold Np.getitem. by rewrite list_lookup_middle. Qed.

Lemma getitem_end (used : list float) :
  Np.getitem (used ++ []) (length used) = Raise index_error.
Proof.
  unfold Np.getitem. rewrite app_nil_r.
  by rewrite (lookup_ge_None_2 used (length used)) by lia.
Qed.

Lemma setitem_run (s : store) (a : loc) (x : ndarray) (i : nat) (v : float) :
  s !! a = Some x -> (i < length (data x))%nat ->
  Np.setitem a i v s =
    (Ok tt, <[a := mk_ndarray (dt x) (<[i := v]> (data x))]> s).
Proof.
  intros H Hi. unfold Np.setitem. rewrite H.
  apply Nat.ltb_lt in Hi. by rewrite Hi.
Qed.

Lemma insert_after {A} (pre r : list A) (u v : A) :
  <[length pre := v]> (pre ++ u :: r) = (pre ++ [v]) ++ r.
Proof.
  rewrite <- app_assoc. simpl.
  induction pre as [|x pre IH]; simpl; [done | by f_equal].
Qed.

(** With enough values the loop fills the unmasked positions in order and
    leaves the other positions, and the values beyond the last unmasked
    position, alone. *)
Lemma transplant_run (trend_lc : loc) (mask : list bool) :
  forall (s : store) (pre used rest : list float),
    s !! trend_lc =
      Some (mk_ndarray float64 (pre ++ replicate (length mask) F.nan)) ->
    (length (Np.where_not mask) <= length rest)%nat ->
    transplant trend_lc (Np.where_not_from (length pre) mask)
      (used ++ rest) (length used) s =
    (Ok tt, <[trend_lc := mk_ndarray float64 (pre ++ expand mask rest)]> s).
Proof.
  induction mask as [|b mask IH]; intros s pre used rest Hs Hlen.
  - simpl in *. unfold ret. f_equal. symmetry. by apply list_insert_id.
  - assert (Hcons : forall (v : float) (r : list float),
               pre ++ v :: r = (pre ++ [v]) ++ r)
      by (intros; by rewrite <- app_assoc).
    assert (Hpre : forall v : float, length (pre ++ [v]) = S (length pre))
      by (intros; rewrite length_app; simpl; lia).
    destruct b; simpl in *.
    + rewrite <- (Hpre F.nan), (Hcons F.nan (expand mask rest)). apply IH.
      * by rewrite <- Hcons.
      * unfold Np.where_not in *.
        by rewrite (length_where_not_from 0 1).
    + destruct rest as [|v rest]; simpl in Hlen; [lia|].
      rewrite getitem_middle, (bind_ok _ _ _ _ v (lift_run _ _)).
      erewrite bind_ok; last first.
      { apply setitem_run; [exact Hs|].
        simpl. rewrite length_app. simpl. lia. }
      simpl.
      replace (<[length pre:=v]> (pre ++ F.nan :: replicate (length mask) F.nan))
        with ((pre ++ [v]) ++ replicate (length mask) F.nan); last first.
      { symmetry. apply insert_after. }
      rewrite <- (Hpre v).
      replace (used ++ v :: rest) with ((used ++ [v]) ++ rest)
        by (by rewrite <- app_assoc).
      replace (S (length used)) with (length (used ++ [v]))
        by (rewrite length_app; simpl; lia).
      rewrite IH.
      * rewrite list_insert_insert_eq. by rewrite <- Hcons.
      * apply list_lookup_insert_eq. by eapply lookup_lt_Some.
      * unfold Np.where_not in *.
        rewrite (length_where_not_from 0 1). lia.
Qed.

(** With too few values the loop stops with IndexError at the first
    unmasked position it has no value for. *)
Lemma transplant_short (trend_lc : loc) (mask : list bool) :
  forall (s : store) (pre used rest : list float),
    s !! trend_lc =
      Some (mk_ndarray float64 (pre ++ replicate (length mask) F.nan)) ->
    (length rest < length (Np.where_not mask))%nat ->
    exists s',
      transplant trend_lc (Np.where_not_from (length pre) mask)
        (used ++ rest) (length used) s = (Raise index_error, s').
Proof.
  induction mask as [|b mask IH]; intros s pre used rest Hs Hlen.
  - simpl in Hlen. lia.
  - assert (Hcons : forall (v : float) (r : list float),
               pre ++ v :: r = (pre ++ [v]) ++ r)
      by (intros; by rewrite <- app_assoc).
    assert (Hpre : forall v : float, length (pre ++ [v]) = S (length pre))
      by (intros; rewrite length_app; simpl; lia).
    destruct b; simpl in *.
    + rewrite <- (Hpre F.nan). apply IH.
      * by rewrite <- Hcons.
      * unfold Np.where_not in *.
        by rewrite (length_where_not_from 0 1).
    + destruct rest as [|v rest].
      * exists s. erewrite bind_raise; [reflexivity|].
        rewrite lift_run. by rewrite getitem_end.
      * rewrite getitem_middle, (bind_ok _ _ _ _ v (lift_run _ _)).
        erewrite bind_ok; last first.
        { apply setitem_run; [exact Hs|].
          simpl. rewrite length_app. simpl. lia. }
        simpl.
        replace (<[length pre:=v]>
                   (pre ++ F.nan :: replicate (length mask) F.nan))
          with ((pre ++ [v]) ++ replicate (length mask) F.nan); last first.
        { symmetry. apply insert_after. }
        rewrite <- (Hpre v).
        replace (used ++ v :: rest) with ((used ++ [v]) ++ rest)
          by (by rewrite <- app_assoc).
        replace (S (length used)) with (length (used ++ [v]))
          by (rewrite length_app; simpl; lia).
        apply IH.
        -- apply list_lookup_insert_eq. by eapply lookup_lt_Some.
        -- simpl in Hlen. unfold Np.where_not in *.
           rewrite (length_where_not_from 0 1). lia.
Qed.

(** ** What a run does to the store *)

Section Frame.

Variable base : store.

Lemma keeps_lift {A} (r : result A) (post : A -> Prop) :
  (forall a, r = Ok a -> post a) -> keeps base (lift r) post.
Proof.
  intros H ext. split; [by exists ext|]. simpl. exact H.
Qed.

Lemma keeps_ret {A} (a : A) (post : A -> Prop) :
  post a -> keeps base (ret a) post.
Proof.
  intros H ext. split; [by exists ext|]. simpl. by intros ? [= <-].
Qed.

Lemma keeps_raise {A} (e : exn) (post : A -> Prop) :
  keeps base (raise e) post.
Proof. intros ext. split; [by exists ext|]. simpl. discriminate. Qed.

Lemma keeps_bind {A B} (m : M A) (k : A -> M B)
    (mid : A -> Prop) (post : B -> Prop) :
  keeps base m mid ->
  (forall a, mid a -> keeps base (k a) post) ->
  keeps base (bind m k) post.
Proof.
  intros Hm Hk ext. destruct (Hm ext) as [(ext1 & Hs) Hmid].
  unfold bind. destruct (m (base ++ ext)) as [[a|e] s1] eqn:E; simpl in *.
  - subst s1. apply Hk. by apply Hmid.
  - split; [by exists ext1 | discriminate].
Qed.

Lemma keeps_alloc (a : ndarray) :
  keeps base (Np.alloc a) (fun l => (length base <= l)%nat).
Proof.
  intros ext. unfold Np.alloc. simpl. split.
  - exists (ext ++ [a]). by rewrite app_assoc.
  - intros l [= <-]. rewrite length_app. lia.
Qed.

Lemma keeps_read (l : loc) : keeps base (Np.read l) (fun _ => True).
Proof.
  intros ext. unfold Np.read.
  destruct ((base ++ ext) !! l); simpl; split; eauto.
Qed.

(** A write to an object allocated after [base] leaves [base] alone. *)
Lemma keeps_setitem (a : loc) (i : nat) (v : float) :
  (length base <= a)%nat -> keeps base (Np.setitem a i v) (fun _ => True).
Proof.
  intros Ha ext. unfold Np.setitem.
  destruct ((base ++ ext) !! a) as [x|]; simpl; [|split; eauto].
  destruct (i <? length (data x))%nat; simpl; [|split; eauto].
  split; [|done].
  eexists. by rewrite insert_app_r_alt.
Qed.

Lemma keeps_transplant (trend_lc : loc) (mask : list nat)
    (trend_flux : list float) (idx : nat) :
  (length base <= trend_lc)%nat ->
  keeps base (transplant trend_lc mask trend_flux idx) (fun _ => True).
Proof.
  intros Hl. revert idx.
  induction mask as [|i mask IH]; intros idx; simpl.
  - by apply keeps_ret.
  - eapply keeps_bind; [by apply (keeps_lift _ (fun _ => True))|].
    intros v _. eapply keeps_bind; [by apply keeps_setitem|].
    intros _ _. apply IH.
Qed.

Lemma keeps_weaken {A} (m : M A) (post post' : A -> Prop) :
  (forall a, post a -> post' a) -> keeps base m post -> keeps base m post'.
Proof.
  intros Hw Hm ext. destruct (Hm ext) as [Hs Hp]. split; [done|].
  intros a Ha. apply Hw. by apply Hp.
Qed.

Lemma keeps_array_float32 (x : loc) :
  keeps base (Np.array_float32 x) (fun l => (length base <= l)%nat).
Proof.
  unfold Np.array_float32.
  eapply keeps_bind; [apply keeps_read|]. intros a _. apply keeps_alloc.
Qed.

Lemma keeps_ma_compressed (x : loc) (mask : list bool) :
  keeps base (Np.ma_compressed x mask) (fun l => (length base <= l)%nat).
Proof.
  unfold Np.ma_compressed.
  eapply keeps_bind; [apply keeps_read|]. intros a _. apply keeps_alloc.
Qed.

Lemma keeps_divide (x y : loc) :
  keeps base (Np.divide x y) (fun _ => True).
Proof.
  unfold Np.divide.
  eapply keeps_bind; [apply keeps_read|]. intros a _.
  eapply keeps_bind; [apply keeps_read|]. intros b _.
  destruct (_ =? _)%nat.
  - eapply keeps_weaken; [|apply keeps_alloc]. done.
  - apply keeps_raise.
Qed.

(** [flatten] writes to no object that existed before the call. *)
Lemma keeps_flatten (R : Runtime) (time flux : loc) (kw : kwargs) :
  keeps base (flatten R time flux kw) (fun _ => True).
Proof.
  unfold flatten.
  eapply keeps_bind; [by apply (keeps_lift _ (fun _ => True))|].
  intros st _.
  eapply keeps_bind; [apply keeps_array_float32|]. intros time' _.
  eapply keeps_bind; [apply keeps_array_float32|]. intros flux' _.
  eapply keeps_bind; [apply keeps_read|]. intros t _.
  eapply keeps_bind; [apply keeps_read|]. intros f _.
  eapply keeps_bind; [by apply (keeps_lift _ (fun _ => True))|].
  intros mask _.
  eapply keeps_bind; [apply keeps_ma_compressed|]. intros tc' _.
  eapply keeps_bind; [apply keeps_ma_compressed|]. intros fc' _.
  eapply keeps_bind; [apply keeps_read|]. intros tc _.
  eapply keeps_bind; [apply keeps_read|]. intros fc _.
  eapply keeps_bind; [by apply (keeps_lift _ (fun _ => True))|].
  intros gaps _.
  eapply keeps_bind; [by apply (keeps_lift _ (fun _ => True))|].
  intros ls _.
  eapply keeps_bind; [apply keeps_alloc|]. intros trend_lc Htrend.
  eapply keeps_bind; [by apply keeps_transplant|]. intros _ _.
  eapply keeps_bind; [apply keeps_divide|]. intros flatten_lc _.
  by apply keeps_ret.
Qed.

End Frame.

(** ** The run of [flatten] *)

Section Run.

Variable R : Runtime.
Variables time flux : loc.
Variable kw : kwargs.
Variable s : store.
Variables ta fa : ndarray.
Variable st : settings.

Hypothesis Htime : s !! time = Some ta.
Hypothesis Hflux : s !! flux = Some fa.
Hypothesis Hlen : length (data ta) = length (data fa).
Hypothesis Hpro : prologue R kw = Ok st.

Lemma length_nan_mask : length (nan_mask ta fa) = length (data ta).
Proof.
  unfold nan_mask, time32, flux32.
  rewrite length_zip_with, !length_map. lia.
Qed.

(** Lines 87 to 154 leave the four copies behind the caller's store. *)
Lemma flatten_prefix :
  flatten R time flux kw s =
  (do gaps_indexes <-
     lift (get_gaps_indexes R (time_compressed ta fa)
             (s_break_tolerance st));
   do ls <- lift (segment_loop R kw st (time32 ta)
                    (time_compressed ta fa) (flux_compressed ta fa)
                    gaps_indexes (initial_loop_state st));
   do trend_lc <- Np.full_nan (length (time32 ta));
   do _ <- transplant trend_lc (Np.where_not (nan_mask ta fa))
             (ls_trend_flux ls) 0;
   do flatten_lc <- Np.divide (S (length s)) trend_lc;
   ret (if return_trend kw
        then FlattenedAndTrend flatten_lc trend_lc
        else Flattened flatten_lc))%M (s ++ copies ta fa).
Proof.
  unfold flatten.
  rewrite Hpro, (bind_ok _ _ _ _ st (lift_run _ _)).
  erewrite bind_ok by (apply array_float32_run; exact Htime).
  erewrite bind_ok; last first.
  { apply array_float32_run. apply lookup_old. exact Hflux. }
  fold (time32 ta). fold (flux32 fa).
  set (s1 := s ++ [mk_ndarray float32 (time32 ta)]).
  assert (H1 : (s1 ++ [mk_ndarray float32 (flux32 fa)]) !! length s =
               Some (mk_ndarray float32 (time32 ta))).
  { apply lookup_old. apply lookup_fresh. }
  assert (H2 : (s1 ++ [mk_ndarray float32 (flux32 fa)]) !! length s1 =
               Some (mk_ndarray float32 (flux32 fa)))
    by apply lookup_fresh.
  erewrite bind_ok by (apply read_run; exact H1).
  erewrite bind_ok by (apply read_run; exact H2).
  cbn [data dt].
  rewrite isnan_product_eq
    by (unfold time32, flux32; rewrite !length_map; exact Hlen).
  fold (nan_mask ta fa).
  rewrite (bind_ok _ _ _ _ (nan_mask ta fa) (lift_run _ _)).
  erewrite bind_ok by (apply ma_compressed_run; exact H1).
  erewrite bind_ok; last first.
  { apply ma_compressed_run. apply lookup_old. exact H2. }
  cbn [data dt].
  fold (time_compressed ta fa). fold (flux_compressed ta fa).
  set (s2 := s1 ++ [mk_ndarray float32 (flux32 fa)]).
  set (s3 := s2 ++ [mk_ndarray float32 (time_compressed ta fa)]).
  erewrite bind_ok; last first.
  { apply read_run. apply lookup_old. apply lookup_fresh. }
  erewrite bind_ok by (apply read_run; apply lookup_fresh).
  cbn [data dt].
  replace (s3 ++ [mk_ndarray float32 (flux_compressed ta fa)])
    with (s ++ copies ta fa); last first.
  { unfold s3, s2, s1, copies. by rewrite <- !app_assoc. }
  replace (length s1) with (S (length s)); last first.
  { unfold s1. rewrite length_app. simpl. lia. }
  reflexivity.
Qed.

Lemma lookup_flux_copy (ext : store) :
  ((s ++ copies ta fa) ++ ext) !! S (length s) =
  Some (mk_ndarray float32 (flux32 fa)).
Proof.
  apply lookup_old. rewrite lookup_app_r by lia.
  replace (S (length s) - length s)%nat with 1%nat by lia. reflexivity.
Qed.

Lemma full_nan_run (s' : store) (n : nat) :
  Np.full_nan n s' =
  (Ok (length s'), s' ++ [mk_ndarray float64 (replicate n F.nan)]).
Proof. reflexivity. Qed.

Lemma insert_fresh (s' : store) (a b : ndarray) :
  <[length s' := b]> (s' ++ [a]) = s' ++ [b].
Proof.
  replace (length s') with (length s' + 0)%nat at 1 by lia.
  by rewrite insert_app_r.
Qed.

Variable gaps_indexes : list Z.
Variable ls : loop_state.

Hypothesis Hgaps :
  get_gaps_indexes R (time_compressed ta fa) (s_break_tolerance st) =
  Ok gaps_indexes.
Hypothesis Hloop :
  segment_loop R kw st (time32 ta) (time_compressed ta fa)
    (flux_compressed ta fa) gaps_indexes (initial_loop_state st) = Ok ls.

Lemma flatten_enough :
  (length (Np.where_not (nan_mask ta fa)) <= length (ls_trend_flux ls))%nat ->
  flatten R time flux kw s =
  (Ok (returned_at (length s) kw),
   s ++ copies ta fa ++
     [trend_array ta fa (ls_trend_flux ls);
      flattened_array ta fa (ls_trend_flux ls)]).
Proof.
  intros Henough. rewrite flatten_prefix.
  rewrite Hgaps, (bind_ok _ _ _ _ gaps_indexes (lift_run _ _)).
  rewrite Hloop, (bind_ok _ _ _ _ ls (lift_run _ _)).
  rewrite (bind_ok _ _ _ _ _ (full_nan_run _ _)).
  set (s4 := s ++ copies ta fa).
  assert (Hn : length (time32 ta) = length (nan_mask ta fa)).
  { rewrite length_nan_mask. unfold time32. by rewrite length_map. }
  rewrite Hn.
  pose proof (transplant_run (length s4) (nan_mask ta fa)
                (s4 ++ [mk_ndarray float64
                          (replicate (length (nan_mask ta fa)) F.nan)])
                [] [] (ls_trend_flux ls)) as Htr.
  simpl in Htr. unfold Np.where_not.
  rewrite (bind_ok _ _ _ _ tt (Htr (lookup_fresh _ _) Henough)).
  rewrite insert_fresh.
  erewrite bind_ok; last first.
  { apply divide_run.
    - apply lookup_flux_copy.
    - apply lookup_fresh.
    - cbn [data]. rewrite length_expand, length_nan_mask.
      unfold flux32. rewrite length_map. by symmetry. }
  unfold ret, returned_at. cbn [data].
  replace (length (s4 ++ [mk_ndarray float64
                            (expand (nan_mask ta fa) (ls_trend_flux ls))]))
    with (length s + 5)%nat; last first.
  { unfold s4. rewrite !length_app. simpl. lia. }
  replace (length s4) with (length s + 4)%nat; last first.
  { unfold s4. rewrite length_app. simpl. lia. }
  f_equal. unfold s4, trend_array, flattened_array.
  by rewrite <- !app_assoc.
Qed.

(** With fewer trend values than unmasked samples, line 254 raises. *)
Lemma flatten_too_few :
  (length (ls_trend_flux ls) < length (Np.where_not (nan_mask ta fa)))%nat ->
  exists rest,
    flatten R time flux kw s =
      (Raise index_error, s ++ copies ta fa ++ rest).
Proof.
  intros Hfew. rewrite flatten_prefix.
  rewrite Hgaps, (bind_ok _ _ _ _ gaps_indexes (lift_run _ _)).
  rewrite Hloop, (bind_ok _ _ _ _ ls (lift_run _ _)).
  rewrite (bind_ok _ _ _ _ _ (full_nan_run _ _)).
  set (s4 := s ++ copies ta fa).
  assert (Hn : length (time32 ta) = length (nan_mask ta fa)).
  { rewrite length_nan_mask. unfold time32. by rewrite length_map. }
  rewrite Hn.
  destruct (transplant_short (length s4) (nan_mask ta fa)
              (s4 ++ [mk_ndarray float64
                        (replicate (length (nan_mask ta fa)) F.nan)])
              [] [] (ls_trend_flux ls) (lookup_fresh _ _) Hfew)
    as (s' & Htr).
  simpl in Htr. unfold Np.where_not.
  destruct (keeps_transplant s4 (length s4)
              (Np.where_not_from 0 (nan_mask ta fa)) (ls_trend_flux ls) 0
              (le_n _)
              [mk_ndarray float64
                 (replicate (length (nan_mask ta fa)) F.nan)])
    as [(rest & Hrest) _].
  rewrite Htr in Hrest. simpl in Hrest. subst s'.
  exists rest. rewrite (bind_raise _ _ _ _ _ Htr).
  unfold s4. by rewrite <- app_assoc.
Qed.

End Run.

(** ** Validation (lines 87 to 112) *)

Lemma prologue_unknown (R : Runtime) (kw : kwargs) :
  method kw ∉ constants_methods R -> prologue R kw = Raise unknown_method.
Proof.
  intros H. apply str_in_false in H. unfold prologue. by rewrite H.
Qed.

Lemma flatten_prologue_raise
    (R : Runtime) (time flux : loc) (kw : kwargs) (s : store) (e : exn) :
  prologue R kw = Raise e -> flatten R time flux kw s = (Raise e, s).
Proof.
  intros H. unfold flatten. rewrite H.
  by rewrite (bind_raise _ _ _ _ _ (lift_run _ _)).
Qed.

(** C3. A method name outside the supported set makes [flatten] raise
    the unknown-method error at once: whatever the other arguments, the
    runtime and the store are, the result is that exception and the store
    is the one the call started in, so nothing was allocated and no
    estimator was consulted. *)
Theorem C3_unknown_method_raises_at_once
    (R : Runtime) (time flux : loc) (kw : kwargs) (s : store) :
  method kw ∉ constants_methods R ->
  flatten R time flux kw s = (Raise unknown_method, s).
Proof.
  intros H. apply flatten_prologue_raise. by apply prologue_unknown.
Qed.

Lemma C3_witness :
  ("not_a_method" ∉ Example.supported_methods) /\
  flatten Example.pointwise 0%nat 1%nat
    (with_method defaults "not_a_method") [] =
  (Raise (ValueError "Unknown detrending method"), []).
Proof.
  assert (H : "not_a_method" ∉ Example.supported_methods)
    by (apply str_in_false; vm_compute; reflexivity).
  split; [exact H|].
  apply (C3_unknown_method_raises_at_once Example.pointwise 0%nat 1%nat
           (with_method defaults "not_a_method") []).
  exact H.
Defined.

(** The order of floats: swapping the operands of a comparison swaps its
    outcome. *)
Lemma SFcompare_swap (x y : float) :
  SFcompare y x = option_map CompOpp (SFcompare x y).
Proof.
  destruct x as [sx|sx| |sx mx ex], y as [sy|sy| |sy my ey]; simpl;
    try reflexivity;
    try (destruct sx; reflexivity);
    try (destruct sy; reflexivity);
    try (destruct sx, sy; reflexivity).
  destruct sx, sy; simpl; try reflexivity;
    rewrite (Z.compare_antisym ex ey);
    destruct (ex ?= ey) eqn:E; simpl; try reflexivity;
    rewrite (Pos.compare_cont_antisym mx my Eq); reflexivity.
Qed.

Lemma SFcompare_nan_free (x y : float) :
  F.isnan x = false -> F.isnan y = false ->
  exists c, SFcompare x y = Some c.
Proof.
  destruct x, y; simpl; intros; try discriminate; eauto.
Qed.

(** Every number outside the open interval is caught by line 109 or by
    line 111. *)
Lemma check_proportiontocut_rejects (p : num) :
  p <> PFloat F.nan -> ~ within_0_half p ->
  check_proportiontocut p = Raise (ValueError error_text).
Proof.
  intros Hnan Hout. destruct p as [z|f]; [reflexivity|].
  unfold check_proportiontocut.
  destruct (F.geb f (F.dec 5 10) || F.leb f (F.of_Z 0)) eqn:E; [done|].
  exfalso. apply Hout. exists f. split; [done|].
  apply orb_false_elim in E as [Hge Hle].
  assert (Hf : F.isnan f = false).
  { destruct f; try reflexivity. by destruct Hnan. }
  unfold F.geb, F.leb, F.ltb, SFleb, SFltb in *.
  rewrite (SFcompare_swap f (F.of_Z 0)).
  destruct (SFcompare_nan_free f (F.of_Z 0) Hf eq_refl) as [c0 Hc0].
  rewrite (SFcompare_swap f (F.dec 5 10)) in Hge.
  destruct (SFcompare_nan_free f (F.dec 5 10) Hf eq_refl) as [c1 Hc1].
  rewrite Hc0 in *. rewrite Hc1 in *.
  destruct c0, c1; simpl in *; try discriminate; done.
Qed.

Lemma prologue_proportiontocut (R : Runtime) (kw : kwargs) :
  method kw ∈ constants_methods R ->
  check_proportiontocut (proportiontocut kw) = Raise (ValueError error_text) ->
  prologue R kw = Raise (ValueError error_text).
Proof.
  intros Hin Hp. apply str_in_spec in Hin.
  unfold prologue. rewrite Hin, Hp. reflexivity.
Qed.

Lemma check_proportiontocut_accepts (p : num) :
  within_0_half p -> check_proportiontocut p = Ok tt.
Proof.
  intros (f & -> & Hlo & Hhi). unfold check_proportiontocut.
  unfold F.geb, F.leb, F.ltb, SFleb, SFltb in *.
  rewrite (SFcompare_swap (F.of_Z 0) f).
  rewrite (SFcompare_swap f (F.dec 5 10)).
  destruct (SFcompare (F.of_Z 0) f) as [[]|]; try discriminate.
  destruct (SFcompare f (F.dec 5 10)) as [[]|]; try discriminate.
  reflexivity.
Qed.

(** ** The segment loop *)

Lemma segment_loop_cons (R : Runtime) (kw : kwargs) (st : settings)
    (t tc fc : list float) (lo hi : Z) (rest : list Z) (ls : loop_state) :
  segment_loop R kw st t tc fc (lo :: hi :: rest) ls =
  match segment_step R kw st t tc fc lo hi ls with
  | Ok ls' => segment_loop R kw st t tc fc (hi :: rest) ls'
  | Raise e => Raise e
  end.
Proof. reflexivity. Qed.

Lemma segment_loop_one (R : Runtime) (kw : kwargs) (st : settings)
    (t tc fc : list float) (lo : Z) (ls : loop_state) :
  segment_loop R kw st t tc fc [lo] ls = Ok ls.
Proof. reflexivity. Qed.

(** An exception of the first segment ends the loop. *)
Lemma segment_loop_first_raises (R : Runtime) (kw : kwargs) (st : settings)
    (t tc fc : list float) (lo hi : Z) (rest : list Z) (ls : loop_state)
    (e : exn) :
  segment_trend R kw st t tc ls (Py.slice lo hi tc) (Py.slice lo hi fc) =
    Raise e ->
  segment_loop R kw st t tc fc (lo :: hi :: rest) ls = Raise e.
Proof.
  intros H. rewrite segment_loop_cons. unfold segment_step.
  by rewrite H.
Qed.

Lemma views_cons {A} (lo hi : Z) (rest : list Z) (l : list A) :
  views (lo :: hi :: rest) l = Py.slice lo hi l :: views (hi :: rest) l.
Proof. reflexivity. Qed.

(** The windowed estimators are asked once for every pair of views, with
    the window length the loop started with, the edge cutoff, [cval] and
    the method code. *)
Lemma segment_loop_windowed (R : Runtime) (kw : kwargs) (st : settings)
    (t tc fc : list float) (code : Z) :
  Py.str_in (method kw) methods = true ->
  s_method_code st = Some code ->
  forall (gaps_indexes : list Z) (ls ls' : loop_state),
    segment_loop R kw st t tc fc gaps_indexes ls = Ok ls' ->
    exists segs,
      Forall2
        (fun view seg =>
           running_segment R view.1 view.2 (ls_window_length ls)
             (edge_cutoff kw) (s_cval st) code = Ok seg)
        (zip (views gaps_indexes tc) (views gaps_indexes fc)) segs /\
      ls_trend_flux ls' = ls_trend_flux ls ++ concat segs.
Proof.
  intros Hm Hcode.
  induction gaps_indexes as [|lo rest IH]; intros ls ls' Hloop.
  - injection Hloop as <-. exists []. split; [constructor|].
    by rewrite app_nil_r.
  - destruct rest as [|hi rest].
    + injection Hloop as <-. exists []. split; [constructor|].
      by rewrite app_nil_r.
    + rewrite segment_loop_cons in Hloop. unfold segment_step in Hloop.
      unfold segment_trend in Hloop. cbv zeta in Hloop.
      rewrite Hm, Hcode in Hloop.
      destruct (running_segment R (Py.slice lo hi tc) (Py.slice lo hi fc)
                  (ls_window_length ls) (edge_cutoff kw) (s_cval st) code)
        as [seg|e] eqn:Hseg; [|discriminate].
      cbn [rbind with_segment ls_window_length ls_trend_segment
           ls_trend_flux] in Hloop.
      destruct (IH _ _ Hloop) as (segs & Hall & Hflux).
      exists (seg :: segs). split.
      * rewrite !views_cons. simpl zip. constructor; [exact Hseg|].
        exact Hall.
      * rewrite Hflux. cbn [ls_trend_flux]. simpl concat.
        by rewrite <- app_assoc.
Qed.

(** The same for [huber] (lines 175 to 182). *)
Lemma segment_loop_huber (R : Runtime) (kw : kwargs) (st : settings)
    (t tc fc : list float) :
  method kw = "huber" ->
  forall (gaps_indexes : list Z) (ls ls' : loop_state),
    segment_loop R kw st t tc fc gaps_indexes ls = Ok ls' ->
    exists segs,
      Forall2
        (fun view seg =>
           running_segment_huber R view.1 view.2 (ls_window_length ls)
             (edge_cutoff kw) (s_cval st) = Ok seg)
        (zip (views gaps_indexes tc) (views gaps_indexes fc)) segs /\
      ls_trend_flux ls' = ls_trend_flux ls ++ concat segs.
Proof.
  intros Hm.
  induction gaps_indexes as [|lo rest IH]; intros ls ls' Hloop.
  - injection Hloop as <-. exists []. split; [constructor|].
    by rewrite app_nil_r.
  - destruct rest as [|hi rest].
    + injection Hloop as <-. exists []. split; [constructor|].
      by rewrite app_nil_r.
    + rewrite segment_loop_cons in Hloop. unfold segment_step in Hloop.
      unfold segment_trend in Hloop. cbv zeta in Hloop.
      rewrite Hm in Hloop.
      change (Py.str_in "huber" methods) with false in Hloop.
      change ("huber" =? "huber")%string with true in Hloop.
      cbv iota in Hloop.
      destruct (running_segment_huber R (Py.slice lo hi tc)
                  (Py.slice lo hi fc)
                  (ls_window_length ls) (edge_cutoff kw) (s_cval st))
        as [seg|e] eqn:Hseg; [|discriminate].
      cbn [rbind with_segment ls_window_length ls_trend_segment
           ls_trend_flux] in Hloop.
      destruct (IH _ _ Hloop) as (segs & Hall & Hflux).
      exists (seg :: segs). split.
      * rewrite !views_cons. simpl zip. constructor; [exact Hseg|].
        exact Hall.
      * rewrite Hflux. cbn [ls_trend_flux]. simpl concat.
        by rewrite <- app_assoc.
Qed.

(** No branch of the dispatch touches [trend_flux]. *)
Lemma segment_trend_flux (R : Runtime) (kw : kwargs) (st : settings)
    (t tc : list float) (ls ls' : loop_state) (tv fv : list float) :
  segment_trend R kw st t tc ls tv fv = Ok ls' ->
  ls_trend_flux ls' = ls_trend_flux ls.
Proof.
  unfold segment_trend, rbind, with_segment. intros H.
  repeat case_match; simplify_eq; reflexivity.
Qed.

(** The length of a slice between two ordered, non-negative bounds. *)
Lemma length_slice {A} (l : list A) (lo hi : Z) :
  0 <= lo -> lo <= hi ->
  Z.of_nat (length (Py.slice lo hi l)) =
  Z.min hi (Z.of_nat (length l)) - Z.min lo (Z.of_nat (length l)).
Proof.
  intros Hlo Hhi. unfold Py.slice, Py.clamp.
  destruct (lo <? 0) eqn:E1; [apply Z.ltb_lt in E1; lia|].
  destruct (hi <? 0) eqn:E2; [apply Z.ltb_lt in E2; lia|].
  rewrite length_take, length_drop. lia.
Qed.

(** With boundaries that cover the series and an estimator that answers
    every segment with a trend of its length, the loop ends with one
    trend value for every sample from [lo] on. *)
Lemma segment_loop_total (R : Runtime) (kw : kwargs) (st : settings)
    (t tc fc : list float) :
  same_length_trend R kw st t tc ->
  forall (rest : list Z) (lo : Z) (ls : loop_state),
    0 <= lo ->
    chain lo rest (Z.of_nat (length fc)) ->
    exists ls',
      segment_loop R kw st t tc fc (lo :: rest) ls = Ok ls' /\
      Z.of_nat (length (ls_trend_flux ls')) =
        Z.of_nat (length (ls_trend_flux ls)) +
        (Z.of_nat (length fc) - Z.min lo (Z.of_nat (length fc))).
Proof.
  intros Hest. induction rest as [|hi rest IH]; intros lo ls Hlo Hchain.
  - simpl in Hchain. exists ls. rewrite segment_loop_one. split; [done|]. lia.
  - destruct Hchain as [Hhi Hchain].
    rewrite segment_loop_cons. unfold segment_step.
    destruct (Hest ls (Py.slice lo hi tc) (Py.slice lo hi fc))
      as (ls1 & Hseg & Hlen).
    rewrite Hseg. cbn [rbind].
    pose proof (segment_trend_flux _ _ _ _ _ _ _ _ _ Hseg) as Hflux.
    match goal with
    | |- exists _, segment_loop _ _ _ _ _ _ _ ?ls2 = _ /\ _ =>
        destruct (IH hi ls2 ltac:(lia) Hchain) as (ls' & Hloop & Htotal)
    end.
    exists ls'. split; [exact Hloop|].
    rewrite Htotal. cbn [ls_trend_flux].
    rewrite length_app, Hflux, Hlen, Nat2Z.inj_add.
    rewrite (length_slice fc lo hi) by lia. lia.
Qed.

Lemma segment_loop_covers (R : Runtime) (kw : kwargs) (st : settings)
    (t tc fc : list float) (gaps_indexes : list Z) :
  same_length_trend R kw st t tc ->
  boundaries gaps_indexes (length fc) ->
  exists ls,
    segment_loop R kw st t tc fc gaps_indexes (initial_loop_state st) =
      Ok ls /\
    length (ls_trend_flux ls) = length fc.
Proof.
  intros Hest Hb. destruct gaps_indexes as [|lo rest]; simpl in Hb.
  - exists (initial_loop_state st). split; [done|]. by rewrite Hb.
  - destruct Hb as [-> Hchain].
    destruct (segment_loop_total R kw st t tc fc Hest rest 0
                (initial_loop_state st) ltac:(lia) Hchain)
      as (ls & Hloop & Hlen).
    exists ls. split; [done|]. simpl in Hlen. lia.
Qed.

(** ** Every way through [flatten] *)

Lemma flatten_shape_mismatch
    (R : Runtime) (time flux : loc) (kw : kwargs) (s : store)
    (ta fa : ndarray) (st : settings) :
  s !! time = Some ta -> s !! flux = Some fa ->
  prologue R kw = Ok st ->
  length (data ta) <> length (data fa) ->
  exists e,
    flatten R time flux kw s =
      (Raise e,
       s ++ [mk_ndarray float32 (time32 ta); mk_ndarray float32 (flux32 fa)]).
Proof.
  intros Htime Hflux Hpro Hne. unfold flatten.
  rewrite Hpro, (bind_ok _ _ _ _ st (lift_run _ _)).
  erewrite bind_ok by (apply array_float32_run; exact Htime).
  erewrite bind_ok; last first.
  { apply array_float32_run. apply lookup_old. exact Hflux. }
  erewrite bind_ok; last first.
  { apply read_run. apply lookup_old. apply lookup_fresh. }
  erewrite bind_ok by (apply read_run; apply lookup_fresh).
  cbn [data]. unfold Np.isnan_product. rewrite !length_map.
  apply Nat.eqb_neq in Hne. rewrite Hne.
  destruct (_ || _); eexists;
    rewrite (bind_raise _ _ _ _ _ (lift_run _ _));
    unfold time32, flux32; by rewrite <- app_assoc.
Qed.

(** A call on two sequences that returns has passed validation, found the
    sequences of equal length, got boundaries and a trend for every
    segment, and had enough trend values; it leaves the four copies, the
    trend and the flattened flux behind the caller's store. *)
Lemma flatten_ok_inv
    (R : Runtime) (time flux : loc) (kw : kwargs) (s s' : store)
    (ta fa : ndarray) (r : returned) :
  s !! time = Some ta -> s !! flux = Some fa ->
  flatten R time flux kw s = (Ok r, s') ->
  exists st gaps_indexes ls,
    prologue R kw = Ok st /\
    length (data ta) = length (data fa) /\
    get_gaps_indexes R (time_compressed ta fa) (s_break_tolerance st) =
      Ok gaps_indexes /\
    segment_loop R kw st (time32 ta) (time_compressed ta fa)
      (flux_compressed ta fa) gaps_indexes (initial_loop_state st) = Ok ls /\
    (length (Np.where_not (nan_mask ta fa)) <= length (ls_trend_flux ls))%nat /\
    r = returned_at (length s) kw /\
    s' = s ++ copies ta fa ++
           [trend_array ta fa (ls_trend_flux ls);
            flattened_array ta fa (ls_trend_flux ls)].
Proof.
  intros Htime Hflux Hrun.
  destruct (prologue R kw) as [st|e] eqn:Hpro; last first.
  { rewrite (flatten_prologue_raise _ _ _ _ _ _ Hpro) in Hrun. discriminate. }
  destruct (decide (length (data ta) = length (data fa))) as [Hlen|Hne];
    last first.
  { destruct (flatten_shape_mismatch R time flux kw s ta fa st
                Htime Hflux Hpro Hne) as (e & H).
    rewrite H in Hrun. discriminate. }
  pose proof (flatten_prefix R time flux kw s ta fa st
                Htime Hflux Hlen Hpro) as Hpre.
  destruct (get_gaps_indexes R (time_compressed ta fa)
              (s_break_tolerance st)) as [g|e] eqn:Hgaps; last first.
  { rewrite Hpre, (bind_raise _ _ _ _ _ (lift_run _ _)) in Hrun.
    discriminate. }
  destruct (segment_loop R kw st (time32 ta) (time_compressed ta fa)
              (flux_compressed ta fa) g (initial_loop_state st))
    as [ls|e] eqn:Hloop; last first.
  { rewrite Hpre, (bind_ok _ _ _ _ g (lift_run _ _)) in Hrun.
    rewrite Hloop, (bind_raise _ _ _ _ _ (lift_run _ _)) in Hrun.
    discriminate. }
  destruct (le_lt_dec (length (Np.where_not (nan_mask ta fa)))
              (length (ls_trend_flux ls))) as [Henough|Hfew].
  - rewrite (flatten_enough R time flux kw s ta fa st
               Htime Hflux Hlen Hpro g ls Hgaps Hloop Henough) in Hrun.
    injection Hrun as <- <-.
    exists st, g, ls. repeat split; done.
  - destruct (flatten_too_few R time flux kw s ta fa st
                Htime Hflux Hlen Hpro g ls Hgaps Hloop Hfew) as (s1 & H).
    rewrite H in Hrun. discriminate.
Qed.

(** The run of a call whose parameters pass validation, on sequences of
    equal length, with boundaries that cover the compressed series and an
    estimator that answers every segment with a trend of its length. *)
Lemma flatten_total
    (R : Runtime) (time flux : loc) (kw : kwargs) (s : store)
    (ta fa : ndarray) (st : settings) (gaps_indexes : list Z) :
  s !! time = Some ta -> s !! flux = Some fa ->
  length (data ta) = length (data fa) ->
  prologue R kw = Ok st ->
  get_gaps_indexes R (time_compressed ta fa) (s_break_tolerance st) =
    Ok gaps_indexes ->
  boundaries gaps_indexes (length (time_compressed ta fa)) ->
  same_length_trend R kw st (time32 ta) (time_compressed ta fa) ->
  exists trend_flux,
    length trend_flux = length (Np.where_not (nan_mask ta fa)) /\
    flatten R time flux kw s =
    (Ok (returned_at (length s) kw),
     s ++ copies ta fa ++
       [trend_array ta fa trend_flux; flattened_array ta fa trend_flux]).
Proof.
  intros Htime Hflux Hlen Hpro Hgaps Hb Hest.
  assert (Hmask : length (time32 ta) = length (nan_mask ta fa)).
  { rewrite (length_nan_mask ta fa Hlen). unfold time32.
    by rewrite length_map. }
  assert (Hmask' : length (flux32 fa) = length (nan_mask ta fa)).
  { rewrite (length_nan_mask ta fa Hlen). unfold flux32.
    by rewrite length_map. }
  assert (Htc : length (time_compressed ta fa) =
                length (flux_compressed ta fa)).
  { unfold time_compressed, flux_compressed.
    by rewrite !length_compress. }
  rewrite Htc in Hb.
  destruct (segment_loop_covers R kw st (time32 ta) (time_compressed ta fa)
              (flux_compressed ta fa) gaps_indexes Hest Hb)
    as (ls & Hloop & Hn).
  assert (Hcount : length (ls_trend_flux ls) =
                   length (Np.where_not (nan_mask ta fa))).
  { rewrite Hn. unfold flux_compressed. by rewrite length_compress. }
  exists (ls_trend_flux ls). split; [exact Hcount|].
  apply (flatten_enough R time flux kw s ta fa st
           Htime Hflux Hlen Hpro gaps_indexes ls Hgaps Hloop).
  lia.
Qed.

(** Once the parameters have passed validation, the first two arrays a call
    allocates are the float32 copies of the caller's sequences, however the
    call goes on. *)
Lemma flatten_copies_first
    (R : Runtime) (time flux : loc) (kw : kwargs) (s : store)
    (ta fa : ndarray) (st : settings) :
  s !! time = Some ta -> s !! flux = Some fa ->
  prologue R kw = Ok st ->
  exists rest,
    snd (flatten R time flux kw s) =
    s ++ [mk_ndarray float32 (time32 ta); mk_ndarray float32 (flux32 fa)]
      ++ rest.
Proof.
  intros Htime Hflux Hpro.
  destruct (decide (length (data ta) = length (data fa))) as [Hlen|Hne];
    last first.
  { destruct (flatten_shape_mismatch R time flux kw s ta fa st
                Htime Hflux Hpro Hne) as (e & H).
    exists []. by rewrite H, app_nil_r. }
  pose proof (flatten_prefix R time flux kw s ta fa st
                Htime Hflux Hlen Hpro) as Hpre.
  destruct (get_gaps_indexes R (time_compressed ta fa)
              (s_break_tolerance st)) as [g|e] eqn:Hgaps; last first.
  { rewrite Hpre, (bind_raise _ _ _ _ _ (lift_run _ _)).
    eexists. reflexivity. }
  destruct (segment_loop R kw st (time32 ta) (time_compressed ta fa)
              (flux_compressed ta fa) g (initial_loop_state st))
    as [ls|e] eqn:Hloop; last first.
  { rewrite Hpre, (bind_ok _ _ _ _ g (lift_run _ _)).
    rewrite Hloop, (bind_raise _ _ _ _ _ (lift_run _ _)).
    eexists. reflexivity. }
  destruct (le_lt_dec (length (Np.where_not (nan_mask ta fa)))
              (length (ls_trend_flux ls))) as [Henough|Hfew].
  - rewrite (flatten_enough R time flux kw s ta fa st
               Htime Hflux Hlen Hpro g ls Hgaps Hloop Henough).
    eexists. reflexivity.
  - destruct (flatten_too_few R time flux kw s ta fa st
                Htime Hflux Hlen Hpro g ls Hgaps Hloop Hfew) as (rest & H).
    rewrite H. eexists. reflexivity.
Qed.

(** An exception of the segmenter or of the segment loop is the exception
    of the call, after the four copies and before line 251. *)
Lemma flatten_collaborator_raise
    (R : Runtime) (time flux : loc) (kw : kwargs) (s : store)
    (ta fa : ndarray) (st : settings) (e : exn) :
  s !! time = Some ta ->
  s !! flux = Some fa ->
  length (data ta) = length (data fa) ->
  prologue R kw = Ok st ->
  get_gaps_indexes R (time_compressed ta fa) (s_break_tolerance st) =
    Raise e \/
  (exists gaps_indexes,
     get_gaps_indexes R (time_compressed ta fa) (s_break_tolerance st) =
       Ok gaps_indexes /\
     segment_loop R kw st (time32 ta) (time_compressed ta fa)
       (flux_compressed ta fa) gaps_indexes (initial_loop_state st) =
       Raise e) ->
  flatten R time flux kw s = (Raise e, s ++ copies ta fa).
Proof.
  intros Htime Hflux Hlen Hpro Hcase.
  rewrite (flatten_prefix R time flux kw s ta fa st Htime Hflux Hlen Hpro).
  destruct Hcase as [Hgaps|(g & Hgaps & Hloop)]; rewrite Hgaps.
  - by rewrite (bind_raise _ _ _ _ _ (lift_run _ _)).
  - rewrite (bind_ok _ _ _ _ g (lift_run _ _)), Hloop.
    by rewrite (bind_raise _ _ _ _ _ (lift_run _ _)).
Qed.

(** A call on two sequences of equal length that raises does so in the
    validation, in the segmenter, in the segment loop, or at line 254 for
    want of trend values: lines 150 to 154 raise nothing. *)
Lemma flatten_raise_inv
    (R : Runtime) (time flux : loc) (kw : kwargs) (s s' : store)
    (ta fa : ndarray) (e : exn) :
  s !! time = Some ta -> s !! flux = Some fa ->
  length (data ta) = length (data fa) ->
  flatten R time flux kw s = (Raise e, s') ->
  prologue R kw = Raise e \/
  exists st,
    prologue R kw = Ok st /\
    (get_gaps_indexes R (time_compressed ta fa) (s_break_tolerance st) =
       Raise e \/
     exists gaps_indexes,
       get_gaps_indexes R (time_compressed ta fa) (s_break_tolerance st) =
         Ok gaps_indexes /\
       (segment_loop R kw st (time32 ta) (time_compressed ta fa)
          (flux_compressed ta fa) gaps_indexes (initial_loop_state st) =
          Raise e \/
        exists ls,
          segment_loop R kw st (time32 ta) (time_compressed ta fa)
            (flux_compressed ta fa) gaps_indexes (initial_loop_state st) =
            Ok ls /\
          e = index_error /\
          (length (ls_trend_flux ls) <
           length (Np.where_not (nan_mask ta fa)))%nat)).
Proof.
  intros Htime Hflux Hlen Hrun.
  destruct (prologue R kw) as [st|e0] eqn:Hpro; last first.
  { rewrite (flatten_prologue_raise _ _ _ _ _ _ Hpro) in Hrun.
    injection Hrun as -> _. by left. }
  right. exists st. split; [done|].
  destruct (get_gaps_indexes R (time_compressed ta fa)
              (s_break_tolerance st)) as [g|e0] eqn:Hgaps; last first.
  { rewrite (flatten_collaborator_raise R time flux kw s ta fa st e0
               Htime Hflux Hlen Hpro (or_introl Hgaps)) in Hrun.
    injection Hrun as -> _. by left. }
  right. exists g. split; [done|].
  destruct (segment_loop R kw st (time32 ta) (time_compressed ta fa)
              (flux_compressed ta fa) g (initial_loop_state st))
    as [ls|e0] eqn:Hloop; last first.
  { rewrite (flatten_collaborator_raise R time flux kw s ta fa st e0
               Htime Hflux Hlen Hpro
               (or_intror (ex_intro _ g (conj Hgaps Hloop)))) in Hrun.
    injection Hrun as -> _. by left. }
  right. exists ls. split; [done|].
  destruct (le_lt_dec (length (Np.where_not (nan_mask ta fa)))
              (length (ls_trend_flux ls))) as [Henough|Hfew].
  - rewrite (flatten_enough R time flux kw s ta fa st
               Htime Hflux Hlen Hpro g ls Hgaps Hloop Henough) in Hrun.
    discriminate.
  - destruct (flatten_too_few R time flux kw s ta fa st
                Htime Hflux Hlen Hpro g ls Hgaps Hloop Hfew) as (s1 & H).
    rewrite H in Hrun. injection Hrun as <- _. done.
Qed.

(** A call whose [proportiontocut] passes lines 109 to 112 does not end
    in their error. *)
Lemma flatten_passes_check
    (R : Runtime) (time flux : loc) (kw : kwargs) (s : store)
    (ta fa : ndarray) :
  method kw ∈ constants_methods R ->
  s !! time = Some ta ->
  s !! flux = Some fa ->
  check_proportiontocut (proportiontocut kw) = Ok tt ->
  flatten R time flux kw s <> (Raise (ValueError error_text), s).
Proof.
  intros Hin Htime Hflux Hchk Hrun.
  destruct (prologue R kw) as [st|e] eqn:Hpro.
  - destruct (flatten_copies_first R time flux kw s ta fa st
                Htime Hflux Hpro) as (rest & H).
    rewrite Hrun in H. cbn [snd] in H.
    apply (f_equal length) in H. rewrite !length_app in H.
    simpl in H. lia.
  - rewrite (flatten_prologue_raise _ _ _ _ _ _ Hpro) in Hrun.
    injection Hrun as ->. revert Hpro.
    apply str_in_spec in Hin.
    unfold prologue, default_break_tolerance, Py.truediv2, rbind.
    rewrite Hin, Hchk. cbn [negb].
    repeat case_match; simplify_eq; discriminate.
Qed.

(** C4. Lines 108 to 112 check [proportiontocut] for every supported
    method, so for [trim_mean] and [winsorize]: a number that is not NaN
    and not a float strictly between 0 and 0.5 makes the call raise the
    ValueError "proportiontocut must be >0 and <0.5" before anything is
    allocated or computed (the witness is 0.6), and a float strictly
    between 0 and 0.5 passes: the call does not end in that error. The
    float NaN is not strictly between 0 and
    0.5 either, but both comparisons of line 111 are false on it: the
    check lets it through, the call does not raise that error, and for
    [trim_mean] and [winsorize] without a [cval] NaN becomes the [cval]
    the estimator is asked with (line 125). *)
Theorem C4_proportiontocut_check_lets_nan_through
    (R : Runtime) (time flux : loc) (kw : kwargs) (s : store)
    (ta fa : ndarray) :
  method kw ∈ constants_methods R ->
  s !! time = Some ta ->
  s !! flux = Some fa ->
  (proportiontocut kw = PFloat F.nan ->
   ~ within_0_half (proportiontocut kw) /\
   check_proportiontocut (proportiontocut kw) = Ok tt /\
   flatten R time flux kw s <>
     (Raise (ValueError "proportiontocut must be >0 and <0.5"), s) /\
   (forall st,
      prologue R kw = Ok st ->
      cval kw = None ->
      method kw = "trim_mean" \/ method kw = "winsorize" ->
      s_cval st = PFloat F.nan)) /\
  (proportiontocut kw <> PFloat F.nan ->
   ~ within_0_half (proportiontocut kw) ->
   flatten R time flux kw s =
     (Raise (ValueError "proportiontocut must be >0 and <0.5"), s)) /\
  (within_0_half (proportiontocut kw) ->
   check_proportiontocut (proportiontocut kw) = Ok tt /\
   flatten R time flux kw s <>
     (Raise (ValueError "proportiontocut must be >0 and <0.5"), s)).
Proof.
  intros Hin Htime Hflux. split; [|split].
  - intros Hnan. split; [|split; [|split]].
    + rewrite Hnan. intros (f & Hf & Hlo & _). injection Hf as <-.
      vm_compute in Hlo. discriminate.
    + rewrite Hnan. reflexivity.
    + apply (flatten_passes_check R time flux kw s ta fa); try done.
      rewrite Hnan. reflexivity.
    + intros st Hpro Hc Hm. revert Hpro.
      apply str_in_spec in Hin.
      assert (Hchk : check_proportiontocut (proportiontocut kw) = Ok tt)
        by (rewrite Hnan; reflexivity).
      unfold prologue, rbind. rewrite Hin, Hchk, Hnan, Hc.
      cbn [negb].
      repeat case_match; try discriminate.
      intros [= <-]. cbn [s_cval].
      destruct Hm as [->| ->]; reflexivity.
  - intros Hnan Hout. apply flatten_prologue_raise.
    apply prologue_proportiontocut; [done|].
    by apply check_proportiontocut_rejects.
  - intros Hp.
    pose proof (check_proportiontocut_accepts _ Hp) as Hchk.
    split; [exact Hchk|].
    by apply (flatten_passes_check R time flux kw s ta fa).
Qed.

Lemma C4_witness :
  ("trim_mean" ∈ Example.supported_methods) /\
  ~ within_0_half (PFloat F.nan) /\
  check_proportiontocut (PFloat F.nan) = Ok tt /\
  flatten Example.pointwise 0%nat 1%nat
    (with_proportiontocut (with_method defaults "trim_mean") (PFloat F.nan))
    example_store <>
  (Raise (ValueError "proportiontocut must be >0 and <0.5"), example_store) /\
  (exists st,
     prologue Example.pointwise
       (with_proportiontocut (with_method defaults "trim_mean")
          (PFloat F.nan)) = Ok st /\
     s_cval st = PFloat F.nan) /\
  (exists s',
     flatten Example.pointwise 0%nat 1%nat
       (with_proportiontocut (with_method defaults "trim_mean")
          (PFloat F.nan))
       example_store = (Ok (Flattened 7%nat), s')) /\
  ~ within_0_half (PFloat (F.dec 6 10)) /\
  flatten Example.pointwise 0%nat 1%nat
    (with_proportiontocut (with_method defaults "trim_mean")
       (PFloat (F.dec 6 10))) example_store =
  (Raise (ValueError "proportiontocut must be >0 and <0.5"), example_store) /\
  within_0_half (PFloat (F.dec 1 10)) /\
  check_proportiontocut (PFloat (F.dec 1 10)) = Ok tt.
Proof.
  assert (H1 : "trim_mean" ∈ Example.supported_methods)
    by (apply str_in_spec; vm_compute; reflexivity).
  assert (H3 : ~ within_0_half (PFloat (F.dec 6 10))).
  { intros (f & Hf & _ & Hlt). injection Hf as <-.
    vm_compute in Hlt. discriminate. }
  assert (H4 : within_0_half (PFloat (F.dec 1 10))).
  { exists (F.dec 1 10). split; [reflexivity|].
    split; vm_compute; reflexivity. }
  destruct (C4_proportiontocut_check_lets_nan_through Example.pointwise
              0%nat 1%nat
              (with_proportiontocut (with_method defaults "trim_mean")
                 (PFloat F.nan))
              example_store
              (Example.sequence (map F.of_Z [0; 1; 2; 10; 11; 12]))
              (Example.sequence
                 [F.of_Z 1; F.of_Z 2; F.nan; F.of_Z 4; F.inf; F.of_Z 6])
              H1 eq_refl eq_refl) as (Hnan & _ & _).
  destruct (Hnan eq_refl) as (Hout & Hcheck & Hrun & Hcval).
  destruct (C4_proportiontocut_check_lets_nan_through Example.pointwise
              0%nat 1%nat
              (with_proportiontocut (with_method defaults "trim_mean")
                 (PFloat (F.dec 6 10)))
              example_store
              (Example.sequence (map F.of_Z [0; 1; 2; 10; 11; 12]))
              (Example.sequence
                 [F.of_Z 1; F.of_Z 2; F.nan; F.of_Z 4; F.inf; F.of_Z 6])
              H1 eq_refl eq_refl) as (_ & Hraise & _).
  destruct (C4_proportiontocut_check_lets_nan_through Example.pointwise
              0%nat 1%nat
              (with_proportiontocut (with_method defaults "trim_mean")
                 (PFloat (F.dec 1 10)))
              example_store
              (Example.sequence (map F.of_Z [0; 1; 2; 10; 11; 12]))
              (Example.sequence
                 [F.of_Z 1; F.of_Z 2; F.nan; F.of_Z 4; F.inf; F.of_Z 6])
              H1 eq_refl eq_refl) as (_ & _ & Hpass).
  split; [exact H1|]. split; [exact Hout|]. split; [exact Hcheck|].
  split; [exact Hrun|]. split.
  { eexists. split; [vm_compute; reflexivity|].
    apply Hcval; [vm_compute; reflexivity | reflexivity |].
    left. reflexivity. }
  split; [eexists; vm_compute; reflexivity|].
  split; [exact H3|]. split.
  { apply Hraise; [vm_compute; discriminate | exact H3]. }
  split; [exact H4 | exact (proj1 (Hpass H4))].
Defined.

(** C9. [flatten] never mutates the caller's sequences. For every call,
    returning or raising, the store afterwards is the store before the
    call followed by newly allocated arrays: the [time] and [flux]
    sequences, like every object that existed, hold what they held. Once
    the parameters have passed validation, the first of the new arrays
    are the float32 copies of the two sequences, and all that follows
    works on them. *)
Theorem C9_inputs_never_mutated
    (R : Runtime) (time flux : loc) (kw : kwargs) (s : store)
    (ta fa : ndarray) :
  s !! time = Some ta ->
  s !! flux = Some fa ->
  snd (flatten R time flux kw s) !! time = Some ta /\
  snd (flatten R time flux kw s) !! flux = Some fa /\
  (exists fresh, snd (flatten R time flux kw s) = s ++ fresh) /\
  (forall st,
     prologue R kw = Ok st ->
     exists rest,
       snd (flatten R time flux kw s) =
       s ++ [mk_ndarray float32 (map F.to_float32 (data ta));
             mk_ndarray float32 (map F.to_float32 (data fa))] ++ rest).
Proof.
  intros Htime Hflux.
  destruct (keeps_flatten s R time flux kw []) as [(fresh & Hs) _].
  rewrite app_nil_r in Hs.
  split; [rewrite Hs; by apply lookup_old|].
  split; [rewrite Hs; by apply lookup_old|].
  split; [by exists fresh|].
  intros st Hpro.
  apply (flatten_copies_first R time flux kw s ta fa st Htime Hflux Hpro).
Qed.

Lemma C9_witness :
  snd (flatten Example.pointwise 0%nat 1%nat defaults example_store) !! 0%nat =
    Some (Example.sequence (map F.of_Z [0; 1; 2; 10; 11; 12])) /\
  snd (flatten Example.short 0%nat 1%nat defaults example_store) !! 1%nat =
    Some (Example.sequence
            [F.of_Z 1; F.of_Z 2; F.nan; F.of_Z 4; F.inf; F.of_Z 6]) /\
  exists rest,
    snd (flatten Example.short 0%nat 1%nat defaults example_store) =
    example_store ++
      [mk_ndarray float32
         (map F.to_float32 (map F.of_Z [0; 1; 2; 10; 11; 12]));
       mk_ndarray float32
         (map F.to_float32
            [F.of_Z 1; F.of_Z 2; F.nan; F.of_Z 4; F.inf; F.of_Z 6])] ++ rest.
Proof.
  split; [|split].
  - destruct (C9_inputs_never_mutated Example.pointwise 0%nat 1%nat defaults
                example_store
                (Example.sequence (map F.of_Z [0; 1; 2; 10; 11; 12]))
                (Example.sequence
                   [F.of_Z 1; F.of_Z 2; F.nan; F.of_Z 4; F.inf; F.of_Z 6])
                eq_refl eq_refl) as (H & _ & _).
    exact H.
  - destruct (C9_inputs_never_mutated Example.short 0%nat 1%nat defaults
                example_store
                (Example.sequence (map F.of_Z [0; 1; 2; 10; 11; 12]))
                (Example.sequence
                   [F.of_Z 1; F.of_Z 2; F.nan; F.of_Z 4; F.inf; F.of_Z 6])
                eq_refl eq_refl) as (_ & H & _).
    exact H.
  - destruct (C9_inputs_never_mutated Example.short 0%nat 1%nat defaults
                example_store
                (Example.sequence (map F.of_Z [0; 1; 2; 10; 11; 12]))
                (Example.sequence
                   [F.of_Z 1; F.of_Z 2; F.nan; F.of_Z 4; F.inf; F.of_Z 6])
                eq_refl eq_refl) as (_ & _ & _ & H).
    apply (H {| s_method_code := Some 1;
                s_cval := PInt 5;
                s_supersmoother_alpha := None;
                s_window_length := PInt 2;
                s_break_tolerance := PFloat (F.of_Z 1) |}).
    vm_compute. reflexivity.
Defined.

(** ** The arrays [flatten] returns *)

Lemma lookup_trend (s : store) (ta fa tr fl : ndarray) :
  (s ++ copies ta fa ++ [tr; fl]) !! (length s + 4)%nat = Some tr.
Proof.
  rewrite lookup_app_r by lia.
  replace (length s + 4 - length s)%nat with 4%nat by lia. reflexivity.
Qed.

Lemma lookup_flattened (s : store) (ta fa tr fl : ndarray) :
  (s ++ copies ta fa ++ [tr; fl]) !! (length s + 5)%nat = Some fl.
Proof.
  rewrite lookup_app_r by lia.
  replace (length s + 5 - length s)%nat with 5%nat by lia. reflexivity.
Qed.

Lemma length_trend_array (ta fa : ndarray) (trend_flux : list float) :
  length (data ta) = length (data fa) ->
  length (data (trend_array ta fa trend_flux)) = length (data ta).
Proof.
  intros Hlen. unfold trend_array. cbn [data].
  by rewrite length_expand, length_nan_mask.
Qed.

Lemma length_flattened_array (ta fa : ndarray) (trend_flux : list float) :
  length (data ta) = length (data fa) ->
  length (data (flattened_array ta fa trend_flux)) = length (data ta).
Proof.
  intros Hlen. unfold flattened_array. cbn [data].
  rewrite length_zip_with, length_expand, length_nan_mask by done.
  unfold flux32. rewrite length_map. lia.
Qed.

Lemma full_length_returned_at
    (s : store) (kw : kwargs) (ta fa : ndarray) (trend_flux : list float) :
  length (data ta) = length (data fa) ->
  full_length (length (data ta)) kw
    (s ++ copies ta fa ++
       [trend_array ta fa trend_flux; flattened_array ta fa trend_flux])
    (returned_at (length s) kw).
Proof.
  intros Hlen. unfold returned_at, full_length.
  destruct (return_trend kw); (split; [done|]).
  - eexists; eexists.
    split; [apply lookup_flattened|]. split; [apply lookup_trend|].
    split; [by apply length_flattened_array | by apply length_trend_array].
  - eexists. split; [apply lookup_flattened|].
    by apply length_flattened_array.
Qed.

(** C1. For sequences [time] and [flux] of equal length, [flatten]
    returns a flattened array of the input length, and with
    [return_trend] the pair of the flattened array and the trend array,
    both of that length. Two halves: every call that returns has returned
    such arrays (and the sequences had equal length); and the call does
    return when the parameters pass validation, the segmenter's boundaries
    cover the compressed series and the selected estimator answers every
    segment with a trend of its length. *)
Theorem C1_output_has_input_length
    (R : Runtime) (time flux : loc) (kw : kwargs) (s : store)
    (ta fa : ndarray) :
  s !! time = Some ta ->
  s !! flux = Some fa ->
  (forall r s',
     flatten R time flux kw s = (Ok r, s') ->
     length (data ta) = length (data fa) /\
     full_length (length (data ta)) kw s' r) /\
  (forall st gaps_indexes,
     length (data ta) = length (data fa) ->
     prologue R kw = Ok st ->
     get_gaps_indexes R (time_compressed ta fa) (s_break_tolerance st) =
       Ok gaps_indexes ->
     boundaries gaps_indexes (length (time_compressed ta fa)) ->
     same_length_trend R kw st (time32 ta) (time_compressed ta fa) ->
     exists r s',
       flatten R time flux kw s = (Ok r, s') /\
       full_length (length (data ta)) kw s' r).
Proof.
  intros Htime Hflux. split.
  - intros r s' Hrun.
    destruct (flatten_ok_inv R time flux kw s s' ta fa r Htime Hflux Hrun)
      as (st & g & ls & _ & Hlen & _ & _ & _ & -> & ->).
    split; [exact Hlen|]. by apply full_length_returned_at.
  - intros st g Hlen Hpro Hgaps Hb Hest.
    destruct (flatten_total R time flux kw s ta fa st g
                Htime Hflux Hlen Hpro Hgaps Hb Hest)
      as (trend_flux & _ & Hrun).
    eexists; eexists. split; [exact Hrun|].
    by apply full_length_returned_at.
Qed.

Lemma C1_witness :
  exists r s',
    flatten Example.pointwise 0%nat 1%nat
      (with_return_trend defaults true) example_store = (Ok r, s') /\
    full_length 6 (with_return_trend defaults true) s' r.
Proof.
  destruct (C1_output_has_input_length Example.pointwise 0%nat 1%nat
              (with_return_trend defaults true) example_store
              (Example.sequence (map F.of_Z [0; 1; 2; 10; 11; 12]))
              (Example.sequence
                 [F.of_Z 1; F.of_Z 2; F.nan; F.of_Z 4; F.inf; F.of_Z 6])
              eq_refl eq_refl) as [_ Htotal].
  apply (Htotal
           {| s_method_code := Some 1;
              s_cval := PInt 5;
              s_supersmoother_alpha := None;
              s_window_length := PInt 2;
              s_break_tolerance := PFloat (F.of_Z 1) |}
           [0; 2; 5]).
  - reflexivity.
  - vm_compute. reflexivity.
  - vm_compute. reflexivity.
  - vm_compute. repeat split; discriminate.
  - intros ls tv fv. eexists. split; reflexivity.
Defined.

(** ** The contract on the views of the loop *)

Lemma same_length_trend_per_view (R : Runtime) (kw : kwargs) (st : settings)
    (t tc fc : list float) :
  same_length_trend R kw st t tc -> trend_per_view R kw st t tc fc.
Proof. intros H ls lo hi. apply H. Qed.

Lemma segment_loop_total_views (R : Runtime) (kw : kwargs) (st : settings)
    (t tc fc : list float) :
  trend_per_view R kw st t tc fc ->
  forall (rest : list Z) (lo : Z) (ls : loop_state),
    0 <= lo ->
    chain lo rest (Z.of_nat (length fc)) ->
    exists ls',
      segment_loop R kw st t tc fc (lo :: rest) ls = Ok ls' /\
      Z.of_nat (length (ls_trend_flux ls')) =
        Z.of_nat (length (ls_trend_flux ls)) +
        (Z.of_nat (length fc) - Z.min lo (Z.of_nat (length fc))).
Proof.
  intros Hest. induction rest as [|hi rest IH]; intros lo ls Hlo Hchain.
  - simpl in Hchain. exists ls. rewrite segment_loop_one. split; [done|]. lia.
  - destruct Hchain as [Hhi Hchain].
    rewrite segment_loop_cons. unfold segment_step.
    destruct (Hest ls lo hi) as (ls1 & Hseg & Hlen).
    rewrite Hseg. cbn [rbind].
    pose proof (segment_trend_flux _ _ _ _ _ _ _ _ _ Hseg) as Hflux.
    match goal with
    | |- exists _, segment_loop _ _ _ _ _ _ _ ?ls2 = _ /\ _ =>
        destruct (IH hi ls2 ltac:(lia) Hchain) as (ls' & Hloop & Htotal)
    end.
    exists ls'. split; [exact Hloop|].
    rewrite Htotal. cbn [ls_trend_flux].
    rewrite length_app, Hflux, Hlen, Nat2Z.inj_add.
    rewrite (length_slice fc lo hi) by lia. lia.
Qed.

Lemma segment_loop_covers_views (R : Runtime) (kw : kwargs) (st : settings)
    (t tc fc : list float) (gaps_indexes : list Z) :
  trend_per_view R kw st t tc fc ->
  boundaries gaps_indexes (length fc) ->
  exists ls,
    segment_loop R kw st t tc fc gaps_indexes (initial_loop_state st) =
      Ok ls /\
    length (ls_trend_flux ls) = length fc.
Proof.
  intros Hest Hb. destruct gaps_indexes as [|lo rest]; simpl in Hb.
  - exists (initial_loop_state st). split; [done|]. by rewrite Hb.
  - destruct Hb as [-> Hchain].
    destruct (segment_loop_total_views R kw st t tc fc Hest rest 0
                (initial_loop_state st) ltac:(lia) Hchain)
      as (ls & Hloop & Hlen).
    exists ls. split; [done|]. simpl in Hlen. lia.
Qed.

(** The run of a call whose parameters pass validation, on sequences of
    equal length, with boundaries that cover the compressed series and an
    estimator that answers every pair of views with a trend of their
    length. *)
Lemma flatten_returns_views
    (R : Runtime) (time flux : loc) (kw : kwargs) (s : store)
    (ta fa : ndarray) (st : settings) (gaps_indexes : list Z) :
  s !! time = Some ta -> s !! flux = Some fa ->
  length (data ta) = length (data fa) ->
  prologue R kw = Ok st ->
  get_gaps_indexes R (time_compressed ta fa) (s_break_tolerance st) =
    Ok gaps_indexes ->
  boundaries gaps_indexes (length (time_compressed ta fa)) ->
  trend_per_view R kw st (time32 ta) (time_compressed ta fa)
    (flux_compressed ta fa) ->
  exists trend_flux,
    length trend_flux = length (Np.where_not (nan_mask ta fa)) /\
    flatten R time flux kw s =
    (Ok (returned_at (length s) kw),
     s ++ copies ta fa ++
       [trend_array ta fa trend_flux; flattened_array ta fa trend_flux]).
Proof.
  intros Htime Hflux Hlen Hpro Hgaps Hb Hest.
  assert (Hmask : length (time32 ta) = length (nan_mask ta fa)).
  { rewrite (length_nan_mask ta fa Hlen). unfold time32.
    by rewrite length_map. }
  assert (Hmask' : length (flux32 fa) = length (nan_mask ta fa)).
  { rewrite (length_nan_mask ta fa Hlen). unfold flux32.
    by rewrite length_map. }
  assert (Htc : length (time_compressed ta fa) =
                length (flux_compressed ta fa)).
  { unfold time_compressed, flux_compressed.
    by rewrite !length_compress. }
  rewrite Htc in Hb.
  destruct (segment_loop_covers_views R kw st (time32 ta)
              (time_compressed ta fa) (flux_compressed ta fa)
              gaps_indexes Hest Hb)
    as (ls & Hloop & Hn).
  assert (Hcount : length (ls_trend_flux ls) =
                   length (Np.where_not (nan_mask ta fa))).
  { rewrite Hn. unfold flux_compressed. by rewrite length_compress. }
  exists (ls_trend_flux ls). split; [exact Hcount|].
  apply (flatten_enough R time flux kw s ta fa st
           Htime Hflux Hlen Hpro gaps_indexes ls Hgaps Hloop).
  lia.
Qed.

(** ** The compressed series *)

(** The [k]-th compressed sample is the sample at the [k]-th unmasked
    index. *)
Lemma compress_lookup_from {A} (mask : list bool) :
  forall (l : list A) (i0 k j : nat),
    length l = length mask ->
    Np.where_not_from i0 mask !! k = Some j ->
    (i0 <= j)%nat /\
    mask !! (j - i0)%nat = Some false /\
    Np.compress l mask !! k = l !! (j - i0)%nat.
Proof.
  induction mask as [|b mask IH]; intros l i0 k j Hlen Hk;
    [discriminate|].
  destruct l as [|x l]; [discriminate|]. simpl in Hlen.
  destruct b; simpl in Hk |- *.
  - destruct (IH l (S i0) k j ltac:(lia) Hk) as (Hle & Hm & Hc).
    split; [lia|].
    replace (j - i0)%nat with (S (j - S i0)) by lia. done.
  - destruct k as [|k]; simpl in Hk |- *.
    + injection Hk as <-. split; [lia|]. by rewrite Nat.sub_diag.
    + destruct (IH l (S i0) k j ltac:(lia) Hk) as (Hle & Hm & Hc).
      split; [lia|].
      replace (j - i0)%nat with (S (j - S i0)) by lia. done.
Qed.

Lemma compress_lookup {A} (mask : list bool) (l : list A) (k j : nat) :
  length l = length mask ->
  Np.where_not mask !! k = Some j ->
  mask !! j = Some false /\ Np.compress l mask !! k = l !! j.
Proof.
  intros Hlen Hk.
  destruct (compress_lookup_from mask l 0%nat k j Hlen Hk) as (_ & Hm & Hc).
  rewrite Nat.sub_0_r in Hm, Hc. done.
Qed.

(** Every unmasked index is among the indices of line 252. *)
Lemma where_not_from_complete (mask : list bool) :
  forall (i0 j : nat),
    mask !! j = Some false ->
    exists k, Np.where_not_from i0 mask !! k = Some (i0 + j)%nat.
Proof.
  induction mask as [|b mask IH]; intros i0 j Hj; [discriminate|].
  destruct j as [|j]; simpl in Hj.
  - injection Hj as ->. exists 0%nat. simpl. f_equal. lia.
  - destruct (IH (S i0) j Hj) as [k Hk].
    replace (S i0 + j)%nat with (i0 + S j)%nat in Hk by lia.
    destruct b; simpl.
    + by exists k.
    + by exists (S k).
Qed.

(** The indices of line 252 come in increasing order. *)
Lemma where_not_from_increasing (mask : list bool) :
  forall (i0 k k' j j' : nat),
    (k < k')%nat ->
    Np.where_not_from i0 mask !! k = Some j ->
    Np.where_not_from i0 mask !! k' = Some j' ->
    (j < j')%nat.
Proof.
  induction mask as [|b mask IH]; intros i0 k k' j j' Hlt Hk Hk';
    [discriminate|].
  destruct b; simpl in Hk, Hk'.
  - by apply (IH (S i0) k k' j j').
  - destruct k' as [|k']; [lia|]. simpl in Hk'.
    destruct k as [|k]; simpl in Hk.
    + injection Hk as <-.
      destruct (compress_lookup_from mask mask (S i0) k' j' eq_refl Hk')
        as (Hle & _). lia.
    + apply (IH (S i0) k k' j j'); [lia | done | done].
Qed.

(** ** The conversion to float32 and the float32 product *)

Lemma shr_1_nonneg (mrs : shr_record) :
  0 <= shr_m mrs -> 0 <= shr_m (shr_1 mrs).
Proof.
  destruct mrs as [m r s]. simpl.
  destruct m as [|p|p]; [done | | lia].
  destruct p; simpl; lia.
Qed.

Lemma iter_pos_invariant {A} (P : A -> Prop) (f : A -> A) :
  (forall x, P x -> P (f x)) ->
  forall (p : positive) (x : A), P x -> P (SpecFloat.iter_pos f p x).
Proof.
  intros Hf. induction p as [p IH|p IH|]; intros x Hx; simpl.
  - apply IH, IH, Hf, Hx.
  - apply IH, IH, Hx.
  - apply Hf, Hx.
Qed.

Lemma shr_fexp_nonneg (prec emax m e : Z) (l : location) :
  0 <= m -> 0 <= shr_m (fst (shr_fexp prec emax m e l)).
Proof.
  intros Hm. unfold shr_fexp, shr.
  assert (H0 : 0 <= shr_m (shr_record_of_loc m l))
    by (destruct l as [|[]]; simpl; lia).
  destruct (_ - e) as [|p|p]; simpl; try done.
  by apply (iter_pos_invariant (fun mrs => 0 <= shr_m mrs) shr_1 shr_1_nonneg).
Qed.

Lemma round_nearest_even_nonneg (m : Z) (l : location) :
  0 <= m -> 0 <= round_nearest_even m l.
Proof.
  intros Hm. unfold round_nearest_even.
  destruct l as [|[]]; try lia. destruct (Z.even m); lia.
Qed.

(** Rounding a number never gives NaN. *)
Lemma binary_round_aux_not_nan (prec emax : Z) (sx : bool) (mx ex : Z)
    (lx : location) :
  0 <= mx -> F.isnan (binary_round_aux prec emax sx mx ex lx) = false.
Proof.
  intros Hm. unfold binary_round_aux.
  pose proof (shr_fexp_nonneg prec emax mx ex lx Hm) as H1.
  destruct (shr_fexp prec emax mx ex lx) as [mrs' e']. simpl in H1.
  pose proof (shr_fexp_nonneg prec emax
                (round_nearest_even (shr_m mrs') (loc_of_shr_record mrs'))
                e' loc_Exact
                (round_nearest_even_nonneg _ _ H1)) as H2.
  destruct (shr_fexp prec emax _ e' loc_Exact) as [mrs'' e'']. simpl in H2.
  destruct (shr_m mrs'') as [|p|p]; [reflexivity | | lia].
  by destruct (e'' <=? emax - prec).
Qed.

(** The conversion to float32 keeps NaN and makes none. *)
Lemma isnan_to_float32 (x : float) : F.isnan (F.to_float32 x) = F.isnan x.
Proof.
  destruct x as [s|s| |s m e]; try reflexivity.
  unfold F.to_float32, binary_round.
  destruct (shl_align m e _) as [mz ez].
  by apply binary_round_aux_not_nan.
Qed.

(** A float32 product is NaN when a factor is NaN or a zero meets an
    infinity, and never otherwise. *)
Lemma isnan_mul32 (t f : float) :
  F.isnan (F.mul32 t f) = F.isnan t || F.isnan f || zero_times_inf t f.
Proof.
  destruct t as [st|st| |st mt et], f as [sf|sf| |sf mf ef];
    try reflexivity.
  unfold F.mul32, SFmul. simpl.
  by apply binary_round_aux_not_nan.
Qed.

(** ** The masked samples *)

(** A NaN in either sequence sets the mask. *)
Lemma nan_mask_of_nan (ta fa : ndarray) (i : nat) (x y : float) :
  data ta !! i = Some x -> data fa !! i = Some y ->
  F.isnan x = true \/ F.isnan y = true ->
  nan_mask ta fa !! i = Some true.
Proof.
  intros Hx Hy Hnan. unfold nan_mask, time32, flux32.
  rewrite lookup_zip_with, !list_lookup_fmap, Hx, Hy. simpl. f_equal.
  destruct Hnan as [H|H].
  - destruct x; try discriminate. reflexivity.
  - destruct y; try discriminate.
    by destruct (F.to_float32 x).
Qed.

Lemma div64_nan (x : float) : F.div64 x F.nan = F.nan.
Proof. by destruct x. Qed.

(** At a masked index the trend and the flattened flux are NaN. *)
Lemma masked_values (ta fa : ndarray) (trend_flux : list float) (i : nat) :
  length (data ta) = length (data fa) ->
  nan_mask ta fa !! i = Some true ->
  data (trend_array ta fa trend_flux) !! i = Some F.nan /\
  data (flattened_array ta fa trend_flux) !! i = Some F.nan.
Proof.
  intros Hlen Hmask. unfold trend_array, flattened_array. cbn [data].
  pose proof (expand_masked _ trend_flux _ Hmask) as Hexp.
  split; [exact Hexp|].
  rewrite lookup_zip_with, Hexp.
  assert (Hi : (i < length (flux32 fa))%nat).
  { apply lookup_lt_Some in Hmask.
    rewrite (length_nan_mask ta fa Hlen) in Hmask.
    unfold flux32. rewrite length_map. lia. }
  destruct (lookup_lt_is_Some_2 _ _ Hi) as [v Hv].
  rewrite Hv. simpl. by rewrite div64_nan.
Qed.

(** The flattened flux reads the flux at unmasked indices only. *)
Lemma flattened_reads_unmasked (mask : list bool) :
  forall (f1 f2 vals : list float),
    length f1 = length mask -> length f2 = length mask ->
    Np.compress f1 mask = Np.compress f2 mask ->
    zip_with F.div64 f1 (expand mask vals) =
    zip_with F.div64 f2 (expand mask vals).
Proof.
  induction mask as [|b mask IH]; intros f1 f2 vals H1 H2 Hc.
  - destruct f1, f2; try discriminate. reflexivity.
  - destruct f1 as [|x1 f1], f2 as [|x2 f2]; try discriminate.
    simpl in H1, H2, Hc. destruct b.
    + simpl. rewrite !div64_nan. f_equal. apply IH; [lia | lia | done].
    + injection Hc as -> Hc.
      destruct vals as [|v vals]; simpl; f_equal; apply IH; (lia || done).
Qed.

(** Only the branch of [supersmoother] reads the whole time series
    (line 206). *)
Lemma segment_trend_time_irrelevant (R : Runtime) (kw : kwargs)
    (st : settings) (t t' tc : list float) (ls : loop_state)
    (tv fv : list float) :
  method kw <> "supersmoother" ->
  segment_trend R kw st t tc ls tv fv =
  segment_trend R kw st t' tc ls tv fv.
Proof.
  intros Hm. unfold segment_trend. cbv zeta.
  destruct (method kw =? "supersmoother")%string eqn:E.
  - apply String.eqb_eq in E. contradiction.
  - reflexivity.
Qed.

Lemma contents_returned_at (s : store) (kw : kwargs) (ta fa tr fl : ndarray) :
  contents (s ++ copies ta fa ++ [tr; fl]) (returned_at (length s) kw) =
  Some (data fl, if return_trend kw then Some (data tr) else None).
Proof.
  unfold returned_at, contents.
  destruct (return_trend kw);
    by rewrite ?lookup_flattened, ?lookup_trend.
Qed.

(** The branch of [supersmoother] reads the whole time series through
    its [max] and [min] alone (line 206). *)
Lemma segment_trend_span (R : Runtime) (kw : kwargs)
    (st : settings) (t t' tc : list float) (ls : loop_state)
    (tv fv : list float) :
  Py.max t = Py.max t' -> Py.min t = Py.min t' ->
  segment_trend R kw st t tc ls tv fv =
  segment_trend R kw st t' tc ls tv fv.
Proof.
  intros Hmax Hmin. unfold segment_trend. by rewrite Hmax, Hmin.
Qed.

Lemma segment_loop_time_ext (R : Runtime) (kw : kwargs)
    (st : settings) (t t' tc fc : list float) :
  (forall ls tv fv,
     segment_trend R kw st t tc ls tv fv =
     segment_trend R kw st t' tc ls tv fv) ->
  forall gaps_indexes ls,
    segment_loop R kw st t tc fc gaps_indexes ls =
    segment_loop R kw st t' tc fc gaps_indexes ls.
Proof.
  intros H. induction gaps_indexes as [|lo rest IH]; intros ls.
  - reflexivity.
  - destruct rest as [|hi rest]; [reflexivity|].
    rewrite !segment_loop_cons. unfold segment_step. rewrite H.
    destruct (segment_trend R kw st t' tc ls _ _); simpl;
      [apply IH | reflexivity].
Qed.

(** What the segment loop makes of the masked samples: nothing, but for
    the span of [supersmoother]. *)
Lemma segment_loop_masked_time (R : Runtime) (kw : kwargs)
    (st : settings) (t t' tc fc : list float) :
  (method kw = "supersmoother" ->
   Py.max t = Py.max t' /\ Py.min t = Py.min t') ->
  forall gaps_indexes ls,
    segment_loop R kw st t tc fc gaps_indexes ls =
    segment_loop R kw st t' tc fc gaps_indexes ls.
Proof.
  intros Hspan. apply segment_loop_time_ext. intros ls tv fv.
  destruct (decide (method kw = "supersmoother")) as [Hm|Hm].
  - destruct (Hspan Hm). by apply segment_trend_span.
  - by apply segment_trend_time_irrelevant.
Qed.

(** Two calls whose inputs give the same mask and the same compressed
    series look the same to their callers when the segment loop makes
    nothing of what else differs in the float32 time series. *)
Lemma flatten_outcome_agrees
    (R : Runtime) (kw : kwargs)
    (time flux : loc) (s : store) (ta fa : ndarray)
    (time' flux' : loc) (s' : store) (ta' fa' : ndarray) :
  s !! time = Some ta -> s !! flux = Some fa ->
  s' !! time' = Some ta' -> s' !! flux' = Some fa' ->
  length (data ta) = length (data fa) ->
  length (data ta') = length (data fa') ->
  nan_mask ta fa = nan_mask ta' fa' ->
  time_compressed ta fa = time_compressed ta' fa' ->
  flux_compressed ta fa = flux_compressed ta' fa' ->
  (forall st gaps_indexes ls,
     segment_loop R kw st (time32 ta) (time_compressed ta fa)
       (flux_compressed ta fa) gaps_indexes ls =
     segment_loop R kw st (time32 ta') (time_compressed ta fa)
       (flux_compressed ta fa) gaps_indexes ls) ->
  outcome (flatten R time flux kw s) = outcome (flatten R time' flux' kw s').
Proof.
  intros Ht Hf Ht' Hf' Hlen Hlen' Hmask Htc Hfc Hsame.
  destruct (prologue R kw) as [st|e] eqn:Hpro; last first.
  { by rewrite !(flatten_prologue_raise _ _ _ _ _ _ Hpro). }
  destruct (get_gaps_indexes R (time_compressed ta fa)
              (s_break_tolerance st)) as [g|e] eqn:Hgaps; last first.
  { rewrite (flatten_prefix R time flux kw s ta fa st Ht Hf Hlen Hpro).
    rewrite (flatten_prefix R time' flux' kw s' ta' fa' st
               Ht' Hf' Hlen' Hpro).
    rewrite <- Htc, Hgaps.
    by rewrite !(bind_raise _ _ _ _ _ (lift_run _ _)). }
  destruct (segment_loop R kw st (time32 ta) (time_compressed ta fa)
              (flux_compressed ta fa) g (initial_loop_state st))
    as [ls|e] eqn:Hloop; last first.
  { rewrite (flatten_prefix R time flux kw s ta fa st Ht Hf Hlen Hpro).
    rewrite (flatten_prefix R time' flux' kw s' ta' fa' st
               Ht' Hf' Hlen' Hpro).
    rewrite <- Htc, <- Hfc, Hgaps.
    rewrite !(bind_ok _ _ _ _ g (lift_run _ _)).
    rewrite <- (Hsame st g _), Hloop.
    by rewrite !(bind_raise _ _ _ _ _ (lift_run _ _)). }
  assert (Hgaps' : get_gaps_indexes R (time_compressed ta' fa')
                     (s_break_tolerance st) = Ok g)
    by (by rewrite <- Htc).
  assert (Hloop' : segment_loop R kw st (time32 ta')
                     (time_compressed ta' fa') (flux_compressed ta' fa')
                     g (initial_loop_state st) = Ok ls).
  { rewrite <- Htc, <- Hfc.
    by rewrite <- (Hsame st g _). }
  destruct (le_lt_dec (length (Np.where_not (nan_mask ta fa)))
              (length (ls_trend_flux ls))) as [Henough|Hfew].
  - rewrite (flatten_enough R time flux kw s ta fa st
               Ht Hf Hlen Hpro g ls Hgaps Hloop Henough).
    rewrite Hmask in Henough.
    rewrite (flatten_enough R time' flux' kw s' ta' fa' st
               Ht' Hf' Hlen' Hpro g ls Hgaps' Hloop' Henough).
    unfold outcome. cbn [fst snd]. rewrite !contents_returned_at.
    unfold trend_array, flattened_array. cbn [data]. rewrite <- Hmask.
    rewrite (flattened_reads_unmasked (nan_mask ta fa)
               (flux32 fa) (flux32 fa') (ls_trend_flux ls)); [done| | |].
    + rewrite (length_nan_mask ta fa Hlen). unfold flux32.
      rewrite length_map. lia.
    + rewrite Hmask, (length_nan_mask ta' fa' Hlen'). unfold flux32.
      rewrite length_map. lia.
    + unfold flux_compressed in Hfc. by rewrite <- Hmask in Hfc.
  - destruct (flatten_too_few R time flux kw s ta fa st
                Ht Hf Hlen Hpro g ls Hgaps Hloop Hfew) as (s1 & H1).
    rewrite Hmask in Hfew.
    destruct (flatten_too_few R time' flux' kw s' ta' fa' st
                Ht' Hf' Hlen' Hpro g ls Hgaps' Hloop' Hfew) as (s2 & H2).
    by rewrite H1, H2.
Qed.

Lemma lookup_time_compressed (s ext : store) (ta fa : ndarray) :
  (s ++ copies ta fa ++ ext) !! (length s + 2)%nat =
  Some (mk_ndarray float32 (time_compressed ta fa)).
Proof.
  rewrite lookup_app_r by lia.
  replace (length s + 2 - length s)%nat with 2%nat by lia. reflexivity.
Qed.

Lemma lookup_flux_compressed (s ext : store) (ta fa : ndarray) :
  (s ++ copies ta fa ++ ext) !! (length s + 3)%nat =
  Some (mk_ndarray float32 (flux_compressed ta fa)).
Proof.
  rewrite lookup_app_r by lia.
  replace (length s + 3 - length s)%nat with 3%nat by lia. reflexivity.
Qed.

(** C2, as the code has it. The mask of line 152 is the set of indices
    where the product of the float32 time and flux is NaN: the indices
    where the time or the flux is NaN or a zero meets an infinity. An
    infinite value is masked only when its partner is NaN or a zero. The
    compressed series hold the samples of the unmasked indices, in order,
    and no others; the segmenter is asked on the compressed time series
    and the segment loop cuts the views of the estimators from the
    compressed series, for every method. The values at masked indices
    reach the outcome of the call through nothing else but, for
    [supersmoother], the [max] and [min] of the whole time series (line
    206). Whenever the call returns, the trend and the flattened flux are
    NaN at every masked index. Masking raises nothing: on sequences of
    equal length a call that raises does so in the validation, in the
    segmenter, in the segment loop or at line 254, and the call returns
    when the boundaries cover the compressed series and the estimator
    answers every pair of views with a trend of their length. With its
    package installed and a segment to work on, the segment loop of
    [lowess] raises when every sample is masked (line 188). *)
Theorem C2_nan_samples_are_masked
    (R : Runtime) (time flux : loc) (kw : kwargs) (s : store)
    (ta fa : ndarray) :
  s !! time = Some ta ->
  s !! flux = Some fa ->
  (forall i x y,
     data ta !! i = Some x -> data fa !! i = Some y ->
     (F.isnan x = true \/ F.isnan y = true ->
      nan_mask ta fa !! i = Some true) /\
     nan_mask ta fa !! i =
       Some (F.isnan (F.mul32 (F.to_float32 x) (F.to_float32 y))) /\
     nan_mask ta fa !! i =
       Some (F.isnan x || F.isnan y ||
             zero_times_inf (F.to_float32 x) (F.to_float32 y)) /\
     (forall sg,
        F.to_float32 x = S754_infinity sg ->
        F.isnan y = false ->
        (forall sg', F.to_float32 y <> S754_zero sg') ->
        nan_mask ta fa !! i = Some false) /\
     (forall sg,
        F.to_float32 y = S754_infinity sg ->
        F.isnan x = false ->
        (forall sg', F.to_float32 x <> S754_zero sg') ->
        nan_mask ta fa !! i = Some false)) /\
  (length (data ta) = length (data fa) ->
   length (time_compressed ta fa) =
     length (Np.where_not (nan_mask ta fa)) /\
   length (flux_compressed ta fa) =
     length (Np.where_not (nan_mask ta fa)) /\
   (forall k j,
      Np.where_not (nan_mask ta fa) !! k = Some j ->
      nan_mask ta fa !! j = Some false /\
      time_compressed ta fa !! k = time32 ta !! j /\
      flux_compressed ta fa !! k = flux32 fa !! j) /\
   (forall j,
      nan_mask ta fa !! j = Some false ->
      exists k, Np.where_not (nan_mask ta fa) !! k = Some j) /\
   (forall k k' j j',
      (k < k')%nat ->
      Np.where_not (nan_mask ta fa) !! k = Some j ->
      Np.where_not (nan_mask ta fa) !! k' = Some j' ->
      (j < j')%nat)) /\
  (forall st,
     length (data ta) = length (data fa) ->
     prologue R kw = Ok st ->
     flatten R time flux kw s =
     (do gaps_indexes <-
        lift (get_gaps_indexes R (time_compressed ta fa)
                (s_break_tolerance st));
      do ls <- lift (segment_loop R kw st (time32 ta)
                       (time_compressed ta fa) (flux_compressed ta fa)
                       gaps_indexes (initial_loop_state st));
      do trend_lc <- Np.full_nan (length (time32 ta));
      do _ <- transplant trend_lc (Np.where_not (nan_mask ta fa))
                (ls_trend_flux ls) 0;
      do flatten_lc <- Np.divide (S (length s)) trend_lc;
      ret (if return_trend kw
           then FlattenedAndTrend flatten_lc trend_lc
           else Flattened flatten_lc))%M (s ++ copies ta fa)) /\
  (forall time' flux' s2 ta' fa',
     s2 !! time' = Some ta' -> s2 !! flux' = Some fa' ->
     length (data ta) = length (data fa) ->
     length (data ta') = length (data fa') ->
     nan_mask ta fa = nan_mask ta' fa' ->
     time_compressed ta fa = time_compressed ta' fa' ->
     flux_compressed ta fa = flux_compressed ta' fa' ->
     (method kw = "supersmoother" ->
      Py.max (time32 ta) = Py.max (time32 ta') /\
      Py.min (time32 ta) = Py.min (time32 ta')) ->
     outcome (flatten R time flux kw s) =
     outcome (flatten R time' flux' kw s2)) /\
  (forall r s',
     flatten R time flux kw s = (Ok r, s') ->
     r = returned_at (length s) kw /\
     s' !! (length s + 2)%nat =
       Some (mk_ndarray float32
               (Np.compress (time32 ta) (nan_mask ta fa))) /\
     s' !! (length s + 3)%nat =
       Some (mk_ndarray float32
               (Np.compress (flux32 fa) (nan_mask ta fa))) /\
     exists trend flat,
       s' !! (length s + 4)%nat = Some trend /\
       s' !! (length s + 5)%nat = Some flat /\
       forall i,
         nan_mask ta fa !! i = Some true ->
         data trend !! i = Some F.nan /\ data flat !! i = Some F.nan) /\
  (forall e s',
     length (data ta) = length (data fa) ->
     flatten R time flux kw s = (Raise e, s') ->
     prologue R kw = Raise e \/
     exists st,
       prologue R kw = Ok st /\
       (get_gaps_indexes R (time_compressed ta fa) (s_break_tolerance st) =
          Raise e \/
        exists gaps_indexes,
          get_gaps_indexes R (time_compressed ta fa)
            (s_break_tolerance st) = Ok gaps_indexes /\
          (segment_loop R kw st (time32 ta) (time_compressed ta fa)
             (flux_compressed ta fa) gaps_indexes (initial_loop_state st) =
             Raise e \/
           exists ls,
             segment_loop R kw st (time32 ta) (time_compressed ta fa)
               (flux_compressed ta fa) gaps_indexes
               (initial_loop_state st) = Ok ls /\
             e = index_error /\
             (length (ls_trend_flux ls) <
              length (Np.where_not (nan_mask ta fa)))%nat))) /\
  (forall st gaps_indexes,
     length (data ta) = length (data fa) ->
     prologue R kw = Ok st ->
     get_gaps_indexes R (time_compressed ta fa) (s_break_tolerance st) =
       Ok gaps_indexes ->
     boundaries gaps_indexes (length (time_compressed ta fa)) ->
     trend_per_view R kw st (time32 ta) (time_compressed ta fa)
       (flux_compressed ta fa) ->
     exists r s', flatten R time flux kw s = (Ok r, s')) /\
  (forall st lo hi rest,
     length (data ta) = length (data fa) ->
     prologue R kw = Ok st ->
     get_gaps_indexes R (time_compressed ta fa) (s_break_tolerance st) =
       Ok (lo :: hi :: rest) ->
     method kw = "lowess" ->
     is_Some (statsmodels_lowess R) ->
     time_compressed ta fa = [] ->
     flatten R time flux kw s =
       (Raise (ValueError
          "zero-size array to reduction operation maximum which has no identity"),
        s ++ copies ta fa)).
Proof.
  intros Htime Hflux.
  split; [|split; [|split; [|split; [|split; [|split; [|split]]]]]].
  - intros i x y Hx Hy.
    assert (Hprod : nan_mask ta fa !! i =
              Some (F.isnan (F.mul32 (F.to_float32 x) (F.to_float32 y)))).
    { unfold nan_mask, time32, flux32.
      by rewrite lookup_zip_with, !list_lookup_fmap, Hx, Hy. }
    assert (Hexact : nan_mask ta fa !! i =
              Some (F.isnan x || F.isnan y ||
                    zero_times_inf (F.to_float32 x) (F.to_float32 y))).
    { by rewrite Hprod, isnan_mul32, !isnan_to_float32. }
    split; [by apply nan_mask_of_nan|].
    split; [exact Hprod|]. split; [exact Hexact|]. split.
    + intros sg Hinf Hy' Hzero. rewrite Hexact, Hy', orb_false_r.
      rewrite <- (isnan_to_float32 x), Hinf. cbn [F.isnan orb].
      f_equal. destruct (F.to_float32 y) as [sg'| | |]; try reflexivity.
      by destruct (Hzero sg').
    + intros sg Hinf Hx' Hzero. rewrite Hexact, Hx'. cbn [orb].
      rewrite <- (isnan_to_float32 y), Hinf. cbn [F.isnan orb].
      f_equal. destruct (F.to_float32 x) as [sg'| | |]; try reflexivity.
      by destruct (Hzero sg').
  - intros Hlen.
    assert (Ht : length (time32 ta) = length (nan_mask ta fa)).
    { rewrite (length_nan_mask ta fa Hlen). unfold time32.
      by rewrite length_map. }
    assert (Hf : length (flux32 fa) = length (nan_mask ta fa)).
    { rewrite (length_nan_mask ta fa Hlen). unfold flux32.
      by rewrite length_map. }
    split; [by apply length_compress|].
    split; [by apply length_compress|]. split; [|split].
    + intros k j Hk.
      destruct (compress_lookup (nan_mask ta fa) (time32 ta) k j Ht Hk)
        as [Hm Htc].
      destruct (compress_lookup (nan_mask ta fa) (flux32 fa) k j Hf Hk)
        as [_ Hfc].
      done.
    + intros j Hj.
      destruct (where_not_from_complete (nan_mask ta fa) 0%nat j Hj)
        as [k Hk].
      by exists k.
    + intros k k' j j'. apply where_not_from_increasing.
  - intros st Hlen Hpro.
    apply (flatten_prefix R time flux kw s ta fa st Htime Hflux Hlen Hpro).
  - intros time' flux' s2 ta' fa' Ht' Hf' Hlen Hlen' Hmask Htc Hfc Hspan.
    apply (flatten_outcome_agrees R kw time flux s ta fa
             time' flux' s2 ta' fa'); try done.
    intros st g ls. by apply segment_loop_masked_time.
  - intros r s' Hrun.
    destruct (flatten_ok_inv R time flux kw s s' ta fa r Htime Hflux Hrun)
      as (st & g & ls & _ & Hlen & _ & _ & _ & -> & ->).
    split; [done|].
    split; [apply lookup_time_compressed|].
    split; [apply lookup_flux_compressed|].
    eexists; eexists.
    split; [apply lookup_trend|]. split; [apply lookup_flattened|].
    intros i Hi. by apply masked_values.
  - intros e s' Hlen Hrun.
    by apply (flatten_raise_inv R time flux kw s s' ta fa e).
  - intros st g Hlen Hpro Hgaps Hb Hest.
    destruct (flatten_returns_views R time flux kw s ta fa st g
                Htime Hflux Hlen Hpro Hgaps Hb Hest)
      as (trend_flux & _ & Hrun).
    eauto.
  - intros st lo hi rest Hlen Hpro Hgaps Hm [lowess Hl] Hempty.
    apply (flatten_collaborator_raise R time flux kw s ta fa st _
             Htime Hflux Hlen Hpro).
    right. eexists. split; [exact Hgaps|].
    apply segment_loop_first_raises.
    unfold segment_trend. rewrite Hm, Hl, Hempty. reflexivity.
Qed.

Lemma C2_witness :
  (exists r s' trend flat,
     flatten Example.pointwise 0%nat 1%nat
       (with_return_trend defaults true) example_store = (Ok r, s') /\
     s' !! 6%nat = Some trend /\ s' !! 7%nat = Some flat /\
     data trend !! 2%nat = Some F.nan /\ data flat !! 2%nat = Some F.nan) /\
  outcome (flatten Example.pointwise 0%nat 1%nat
             (with_return_trend defaults true) example_store) =
  outcome (flatten Example.pointwise 0%nat 1%nat
             (with_return_trend defaults true) example_store') /\
  nan_mask (Example.sequence (map F.of_Z [0; 1; 2; 10; 11; 12]))
    (Example.sequence
       [F.of_Z 1; F.of_Z 2; F.nan; F.of_Z 4; F.inf; F.of_Z 6]) !! 4%nat =
  Some false.
Proof.
  destruct (C2_nan_samples_are_masked Example.pointwise 0%nat 1%nat
              (with_return_trend defaults true) example_store
              (Example.sequence (map F.of_Z [0; 1; 2; 10; 11; 12]))
              (Example.sequence
                 [F.of_Z 1; F.of_Z 2; F.nan; F.of_Z 4; F.inf; F.of_Z 6])
              eq_refl eq_refl)
    as (Hmask & _ & _ & Hindep & Hvalues & _ & Htotal & _).
  split; [|split].
  - destruct (Htotal
                {| s_method_code := Some 1;
                   s_cval := PInt 5;
                   s_supersmoother_alpha := None;
                   s_window_length := PInt 2;
                   s_break_tolerance := PFloat (F.of_Z 1) |}
                [0; 2; 5]) as (r & s' & Hrun).
    + reflexivity.
    + vm_compute. reflexivity.
    + vm_compute. reflexivity.
    + vm_compute. repeat split; discriminate.
    + intros ls lo hi. eexists. split; reflexivity.
    + destruct (Hvalues r s' Hrun)
        as (_ & _ & _ & trend & flat & Htrend & Hflat & Hnan).
      exists r, s', trend, flat.
      split; [exact Hrun|]. split; [exact Htrend|]. split; [exact Hflat|].
      apply Hnan.
      destruct (Hmask 2%nat (F.of_Z 2) F.nan eq_refl eq_refl) as [H _].
      apply H. right. reflexivity.
  - apply (Hindep 0%nat 1%nat example_store'
             (Example.sequence [F.of_Z 0; F.of_Z 1; F.nan; F.of_Z 10;
                                F.of_Z 11; F.of_Z 12])
             (Example.sequence [F.of_Z 1; F.of_Z 2; F.of_Z 3; F.of_Z 4;
                                F.inf; F.of_Z 6]));
      try reflexivity; try (vm_compute; reflexivity).
    simpl. discriminate.
  - destruct (Hmask 4%nat (F.of_Z 11) F.inf eq_refl eq_refl)
      as (_ & _ & _ & _ & H).
    apply (H false); [reflexivity | reflexivity |].
    intros sg'. vm_compute. discriminate.
Defined.

(** C2 does not hold of infinite values. The series has one sample, at
    time infinity with flux 1. The product is infinite, not NaN: the sample
    stays in the compressed time series, the estimator is handed it, and
    neither the trend nor the flattened flux at its index is NaN. *)
Lemma C2_counterexample_infinite_time_not_masked :
  F.isfinite F.inf = false /\
  nan_mask (Example.sequence [F.inf]) (Example.sequence [F.of_Z 1]) = [false] /\
  flatten Example.pointwise 0%nat 1%nat (with_return_trend defaults true)
    [Example.sequence [F.inf]; Example.sequence [F.of_Z 1]] =
  (Ok (FlattenedAndTrend 7%nat 6%nat),
   [Example.sequence [F.inf]; Example.sequence [F.of_Z 1];
    mk_ndarray float32 [F.inf];
    mk_ndarray float32 [F.to_float32 (F.of_Z 1)];
    mk_ndarray float32 [F.inf];
    mk_ndarray float32 [F.to_float32 (F.of_Z 1)];
    mk_ndarray float64 [F.to_float32 (F.of_Z 1)];
    mk_ndarray float64 [F.of_Z 1]]) /\
  F.isnan (F.to_float32 (F.of_Z 1)) = false /\
  F.isnan (F.of_Z 1) = false.
Proof. vm_compute. repeat split; reflexivity. Qed.

(** ** Precision *)

(** C7, as the code has it. Lines 150 and 151 convert every time and flux
    value to float32 before anything is computed with it: once the
    parameters have passed validation the call is the rest of [flatten]
    run on the float32 copies. The mask is taken from the float32
    product, the segmenter is asked on the float32 compressed time
    series, and the segment loop cuts the views it hands to the estimators
    from the float32 series; so two calls whose time and flux values agree
    after the conversion have the same outcome. A call that returns leaves
    behind the caller's store, in this order: the float32 copies of time
    and flux, the float32 compressed series, the float64 trend and the
    float64 flattened flux, whose elements are the binary64 quotients of
    the float32 flux values by the trend values. The call returns when the
    boundaries cover the compressed series and the estimator answers every
    pair of views with a trend of their length. *)
Theorem C7_samples_are_carried_as_float32
    (R : Runtime) (time flux : loc) (kw : kwargs) (s : store)
    (ta fa : ndarray) :
  s !! time = Some ta ->
  s !! flux = Some fa ->
  (forall r s',
     flatten R time flux kw s = (Ok r, s') ->
     exists trend : list float,
       let t := map F.to_float32 (data ta) in
       let f := map F.to_float32 (data fa) in
       let mask := zip_with (fun x y => F.isnan (F.mul32 x y)) t f in
       r = returned_at (length s) kw /\
       s' = s ++ [mk_ndarray float32 t;
                  mk_ndarray float32 f;
                  mk_ndarray float32 (Np.compress t mask);
                  mk_ndarray float32 (Np.compress f mask);
                  mk_ndarray float64 trend;
                  mk_ndarray float64 (zip_with F.div64 f trend)]) /\
  (forall st,
     length (data ta) = length (data fa) ->
     prologue R kw = Ok st ->
     let t := map F.to_float32 (data ta) in
     let f := map F.to_float32 (data fa) in
     let mask := zip_with (fun x y => F.isnan (F.mul32 x y)) t f in
     flatten R time flux kw s =
     (do gaps_indexes <-
        lift (get_gaps_indexes R (Np.compress t mask)
                (s_break_tolerance st));
      do ls <- lift (segment_loop R kw st t
                       (Np.compress t mask) (Np.compress f mask)
                       gaps_indexes (initial_loop_state st));
      do trend_lc <- Np.full_nan (length t);
      do _ <- transplant trend_lc (Np.where_not mask) (ls_trend_flux ls) 0;
      do flatten_lc <- Np.divide (S (length s)) trend_lc;
      ret (if return_trend kw
           then FlattenedAndTrend flatten_lc trend_lc
           else Flattened flatten_lc))%M
       (s ++ [mk_ndarray float32 t;
              mk_ndarray float32 f;
              mk_ndarray float32 (Np.compress t mask);
              mk_ndarray float32 (Np.compress f mask)])) /\
  (forall time' flux' s2 ta' fa',
     s2 !! time' = Some ta' -> s2 !! flux' = Some fa' ->
     length (data ta) = length (data fa) ->
     map F.to_float32 (data ta) = map F.to_float32 (data ta') ->
     map F.to_float32 (data fa) = map F.to_float32 (data fa') ->
     outcome (flatten R time flux kw s) =
     outcome (flatten R time' flux' kw s2)) /\
  (forall st gaps_indexes,
     length (data ta) = length (data fa) ->
     prologue R kw = Ok st ->
     get_gaps_indexes R (time_compressed ta fa) (s_break_tolerance st) =
       Ok gaps_indexes ->
     boundaries gaps_indexes (length (time_compressed ta fa)) ->
     trend_per_view R kw st (time32 ta) (time_compressed ta fa)
       (flux_compressed ta fa) ->
     exists r s', flatten R time flux kw s = (Ok r, s')).
Proof.
  intros Htime Hflux. split; [|split; [|split]].
  - intros r s' Hrun.
    destruct (flatten_ok_inv R time flux kw s s' ta fa r Htime Hflux Hrun)
      as (st & g & ls & _ & Hlen & _ & _ & _ & -> & ->).
    exists (expand (nan_mask ta fa) (ls_trend_flux ls)).
    split; reflexivity.
  - intros st Hlen Hpro. cbv zeta.
    apply (flatten_prefix R time flux kw s ta fa st Htime Hflux Hlen Hpro).
  - intros time' flux' s2 ta' fa' Ht' Hf' Hlen Ht32 Hf32.
    assert (Hlen' : length (data ta') = length (data fa')).
    { apply (f_equal length) in Ht32, Hf32.
      rewrite !length_map in Ht32, Hf32. lia. }
    assert (Hmask : nan_mask ta fa = nan_mask ta' fa').
    { unfold nan_mask, time32, flux32. by rewrite Ht32, Hf32. }
    apply (flatten_outcome_agrees R kw time flux s ta fa
             time' flux' s2 ta' fa'); try done.
    + unfold time_compressed, time32. by rewrite Hmask, Ht32.
    + unfold flux_compressed, flux32. by rewrite Hmask, Hf32.
    + intros st g ls. unfold time32. by rewrite Ht32.
  - intros st g Hlen Hpro Hgaps Hb Hest.
    destruct (flatten_returns_views R time flux kw s ta fa st g
                Htime Hflux Hlen Hpro Hgaps Hb Hest)
      as (trend_flux & _ & Hrun).
    eauto.
Qed.

Lemma C7_witness :
  (exists r s',
     flatten Example.pointwise 0%nat 1%nat defaults example_store =
       (Ok r, s') /\
     s' !! 3%nat =
       Some (mk_ndarray float32
               (map F.to_float32
                  [F.of_Z 1; F.of_Z 2; F.nan; F.of_Z 4; F.inf; F.of_Z 6]))) /\
  outcome
    (flatten Example.pointwise 0%nat 1%nat defaults
       [Example.sequence [F.of_Z 1]; Example.sequence [F.of_Z 16777217]]) =
  outcome
    (flatten Example.pointwise 0%nat 1%nat defaults
       [Example.sequence [F.of_Z 1]; Example.sequence [F.of_Z 16777216]]).
Proof.
  split.
  - destruct (C7_samples_are_carried_as_float32 Example.pointwise
                0%nat 1%nat defaults example_store
                (Example.sequence (map F.of_Z [0; 1; 2; 10; 11; 12]))
                (Example.sequence
                   [F.of_Z 1; F.of_Z 2; F.nan; F.of_Z 4; F.inf; F.of_Z 6])
                eq_refl eq_refl) as (Hshape & _ & _ & Htotal).
    destruct (Htotal
                {| s_method_code := Some 1;
                   s_cval := PInt 5;
                   s_supersmoother_alpha := None;
                   s_window_length := PInt 2;
                   s_break_tolerance := PFloat (F.of_Z 1) |}
                [0; 2; 5]) as (r & s' & Hrun).
    + reflexivity.
    + vm_compute. reflexivity.
    + vm_compute. reflexivity.
    + vm_compute. repeat split; discriminate.
    + intros ls lo hi. eexists. split; reflexivity.
    + exists r, s'. split; [exact Hrun|].
      destruct (Hshape r s' Hrun) as (trend & _ & ->). reflexivity.
  - destruct (C7_samples_are_carried_as_float32 Example.pointwise
                0%nat 1%nat defaults
                [Example.sequence [F.of_Z 1];
                 Example.sequence [F.of_Z 16777217]]
                (Example.sequence [F.of_Z 1])
                (Example.sequence [F.of_Z 16777217])
                eq_refl eq_refl) as (_ & _ & Hsame & _).
    apply (Hsame 0%nat 1%nat
             [Example.sequence [F.of_Z 1];
              Example.sequence [F.of_Z 16777216]]
             (Example.sequence [F.of_Z 1])
             (Example.sequence [F.of_Z 16777216]));
      reflexivity.
Defined.

(** C7 does not hold as stated. The flux 16777217 is a binary64 number
    that float32 cannot hold. The estimator of the example runtime returns
    the flux it is handed; it is handed 16777216, and that is the trend
    the call returns: the sample was not carried in 64-bit precision. *)
Lemma C7_counterexample_flux_rounded_to_float32 :
  valid_binary F.prec64 F.emax64 (F.of_Z 16777217) = true /\
  flatten Example.pointwise 0%nat 1%nat (with_return_trend defaults true)
    [Example.sequence [F.of_Z 1]; Example.sequence [F.of_Z 16777217]] =
  (Ok (FlattenedAndTrend 7%nat 6%nat),
   [Example.sequence [F.of_Z 1]; Example.sequence [F.of_Z 16777217];
    mk_ndarray float32 [F.to_float32 (F.of_Z 1)];
    mk_ndarray float32 [F.to_float32 (F.of_Z 16777216)];
    mk_ndarray float32 [F.to_float32 (F.of_Z 1)];
    mk_ndarray float32 [F.to_float32 (F.of_Z 16777216)];
    mk_ndarray float64 [F.to_float32 (F.of_Z 16777216)];
    mk_ndarray float64 [F.of_Z 1]]) /\
  F.to_float64 (F.to_float32 (F.of_Z 16777216)) = F.of_Z 16777216 /\
  F.eqb (F.of_Z 16777216) (F.of_Z 16777217) = false.
Proof. vm_compute. repeat split; reflexivity. Qed.

(** ** Assembly (lines 250 to 254) *)

(** The trend reads as many values as there are unmasked samples. *)
Lemma expand_take (mask : list bool) :
  forall vals : list float,
    expand mask vals =
    expand mask (take (length (Np.where_not mask)) vals).
Proof.
  unfold Np.where_not.
  induction mask as [|b mask IH]; intros vals; [reflexivity|].
  destruct b; simpl.
  - rewrite (length_where_not_from 1 0). by rewrite <- IH.
  - rewrite (length_where_not_from 1 0).
    destruct vals as [|v vals]; simpl.
    + rewrite (IH []). by rewrite take_nil.
    + by rewrite <- IH.
Qed.

(** C8, as the code has it. No statement of [flatten] compares the number
    of trend values the segments delivered with the number of unmasked
    samples. When the segments delivered fewer, line 254 runs out of
    values and the call ends in IndexError. When they delivered more, the
    call returns: the first values, one for every unmasked sample, make
    the trend, and the surplus is dropped without notice. *)
Theorem C8_trend_count_mismatch
    (R : Runtime) (time flux : loc) (kw : kwargs) (s : store)
    (ta fa : ndarray) (st : settings) (gaps_indexes : list Z)
    (ls : loop_state) :
  s !! time = Some ta ->
  s !! flux = Some fa ->
  length (data ta) = length (data fa) ->
  prologue R kw = Ok st ->
  get_gaps_indexes R (time_compressed ta fa) (s_break_tolerance st) =
    Ok gaps_indexes ->
  segment_loop R kw st (time32 ta) (time_compressed ta fa)
    (flux_compressed ta fa) gaps_indexes (initial_loop_state st) = Ok ls ->
  ((length (ls_trend_flux ls) < unmasked ta fa)%nat ->
   exists rest,
     flatten R time flux kw s =
       (Raise (IndexError "index out of bounds"),
        s ++ copies ta fa ++ rest)) /\
  ((unmasked ta fa <= length (ls_trend_flux ls))%nat ->
   let used := take (unmasked ta fa) (ls_trend_flux ls) in
   flatten R time flux kw s =
     (Ok (returned_at (length s) kw),
      s ++ copies ta fa ++
        [trend_array ta fa used; flattened_array ta fa used])).
Proof.
  intros Htime Hflux Hlen Hpro Hgaps Hloop. unfold unmasked. split.
  - intros Hfew.
    apply (flatten_too_few R time flux kw s ta fa st
             Htime Hflux Hlen Hpro gaps_indexes ls Hgaps Hloop Hfew).
  - intros Henough. cbv zeta.
    rewrite (flatten_enough R time flux kw s ta fa st
               Htime Hflux Hlen Hpro gaps_indexes ls Hgaps Hloop Henough).
    unfold trend_array, flattened_array.
    by rewrite <- (expand_take (nan_mask ta fa) (ls_trend_flux ls)).
Qed.

Lemma C8_witness :
  (exists s',
     flatten Example.short 0%nat 1%nat defaults example_store =
       (Raise (IndexError "index out of bounds"), s')) /\
  (exists s',
     flatten Example.overlong 0%nat 1%nat defaults example_store =
       (Ok (Flattened 7%nat), s')).
Proof.
  split.
  - pose proof (C8_trend_count_mismatch Example.short 0%nat 1%nat defaults
              example_store
              (Example.sequence (map F.of_Z [0; 1; 2; 10; 11; 12]))
              (Example.sequence
                 [F.of_Z 1; F.of_Z 2; F.nan; F.of_Z 4; F.inf; F.of_Z 6])
              {| s_method_code := Some 1;
                 s_cval := PInt 5;
                 s_supersmoother_alpha := None;
                 s_window_length := PInt 2;
                 s_break_tolerance := PFloat (F.of_Z 1) |}
              [0; 2; 5]
              {| ls_window_length := PInt 2;
                 ls_trend_segment := [];
                 ls_trend_flux := [] |}
              eq_refl eq_refl eq_refl) as H.
    destruct H as [H _].
    + vm_compute. reflexivity.
    + vm_compute. reflexivity.
    + vm_compute. reflexivity.
    + destruct H as (rest & H); [vm_compute; lia|].
      eexists. exact H.
  - pose proof (C8_trend_count_mismatch Example.overlong 0%nat 1%nat defaults
              example_store
              (Example.sequence (map F.of_Z [0; 1; 2; 10; 11; 12]))
              (Example.sequence
                 [F.of_Z 1; F.of_Z 2; F.nan; F.of_Z 4; F.inf; F.of_Z 6])
              {| s_method_code := Some 1;
                 s_cval := PInt 5;
                 s_supersmoother_alpha := None;
                 s_window_length := PInt 2;
                 s_break_tolerance := PFloat (F.of_Z 1) |}
              [0; 2; 5]
              {| ls_window_length := PInt 2;
                 ls_trend_segment :=
                   [F.to_float32 (F.of_Z 4); F.inf; F.to_float32 (F.of_Z 6);
                    F.of_Z 7];
                 ls_trend_flux :=
                   [F.to_float32 (F.of_Z 1); F.to_float32 (F.of_Z 2);
                    F.of_Z 7; F.to_float32 (F.of_Z 4); F.inf;
                    F.to_float32 (F.of_Z 6); F.of_Z 7] |}
              eq_refl eq_refl eq_refl) as H.
    destruct H as [_ H].
    + vm_compute. reflexivity.
    + vm_compute. reflexivity.
    + vm_compute. reflexivity.
    + eexists. apply H. vm_compute. lia.
Defined.

(** C8 does not hold as stated. The estimator of this runtime returns one
    value more than the segment has samples: three trend values for two
    unmasked samples. The call returns all the same, with the first two
    values as the trend; no error is raised. *)
Lemma C8_counterexample_surplus_values_dropped :
  segment_loop Example.overlong defaults
    {| s_method_code := Some 1;
       s_cval := PInt 5;
       s_supersmoother_alpha := None;
       s_window_length := PInt 2;
       s_break_tolerance := PFloat (F.of_Z 1) |}
    (map F.to_float32 [F.of_Z 0; F.of_Z 1])
    (map F.to_float32 [F.of_Z 0; F.of_Z 1])
    (map F.to_float32 [F.of_Z 1; F.of_Z 2])
    [0; 2]
    {| ls_window_length := PInt 2;
       ls_trend_segment := [];
       ls_trend_flux := [] |} =
  Ok {| ls_window_length := PInt 2;
        ls_trend_segment :=
          [F.to_float32 (F.of_Z 1); F.to_float32 (F.of_Z 2); F.of_Z 7];
        ls_trend_flux :=
          [F.to_float32 (F.of_Z 1); F.to_float32 (F.of_Z 2); F.of_Z 7] |} /\
  unmasked (Example.sequence [F.of_Z 0; F.of_Z 1])
           (Example.sequence [F.of_Z 1; F.of_Z 2]) = 2%nat /\
  flatten Example.overlong 0%nat 1%nat (with_return_trend defaults true)
    [Example.sequence [F.of_Z 0; F.of_Z 1];
     Example.sequence [F.of_Z 1; F.of_Z 2]] =
  (Ok (FlattenedAndTrend 7%nat 6%nat),
   [Example.sequence [F.of_Z 0; F.of_Z 1];
    Example.sequence [F.of_Z 1; F.of_Z 2];
    mk_ndarray float32 (map F.to_float32 [F.of_Z 0; F.of_Z 1]);
    mk_ndarray float32 (map F.to_float32 [F.of_Z 1; F.of_Z 2]);
    mk_ndarray float32 (map F.to_float32 [F.of_Z 0; F.of_Z 1]);
    mk_ndarray float32 (map F.to_float32 [F.of_Z 1; F.of_Z 2]);
    mk_ndarray float64 (map F.to_float32 [F.of_Z 1; F.of_Z 2]);
    mk_ndarray float64 [F.of_Z 1; F.of_Z 1]]).
Proof. vm_compute. repeat split; reflexivity. Qed.

(** ** Optional packages (lines 183 to 187, 201 to 205, 234 to 238) *)

Lemma segment_trend_import_error (R : Runtime) (kw : kwargs) (st : settings)
    (t tc : list float) (ls : loop_state) (tv fv : list float)
    (package : string) :
  required_package (method kw) = Some package ->
  installed R package = false ->
  segment_trend R kw st t tc ls tv fv =
    Raise (ImportError ("Could not import " ++ package)).
Proof.
  unfold required_package, installed, segment_trend. cbv zeta.
  destruct (method kw =? "lowess")%string eqn:E1.
  { apply String.eqb_eq in E1. rewrite E1. intros [= <-]. simpl.
    destruct (statsmodels_lowess R); [|reflexivity].
    rewrite bool_decide_eq_false. intros H. destruct H. eauto. }
  destruct (method kw =? "supersmoother")%string eqn:E2.
  { apply String.eqb_eq in E2. rewrite E2. intros [= <-]. simpl.
    destruct (supersmoother R); [|reflexivity].
    rewrite bool_decide_eq_false. intros H. destruct H. eauto. }
  destruct (method kw =? "untrendy")%string eqn:E3; [|discriminate].
  apply String.eqb_eq in E3. rewrite E3. intros [= <-]. simpl.
  destruct (untrendy_fit_trend R); [|reflexivity].
  rewrite bool_decide_eq_false. intros H. destruct H. eauto.
Qed.

(** C6. When the selected method imports a package inside the segment
    loop ([lowess]: statsmodels, [supersmoother]: supersmoother,
    [untrendy]: untrendy) and the runtime does not have it, the call ends
    in the ImportError whose message names the package. The import sits in
    the loop body: the parameters have passed validation, the sequences
    have equal length and the segmenter has returned at least one
    segment. *)
Theorem C6_missing_package_raises_import_error
    (R : Runtime) (time flux : loc) (kw : kwargs) (s : store)
    (ta fa : ndarray) (st : settings) (lo hi : Z) (rest : list Z)
    (package : string) :
  s !! time = Some ta ->
  s !! flux = Some fa ->
  length (data ta) = length (data fa) ->
  prologue R kw = Ok st ->
  get_gaps_indexes R (time_compressed ta fa) (s_break_tolerance st) =
    Ok (lo :: hi :: rest) ->
  required_package (method kw) = Some package ->
  installed R package = false ->
  flatten R time flux kw s =
    (Raise (ImportError ("Could not import " ++ package)),
     s ++ copies ta fa).
Proof.
  intros Htime Hflux Hlen Hpro Hgaps Hreq Hmissing.
  rewrite (flatten_prefix R time flux kw s ta fa st Htime Hflux Hlen Hpro).
  rewrite Hgaps, (bind_ok _ _ _ _ (lo :: hi :: rest) (lift_run _ _)).
  rewrite segment_loop_cons. unfold segment_step.
  rewrite (segment_trend_import_error R kw st _ _ _ _ _ package
             Hreq Hmissing).
  cbn [rbind].
  by rewrite (bind_raise _ _ _ _ _ (lift_run _ _)).
Qed.

Lemma C6_witness :
  flatten Example.bare 0%nat 1%nat (with_method defaults "lowess")
    example_store =
  (Raise (ImportError "Could not import statsmodels"),
   example_store ++
     copies (Example.sequence (map F.of_Z [0; 1; 2; 10; 11; 12]))
            (Example.sequence
               [F.of_Z 1; F.of_Z 2; F.nan; F.of_Z 4; F.inf; F.of_Z 6])) /\
  (exists s',
     flatten Example.bare 0%nat 1%nat (with_method defaults "supersmoother")
       example_store =
     (Raise (ImportError "Could not import supersmoother"), s')) /\
  (exists s',
     flatten Example.bare 0%nat 1%nat (with_method defaults "untrendy")
       example_store =
     (Raise (ImportError "Could not import untrendy"), s')).
Proof.
  split; [|split].
  - apply (C6_missing_package_raises_import_error Example.bare 0%nat 1%nat
             (with_method defaults "lowess") example_store
             (Example.sequence (map F.of_Z [0; 1; 2; 10; 11; 12]))
             (Example.sequence
                [F.of_Z 1; F.of_Z 2; F.nan; F.of_Z 4; F.inf; F.of_Z 6])
             {| s_method_code := None;
                s_cval := PInt 0;
                s_supersmoother_alpha := None;
                s_window_length := PInt 2;
                s_break_tolerance := PFloat (F.of_Z 1) |}
             0 2 [5] "statsmodels");
      try reflexivity; vm_compute; reflexivity.
  - eexists.
    apply (C6_missing_package_raises_import_error Example.bare 0%nat 1%nat
             (with_method defaults "supersmoother") example_store
             (Example.sequence (map F.of_Z [0; 1; 2; 10; 11; 12]))
             (Example.sequence
                [F.of_Z 1; F.of_Z 2; F.nan; F.of_Z 4; F.inf; F.of_Z 6])
             {| s_method_code := None;
                s_cval := PInt 0;
                s_supersmoother_alpha := Some None;
                s_window_length := PInt 2;
                s_break_tolerance := PFloat (F.of_Z 1) |}
             0 2 [5] "supersmoother");
      try reflexivity; vm_compute; reflexivity.
  - eexists.
    apply (C6_missing_package_raises_import_error Example.bare 0%nat 1%nat
             (with_method defaults "untrendy") example_store
             (Example.sequence (map F.of_Z [0; 1; 2; 10; 11; 12]))
             (Example.sequence
                [F.of_Z 1; F.of_Z 2; F.nan; F.of_Z 4; F.inf; F.of_Z 6])
             {| s_method_code := None;
                s_cval := PInt 0;
                s_supersmoother_alpha := None;
                s_window_length := PInt 2;
                s_break_tolerance := PFloat (F.of_Z 1) |}
             0 2 [5] "untrendy");
      try reflexivity; vm_compute; reflexivity.
Defined.

(** ** Calls that run alike *)

Lemma bind_ext {A B} (m : M A) (k k' : A -> M B) (s : store) :
  (forall a s1, k a s1 = k' a s1) -> bind m k s = bind m k' s.
Proof.
  intros H. unfold bind. destruct (m s) as [[a|e] s1]; [apply H | done].
Qed.

Lemma segment_loop_ext (R R' : Runtime) (kw kw' : kwargs) (st st' : settings)
    (t tc fc : list float) :
  (forall ls tv fv,
     segment_trend R kw st t tc ls tv fv =
     segment_trend R' kw' st' t tc ls tv fv) ->
  forall gaps_indexes ls,
    segment_loop R kw st t tc fc gaps_indexes ls =
    segment_loop R' kw' st' t tc fc gaps_indexes ls.
Proof.
  intros H. induction gaps_indexes as [|lo rest IH]; intros ls.
  - reflexivity.
  - destruct rest as [|hi rest]; [reflexivity|].
    rewrite !segment_loop_cons. unfold segment_step. rewrite H.
    destruct (segment_trend R' kw' st' t tc ls _ _); simpl;
      [apply IH | reflexivity].
Qed.

(** Two calls on the same sequences run alike when their prologues fail
    alike or leave settings under which the segmenter and the estimator
    are asked the same questions and give the same answers. *)
Lemma flatten_ext (R R' : Runtime) (kw kw' : kwargs)
    (time flux : loc) (s : store) :
  (forall e, prologue R kw = Raise e -> prologue R' kw' = Raise e) ->
  (forall st,
     prologue R kw = Ok st ->
     exists st',
       prologue R' kw' = Ok st' /\
       s_window_length st = s_window_length st' /\
       (forall tc,
          get_gaps_indexes R tc (s_break_tolerance st) =
          get_gaps_indexes R' tc (s_break_tolerance st')) /\
       (forall t tc ls tv fv,
          segment_trend R kw st t tc ls tv fv =
          segment_trend R' kw' st' t tc ls tv fv)) ->
  return_trend kw = return_trend kw' ->
  flatten R time flux kw s = flatten R' time flux kw' s.
Proof.
  intros Hraise Hok Hrt.
  destruct (prologue R kw) as [st|e] eqn:Hpro.
  - destruct (Hok st eq_refl) as (st' & Hpro' & Hw & Hgaps & Hseg).
    unfold flatten. rewrite Hpro, Hpro'.
    rewrite !(bind_ok _ _ _ _ _ (lift_run _ _)).
    do 9 (apply bind_ext; intros ? ?).
    rewrite Hgaps. apply bind_ext; intros g ?.
    unfold initial_loop_state. rewrite Hw.
    rewrite (segment_loop_ext R R' kw kw' st st' _ _ _ (Hseg _ _)).
    do 4 (apply bind_ext; intros ? ?).
    by rewrite Hrt.
  - rewrite (flatten_prologue_raise _ _ _ _ _ _ Hpro).
    by rewrite (flatten_prologue_raise _ _ _ _ _ _ (Hraise e eq_refl)).
Qed.

(** The dispatch reads [method], [edge_cutoff] and the three kernel
    arguments, and nothing else of the arguments. *)
Lemma segment_trend_agree (R : Runtime) (kw kw' : kwargs) (st : settings)
    (t tc : list float) (ls : loop_state) (tv fv : list float) :
  method kw = method kw' ->
  edge_cutoff kw = edge_cutoff kw' ->
  kernel kw = kernel kw' ->
  kernel_size kw = kernel_size kw' ->
  kernel_period kw = kernel_period kw' ->
  segment_trend R kw st t tc ls tv fv = segment_trend R kw' st t tc ls tv fv.
Proof.
  intros Hm He Hk Hs Hp. unfold segment_trend.
  by rewrite Hm, He, Hk, Hs, Hp.
Qed.

(** Two argument records with the same prologue and the same dispatch
    arguments give the same call. *)
Lemma flatten_agree (R : Runtime) (kw kw' : kwargs)
    (time flux : loc) (s : store) :
  prologue R kw = prologue R kw' ->
  method kw = method kw' ->
  edge_cutoff kw = edge_cutoff kw' ->
  kernel kw = kernel kw' ->
  kernel_size kw = kernel_size kw' ->
  kernel_period kw = kernel_period kw' ->
  return_trend kw = return_trend kw' ->
  flatten R time flux kw s = flatten R time flux kw' s.
Proof.
  intros Hpro Hm He Hk Hs Hp Hrt. apply flatten_ext; [| |done].
  - intros e H. by rewrite <- Hpro.
  - intros st H. exists st. split; [by rewrite <- Hpro|].
    split; [done|]. split; [done|].
    intros. by apply segment_trend_agree.
Qed.

(** ** Defaults (lines 114 to 144) *)

Lemma prologue_window_length (R : Runtime) (kw : kwargs) :
  window_length kw = None ->
  prologue R kw = prologue R (with_window_length kw (Some (PInt 2))).
Proof. intros H. unfold prologue. simpl. by rewrite H. Qed.

Lemma prologue_break_tolerance (R : Runtime) (kw : kwargs) (h : float) :
  break_tolerance kw = None ->
  Py.truediv2 (default_window_length (window_length kw)) = Ok h ->
  prologue R kw = prologue R (with_break_tolerance kw (Some (PFloat h))).
Proof.
  intros H Hh. unfold prologue, default_break_tolerance. simpl.
  by rewrite H, Hh.
Qed.

Lemma prologue_cval (R : Runtime) (kw : kwargs) (c : num) :
  cval kw = None ->
  default_cval (method kw) None (proportiontocut kw) = c ->
  prologue R kw = prologue R (with_cval kw (Some c)).
Proof.
  intros H Hc. unfold prologue. simpl. rewrite H, <- Hc. reflexivity.
Qed.

Lemma prologue_break_tolerance_zero (R : Runtime) (kw : kwargs) (b : num) :
  break_tolerance kw = Some b ->
  Py.eq_lit b 0 = true ->
  prologue R kw = prologue R (with_break_tolerance kw (Some (PFloat F.inf))).
Proof.
  intros H Hb. unfold prologue, default_break_tolerance.
  cbn [with_break_tolerance break_tolerance window_length method
       proportiontocut cval].
  rewrite H. cbn [rbind]. rewrite Hb. reflexivity.
Qed.

(** Every method of the list of line 165 has a code (lines 91 to 106). *)
Lemma method_code_windowed (m : string) :
  Py.str_in m methods = true -> exists k, method_code m = Some k.
Proof.
  unfold Py.str_in, methods, method_code. simpl.
  repeat (destruct (String.eqb m _); [eauto|]). discriminate.
Qed.

(** What a prologue that succeeds has bound (lines 90 to 144). *)
Lemma prologue_ok_inv (R : Runtime) (kw : kwargs) (st : settings) :
  prologue R kw = Ok st ->
  s_method_code st = method_code (method kw) /\
  s_cval st = default_cval (method kw) (cval kw) (proportiontocut kw) /\
  s_supersmoother_alpha st = supersmoother_alpha (method kw) (s_cval st) /\
  s_window_length st = default_window_length (window_length kw) /\
  default_break_tolerance (s_window_length st) (break_tolerance kw) =
    Ok (s_break_tolerance st).
Proof.
  unfold prologue, rbind. repeat case_match; try discriminate.
  intros [= <-]. cbn. repeat split; done.
Qed.

(** No difference of two time values is greater than infinity. *)
Lemma gap_starts_inf (time : list float) :
  forall i, Example.gap_starts i time F.inf = [].
Proof.
  induction time as [|x time IH]; intros i; [reflexivity|].
  destruct time as [|y time]; [reflexivity|].
  cbn [Example.gap_starts].
  replace (F.gtb (F.to_float64 (F.sub32 y x)) F.inf) with false;
    [apply IH|].
  unfold F.gtb, SFltb. by destruct (F.to_float64 (F.sub32 y x)) as [[]|[]| |].
Qed.

(** C5. [flatten] supplies the defaults. Lines 115 to 144 bind them: a
    prologue that succeeds holds the window length 2 when [window_length]
    is omitted; as break tolerance half the window length when
    [break_tolerance] is omitted, which is 1.0 when both are omitted, and
    infinity in place of a tolerance equal to 0; as [cval] 5 for [biweight],
    1.339 for [andrewsinewave], 2.11 for [welsch] and 1.5 for [huber] when
    [cval] is omitted. These values are the ones the call works with: the
    segmenter is asked with that break tolerance on the compressed time
    series, and the windowed estimators and [huber] are asked, for every
    pair of views, with that window length and that [cval]. So omitting a
    parameter is passing its default: the call without [window_length] is
    the call with 2, the call without [break_tolerance] the call with half
    the window length, the call without [cval] the call with the default
    of the method, the call with a tolerance equal to 0 the call with
    infinity. With an infinite tolerance the segmenter of section 4.1 of
    the specification makes one segment of the whole series. *)
Theorem C5_defaults
    (R : Runtime) (time flux : loc) (kw : kwargs) (s : store)
    (ta fa : ndarray) :
  (window_length kw = None ->
   flatten R time flux kw s =
   flatten R time flux (with_window_length kw (Some (PInt 2))) s) /\
  (forall h,
     break_tolerance kw = None ->
     Py.truediv2 (default_window_length (window_length kw)) = Ok h ->
     flatten R time flux kw s =
     flatten R time flux (with_break_tolerance kw (Some (PFloat h))) s) /\
  (window_length kw = None -> break_tolerance kw = None ->
   flatten R time flux kw s =
   flatten R time flux
     (with_break_tolerance (with_window_length kw (Some (PInt 2)))
        (Some (PFloat (F.of_Z 1)))) s) /\
  (forall c,
     cval kw = None ->
     (method kw = "biweight" /\ c = PInt 5) \/
     (method kw = "andrewsinewave" /\ c = PFloat (F.dec 1339 1000)) \/
     (method kw = "welsch" /\ c = PFloat (F.dec 211 100)) \/
     (method kw = "huber" /\ c = PFloat (F.dec 15 10)) ->
     flatten R time flux kw s =
     flatten R time flux (with_cval kw (Some c)) s) /\
  (forall b,
     break_tolerance kw = Some b ->
     Py.eq_lit b 0 = true ->
     flatten R time flux kw s =
     flatten R time flux
       (with_break_tolerance kw (Some (PFloat F.inf))) s /\
     forall st, prologue R kw = Ok st ->
                s_break_tolerance st = PFloat F.inf) /\
  (forall st,
     prologue R kw = Ok st ->
     (window_length kw = None -> s_window_length st = PInt 2) /\
     (window_length kw = None -> break_tolerance kw = None ->
      s_break_tolerance st = PFloat (F.of_Z 1)) /\
     (forall h,
        break_tolerance kw = None ->
        Py.truediv2 (s_window_length st) = Ok h ->
        s_break_tolerance st =
          if Py.eq_lit (PFloat h) 0 then PFloat F.inf else PFloat h) /\
     (forall b,
        break_tolerance kw = Some b ->
        s_break_tolerance st = if Py.eq_lit b 0 then PFloat F.inf else b) /\
     (cval kw = None ->
      (method kw = "biweight" -> s_cval st = PInt 5) /\
      (method kw = "andrewsinewave" ->
       s_cval st = PFloat (F.dec 1339 1000)) /\
      (method kw = "welsch" -> s_cval st = PFloat (F.dec 211 100)) /\
      (method kw = "huber" -> s_cval st = PFloat (F.dec 15 10))) /\
     (s !! time = Some ta -> s !! flux = Some fa ->
      length (data ta) = length (data fa) ->
      flatten R time flux kw s =
      (do gaps_indexes <-
         lift (get_gaps_indexes R (time_compressed ta fa)
                 (s_break_tolerance st));
       do ls <- lift (segment_loop R kw st (time32 ta)
                        (time_compressed ta fa) (flux_compressed ta fa)
                        gaps_indexes
                        {| ls_window_length := s_window_length st;
                           ls_trend_segment := [];
                           ls_trend_flux := [] |});
       do trend_lc <- Np.full_nan (length (time32 ta));
       do _ <- transplant trend_lc (Np.where_not (nan_mask ta fa))
                 (ls_trend_flux ls) 0;
       do flatten_lc <- Np.divide (S (length s)) trend_lc;
       ret (if return_trend kw
            then FlattenedAndTrend flatten_lc trend_lc
            else Flattened flatten_lc))%M (s ++ copies ta fa)) /\
     (forall t tc fc gaps_indexes ls,
        segment_loop R kw st t tc fc gaps_indexes
          {| ls_window_length := s_window_length st;
             ls_trend_segment := [];
             ls_trend_flux := [] |} = Ok ls ->
        (Py.str_in (method kw) methods = true ->
         exists code segs,
           method_code (method kw) = Some code /\
           Forall2
             (fun view seg =>
                running_segment R view.1 view.2 (s_window_length st)
                  (edge_cutoff kw) (s_cval st) code = Ok seg)
             (zip (views gaps_indexes tc) (views gaps_indexes fc)) segs /\
           ls_trend_flux ls = concat segs) /\
        (method kw = "huber" ->
         exists segs,
           Forall2
             (fun view seg =>
                running_segment_huber R view.1 view.2 (s_window_length st)
                  (edge_cutoff kw) (s_cval st) = Ok seg)
             (zip (views gaps_indexes tc) (views gaps_indexes fc)) segs /\
           ls_trend_flux ls = concat segs))) /\
  (forall tc,
     Example.spec_get_gaps_indexes tc (PFloat F.inf) =
     Ok [0; Z.of_nat (length tc)]).
Proof.
  split; [|split; [|split; [|split; [|split; [|split]]]]].
  - intros H. apply flatten_agree; try reflexivity.
    by apply prologue_window_length.
  - intros h H Hh. apply flatten_agree; try reflexivity.
    by apply prologue_break_tolerance.
  - intros Hw Hb.
    transitivity
      (flatten R time flux (with_window_length kw (Some (PInt 2))) s).
    + apply flatten_agree; try reflexivity.
      by apply prologue_window_length.
    + apply flatten_agree; try reflexivity.
      by apply prologue_break_tolerance.
  - intros c H Hc. apply flatten_agree; try reflexivity.
    apply prologue_cval; [done|].
    destruct Hc as [[-> ->]|[[-> ->]|[[-> ->]|[-> ->]]]]; reflexivity.
  - intros b H Hb. split.
    + apply flatten_agree; try reflexivity.
      by apply (prologue_break_tolerance_zero R kw b).
    + intros st. unfold prologue, default_break_tolerance, rbind.
      rewrite H, Hb. repeat case_match; try discriminate.
      by intros [= <-].
  - intros st Hpro.
    destruct (prologue_ok_inv R kw st Hpro) as (Hcode & Hc & _ & Hw & Hb).
    split; [|split; [|split; [|split; [|split; [|split]]]]].
    + intros H. by rewrite Hw, H.
    + intros H H'. revert Hb. rewrite Hw, H, H'.
      by intros [= <-].
    + intros h H Hh. revert Hb. unfold default_break_tolerance.
      rewrite H, Hh. cbn [rbind].
      destruct (Py.eq_lit (PFloat h) 0); by intros [= <-].
    + intros b H. revert Hb. unfold default_break_tolerance.
      rewrite H. cbn [rbind].
      destruct (Py.eq_lit b 0); by intros [= <-].
    + intros H. rewrite Hc, H.
      repeat split; intros ->; reflexivity.
    + intros Htime Hflux Hlen.
      apply (flatten_prefix R time flux kw s ta fa st Htime Hflux Hlen Hpro).
    + intros t tc fc g ls Hloop. split.
      * intros Hm.
        destruct (method_code_windowed _ Hm) as [code Hcode'].
        rewrite Hcode' in Hcode.
        destruct (segment_loop_windowed R kw st t tc fc code Hm Hcode
                    g _ ls Hloop) as (segs & Hall & Hflux).
        exists code, segs. split; [exact Hcode'|].
        split; [exact Hall | exact Hflux].
      * intros Hm.
        destruct (segment_loop_huber R kw st t tc fc Hm g _ ls Hloop)
          as (segs & Hall & Hflux).
        exists segs. split; [exact Hall | exact Hflux].
  - intros tc. unfold Example.spec_get_gaps_indexes.
    cbn [Py.to_float]. by rewrite gap_starts_inf.
Qed.

Lemma C5_witness :
  flatten Example.pointwise 0%nat 1%nat defaults example_store =
  flatten Example.pointwise 0%nat 1%nat
    (with_cval
       (with_break_tolerance (with_window_length defaults (Some (PInt 2)))
          (Some (PFloat (F.of_Z 1))))
       (Some (PInt 5)))
    example_store /\
  flatten Example.pointwise 0%nat 1%nat
    (with_break_tolerance defaults (Some (PInt 0))) example_store =
  flatten Example.pointwise 0%nat 1%nat
    (with_break_tolerance defaults (Some (PFloat F.inf))) example_store /\
  flatten Example.pointwise 0%nat 1%nat
    (with_window_length defaults (Some (PInt 6))) example_store =
  flatten Example.pointwise 0%nat 1%nat
    (with_break_tolerance (with_window_length defaults (Some (PInt 6)))
       (Some (PFloat (F.of_Z 3)))) example_store /\
  (exists st,
     prologue Example.pointwise defaults = Ok st /\
     s_window_length st = PInt 2 /\
     s_break_tolerance st = PFloat (F.of_Z 1) /\
     s_cval st = PInt 5) /\
  (exists st,
     prologue Example.pointwise
       (with_break_tolerance (with_method defaults "huber")
          (Some (PFloat (F.of_Z 0)))) = Ok st /\
     s_break_tolerance st = PFloat F.inf /\
     s_cval st = PFloat (F.dec 15 10)).
Proof.
  pose (ta := Example.sequence (map F.of_Z [0; 1; 2; 10; 11; 12])).
  pose (fa := Example.sequence
                [F.of_Z 1; F.of_Z 2; F.nan; F.of_Z 4; F.inf; F.of_Z 6]).
  split; [|split; [|split; [|split]]].
  - destruct (C5_defaults Example.pointwise 0%nat 1%nat defaults
                example_store ta fa) as (_ & _ & H & _).
    rewrite (H eq_refl eq_refl).
    destruct (C5_defaults Example.pointwise 0%nat 1%nat
                (with_break_tolerance
                   (with_window_length defaults (Some (PInt 2)))
                   (Some (PFloat (F.of_Z 1))))
                example_store ta fa) as (_ & _ & _ & H' & _).
    apply (H' (PInt 5) eq_refl). left. split; reflexivity.
  - destruct (C5_defaults Example.pointwise 0%nat 1%nat
                (with_break_tolerance defaults (Some (PInt 0)))
                example_store ta fa) as (_ & _ & _ & _ & H & _).
    destruct (H (PInt 0) eq_refl eq_refl) as [H' _]. exact H'.
  - destruct (C5_defaults Example.pointwise 0%nat 1%nat
                (with_window_length defaults (Some (PInt 6)))
                example_store ta fa) as (_ & H & _).
    apply (H (F.of_Z 3) eq_refl). vm_compute. reflexivity.
  - destruct (C5_defaults Example.pointwise 0%nat 1%nat defaults
                example_store ta fa) as (_ & _ & _ & _ & _ & H & _).
    eexists. split; [vm_compute; reflexivity|].
    match goal with
    | |- context [s_window_length ?st] =>
        destruct (H st ltac:(vm_compute; reflexivity))
          as (Hw & Hb & _ & _ & Hc & _)
    end.
    split; [exact (Hw eq_refl)|]. split; [exact (Hb eq_refl eq_refl)|].
    destruct (Hc eq_refl) as (H5 & _). exact (H5 eq_refl).
  - destruct (C5_defaults Example.pointwise 0%nat 1%nat
                (with_break_tolerance (with_method defaults "huber")
                   (Some (PFloat (F.of_Z 0))))
                example_store ta fa) as (_ & _ & _ & _ & _ & H & _).
    eexists. split; [vm_compute; reflexivity|].
    match goal with
    | |- context [s_break_tolerance ?st] =>
        destruct (H st ltac:(vm_compute; reflexivity))
          as (_ & _ & _ & Hb & Hc & _)
    end.
    split; [exact (Hb (PFloat (F.of_Z 0)) eq_refl)|].
    destruct (Hc eq_refl) as (_ & _ & _ & H15). exact (H15 eq_refl).
Defined.

(** ** The bass enhancement of the super-smoother (lines 131 to 135) *)

Lemma supersmoother_alpha_outside (c : num) :
  ~ within_0_10 c -> supersmoother_alpha "supersmoother" c = Some None.
Proof.
  intros H. unfold supersmoother_alpha, within_0_10 in *. simpl.
  destruct (Py.gt_lit c 0), (Py.lt_lit c 10); simpl; try reflexivity.
  exfalso. by apply H.
Qed.

Lemma prologue_supersmoother_alpha (R : Runtime) (kw : kwargs) (c : num)
    (st : settings) :
  method kw = "supersmoother" -> cval kw = Some c -> ~ within_0_10 c ->
  prologue R kw = Ok st ->
  s_supersmoother_alpha st = Some None.
Proof.
  intros Hm Hc Hout. unfold prologue, rbind. rewrite Hm, Hc.
  repeat case_match; try discriminate. intros [= <-]. cbn.
  by apply supersmoother_alpha_outside.
Qed.

(** With the bass enhancement at [None] the smoother may as well be built
    with [None] whatever it is asked for. *)
Lemma segment_trend_with_alpha (R : Runtime) (kw : kwargs) (st : settings)
    (t tc : list float) (ls : loop_state) (tv fv : list float) :
  s_supersmoother_alpha st = Some None ->
  segment_trend R kw st t tc ls tv fv =
  segment_trend (with_alpha None R) kw st t tc ls tv fv.
Proof.
  intros Halpha. unfold segment_trend.
  cbn [with_alpha running_segment running_segment_huber statsmodels_lowess
       detrend_huber_spline supersmoother detrend_cofiam savgol_filter
       medfilt make_gp untrendy_fit_trend pspline].
  destruct (supersmoother R); rewrite ?Halpha; reflexivity.
Qed.

(** The branch of [supersmoother] does not read [cval]. *)
Lemma segment_trend_supersmoother_cval (R : Runtime) (kw : kwargs)
    (st st' : settings) (c : option num)
    (t tc : list float) (ls : loop_state) (tv fv : list float) :
  method kw = "supersmoother" ->
  s_supersmoother_alpha st = s_supersmoother_alpha st' ->
  segment_trend R kw st t tc ls tv fv =
  segment_trend R (with_cval kw c) st' t tc ls tv fv.
Proof.
  intros Hm Halpha. unfold segment_trend.
  cbn [with_cval method edge_cutoff kernel kernel_size kernel_period].
  rewrite Hm, Halpha. reflexivity.
Qed.

(** C10. For [method = "supersmoother"] a supplied [cval] that is not
    strictly between 0 and 10 raises nothing and sets the bass enhancement
    to [None]: [supersmoother_alpha] is bound to [None]; the call is the
    call in which the smoother is built with [alpha = None]; and it is the
    call without any [cval]. *)
Theorem C10_supersmoother_cval_out_of_range
    (R : Runtime) (time flux : loc) (kw : kwargs) (s : store) (c : num) :
  method kw = "supersmoother" ->
  cval kw = Some c ->
  ~ within_0_10 c ->
  supersmoother_alpha (method kw)
    (default_cval (method kw) (cval kw) (proportiontocut kw)) = Some None /\
  (forall st, prologue R kw = Ok st -> s_supersmoother_alpha st = Some None) /\
  flatten R time flux kw s = flatten (with_alpha None R) time flux kw s /\
  flatten R time flux kw s = flatten R time flux (with_cval kw None) s.
Proof.
  intros Hm Hc Hout. split; [|split; [|split]].
  - rewrite Hm, Hc. by apply supersmoother_alpha_outside.
  - intros st. by apply (prologue_supersmoother_alpha R kw c).
  - apply flatten_ext; [done| |done].
    intros st Hpro. exists st. split; [exact Hpro|].
    split; [done|]. split; [done|].
    intros. apply segment_trend_with_alpha.
    by apply (prologue_supersmoother_alpha R kw c).
  - apply flatten_ext; [| |done].
    + intros e. unfold prologue, rbind.
      cbn [with_cval method proportiontocut window_length break_tolerance
           cval].
      repeat case_match; try discriminate; done.
    + intros st Hpro.
      pose proof (prologue_supersmoother_alpha R kw c st Hm Hc Hout Hpro)
        as Halpha.
      revert Hpro. unfold prologue, rbind.
      cbn [with_cval method proportiontocut window_length break_tolerance
           cval].
      repeat case_match; try discriminate. intros [= <-].
      eexists. split; [reflexivity|]. cbn [s_window_length s_break_tolerance].
      split; [done|]. split; [done|].
      intros. apply segment_trend_supersmoother_cval; [done|].
      cbn [s_supersmoother_alpha] in *. rewrite Halpha, Hm. reflexivity.
Qed.

Lemma C10_witness :
  flatten Example.pointwise 0%nat 1%nat
    (with_cval (with_method defaults "supersmoother") (Some (PInt 12)))
    example_store =
  flatten Example.pointwise 0%nat 1%nat
    (with_method defaults "supersmoother") example_store /\
  supersmoother_alpha "supersmoother" (PInt 12) = Some None.
Proof.
  destruct (C10_supersmoother_cval_out_of_range Example.pointwise
              0%nat 1%nat
              (with_cval (with_method defaults "supersmoother")
                 (Some (PInt 12)))
              example_store (PInt 12) eq_refl eq_refl)
    as (Halpha & _ & _ & Hsame).
  - intros [_ H]. vm_compute in H. discriminate.
  - split; [exact Hsame | exact Halpha].
Defined.

(** ** The contracts at work *)

Lemma prologue_method_code (R : Runtime) (kw : kwargs) (st : settings) :
  prologue R kw = Ok st -> s_method_code st = method_code (method kw).
Proof.
  unfold prologue, rbind. repeat case_match; try discriminate.
  by intros [= <-].
Qed.

(** For the eight windowed location estimators the contract of
    [running_segment] is all the loop needs. *)
Lemma same_length_trend_windowed (R : Runtime) (kw : kwargs) (st : settings)
    (t tc : list float) :
  prologue R kw = Ok st ->
  Py.str_in (method kw) methods = true ->
  (forall tv fv w e c k,
     exists seg,
       running_segment R tv fv w e c k = Ok seg /\ length seg = length fv) ->
  same_length_trend R kw st t tc.
Proof.
  intros Hpro Hm Hrun ls tv fv. unfold segment_trend. cbv zeta.
  rewrite Hm, (prologue_method_code R kw st Hpro).
  destruct (method_code_windowed _ Hm) as [k ->].
  destruct (Hrun tv fv (ls_window_length ls) (edge_cutoff kw) (s_cval st) k)
    as (seg & -> & Hlen).
  eexists. split; [reflexivity|]. exact Hlen.
Qed.

Lemma chain_weaken (lo lo' : Z) (l : list Z) (n : Z) :
  lo' <= lo -> l <> [] -> chain lo l n -> chain lo' l n.
Proof.
  intros Hle Hne. destruct l as [|hi l]; [done|].
  simpl. intros [H1 H2]. split; [lia | done].
Qed.

(** The segmenter modelled from the specification keeps its contract. *)
Lemma spec_gap_starts_chain (tol : float) (time : list float) :
  forall i : Z,
    chain i (Example.gap_starts i time tol ++ [i + Z.of_nat (length time)])
      (i + Z.of_nat (length time)).
Proof.
  induction time as [|x time IH]; intros i.
  - simpl. lia.
  - destruct time as [|y time].
    + simpl. lia.
    + specialize (IH (i + 1)).
      replace (i + 1 + Z.of_nat (length (y :: time)))
        with (i + Z.of_nat (length (x :: y :: time))) in IH
        by (simpl length; lia).
      change (Example.gap_starts i (x :: y :: time) tol)
        with (if F.gtb (F.to_float64 (F.sub32 y x)) tol
              then (i + 1) :: Example.gap_starts (i + 1) (y :: time) tol
              else Example.gap_starts (i + 1) (y :: time) tol).
      destruct (F.gtb _ tol).
      * simpl. split; [lia|]. exact IH.
      * apply (chain_weaken (i + 1)); [lia | | exact IH].
        by destruct (Example.gap_starts (i + 1) (y :: time) tol).
Qed.

Lemma spec_get_gaps_indexes_boundaries
    (time : list float) (b : num) (g : list Z) :
  Example.spec_get_gaps_indexes time b = Ok g ->
  boundaries g (length time).
Proof.
  unfold Example.spec_get_gaps_indexes. intros [= <-].
  split; [reflexivity|].
  apply (spec_gap_starts_chain (Py.to_float b) time 0).
Qed.

(** The example runtime returns for every series and every windowed
    method: a check that the contracts of the statements above are ones a
    runtime can keep. *)
Lemma pointwise_returns (time flux : loc) (kw : kwargs) (s : store)
    (ta fa : ndarray) (st : settings) :
  s !! time = Some ta -> s !! flux = Some fa ->
  length (data ta) = length (data fa) ->
  prologue Example.pointwise kw = Ok st ->
  Py.str_in (method kw) methods = true ->
  exists trend_flux,
    flatten Example.pointwise time flux kw s =
    (Ok (returned_at (length s) kw),
     s ++ copies ta fa ++
       [trend_array ta fa trend_flux; flattened_array ta fa trend_flux]).
Proof.
  intros Htime Hflux Hlen Hpro Hm.
  destruct (flatten_total Example.pointwise time flux kw s ta fa st
              (0 :: Example.gap_starts 0 (time_compressed ta fa)
                      (Py.to_float (s_break_tolerance st))
                 ++ [Z.of_nat (length (time_compressed ta fa))])
              Htime Hflux Hlen Hpro eq_refl)
    as (trend_flux & _ & Hrun).
  - by apply (spec_get_gaps_indexes_boundaries _ (s_break_tolerance st)).
  - apply same_length_trend_windowed; [done | done |].
    intros. eexists. split; reflexivity.
  - by exists trend_flux.
Qed.

(** Line 206 takes [max(time) - min(time)] over the uncompressed series.
    The two series below have the same mask and the same compressed
    samples; at the masked index one has time NaN, the other time 5. The
    smoother is handed the span NaN for the first and 4 for the second. *)
Lemma supersmoother_span_reads_masked_time :
  let kw := with_method (with_return_trend defaults true) "supersmoother" in
  let s1 := [Example.sequence [F.nan; F.of_Z 1; F.of_Z 2];
             Example.sequence [F.of_Z 1; F.of_Z 1; F.of_Z 1]] in
  let s2 := [Example.sequence [F.of_Z 5; F.of_Z 1; F.of_Z 2];
             Example.sequence [F.nan; F.of_Z 1; F.of_Z 1]] in
  outcome (flatten Example.span_reporting 0%nat 1%nat kw s1) =
    Ok (Some ([F.nan; F.nan; F.nan], Some [F.nan; F.nan; F.nan])) /\
  outcome (flatten Example.span_reporting 0%nat 1%nat kw s2) =
    Ok (Some ([F.nan; F.dec 1 4; F.dec 1 4],
              Some [F.nan; F.to_float32 (F.of_Z 4); F.to_float32 (F.of_Z 4)])).
Proof. vm_compute. split; reflexivity. Qed.

(** * Further properties of [flatten] *)

(** ** Which samples line 152 masks *)

(** The mask of line 152, sample by sample: an index is masked exactly when
    the time or the flux is NaN or, after the conversion to float32, a zero
    meets an infinity. A sample whose float32 time and flux are both
    finite is never masked, whatever their product overflows to. *)
Theorem mask_exactly (ta fa : ndarray) (i : nat) (x y : float) :
  data ta !! i = Some x ->
  data fa !! i = Some y ->
  nan_mask ta fa !! i =
    Some (F.isnan x || F.isnan y ||
          zero_times_inf (F.to_float32 x) (F.to_float32 y)) /\
  (F.isfinite (F.to_float32 x) = true ->
   F.isfinite (F.to_float32 y) = true ->
   nan_mask ta fa !! i = Some false).
Proof.
  intros Hx Hy.
  assert (H : nan_mask ta fa !! i =
              Some (F.isnan x || F.isnan y ||
                    zero_times_inf (F.to_float32 x) (F.to_float32 y))).
  { unfold nan_mask, time32, flux32.
    rewrite lookup_zip_with, !list_lookup_fmap, Hx, Hy. simpl.
    by rewrite isnan_mul32, !isnan_to_float32. }
  split; [exact H|].
  intros Hfx Hfy. rewrite H.
  rewrite <- (isnan_to_float32 x), <- (isnan_to_float32 y).
  by destruct (F.to_float32 x), (F.to_float32 y).
Qed.

Lemma mask_exactly_witness :
  nan_mask (Example.sequence (map F.of_Z [0; 1; 2; 10; 11; 12]))
    (Example.sequence
       [F.of_Z 1; F.of_Z 2; F.nan; F.of_Z 4; F.inf; F.of_Z 6]) !! 4%nat =
    Some false /\
  nan_mask (Example.sequence (map F.of_Z [0; 1; 2; 10; 11; 12]))
    (Example.sequence
       [F.of_Z 1; F.of_Z 2; F.nan; F.of_Z 4; F.inf; F.of_Z 6]) !! 1%nat =
    Some false.
Proof.
  split.
  - destruct (mask_exactly
                (Example.sequence (map F.of_Z [0; 1; 2; 10; 11; 12]))
                (Example.sequence
                   [F.of_Z 1; F.of_Z 2; F.nan; F.of_Z 4; F.inf; F.of_Z 6])
                4%nat (F.of_Z 11) F.inf eq_refl eq_refl) as [H _].
    exact H.
  - destruct (mask_exactly
                (Example.sequence (map F.of_Z [0; 1; 2; 10; 11; 12]))
                (Example.sequence
                   [F.of_Z 1; F.of_Z 2; F.nan; F.of_Z 4; F.inf; F.of_Z 6])
                1%nat (F.of_Z 1) (F.of_Z 2) eq_refl eq_refl) as [_ H].
    apply H; vm_compute; reflexivity.
Defined.

(** ** Where the trend values land (lines 250 to 256) *)

Lemma expand_unmasked (mask : list bool) :
  forall (vals : list float) (i0 k j : nat) (v : float),
    Np.where_not_from i0 mask !! k = Some j ->
    vals !! k = Some v ->
    (i0 <= j)%nat /\ expand mask vals !! (j - i0)%nat = Some v.
Proof.
  induction mask as [|b mask IH]; intros vals i0 k j v Hk Hv;
    [discriminate|].
  destruct b; simpl in Hk.
  - destruct (IH vals (S i0) k j v Hk Hv) as [Hle Hexp].
    split; [lia|].
    replace (j - i0)%nat with (S (j - S i0)) by lia. exact Hexp.
  - destruct vals as [|v0 vals]; [discriminate|].
    destruct k as [|k]; simpl in Hk, Hv.
    + injection Hk as <-. injection Hv as <-.
      split; [lia|]. by rewrite Nat.sub_diag.
    + destruct (IH vals (S i0) k j v Hk Hv) as [Hle Hexp].
      split; [lia|].
      replace (j - i0)%nat with (S (j - S i0)) by lia. exact Hexp.
Qed.

(** Compressing the assembled trend by the mask gives the trend values
    back. *)
Lemma compress_expand (mask : list bool) :
  forall vals : list float,
    (length (Np.where_not mask) <= length vals)%nat ->
    Np.compress (expand mask vals) mask =
    take (length (Np.where_not mask)) vals.
Proof.
  unfold Np.where_not.
  induction mask as [|b mask IH]; intros vals Hlen; [reflexivity|].
  destruct b; simpl in *.
  - rewrite (length_where_not_from 1 0) in *. by apply IH.
  - rewrite (length_where_not_from 1 0) in *.
    destruct vals as [|v vals]; simpl in *; [lia|].
    f_equal. apply IH. lia.
Qed.

(** Lines 250 to 256 put the trend values at the unmasked indices, in
    order, and divide the float32 flux by them there: the [k]-th unmasked
    index holds the [k]-th trend value, and compressing the returned trend
    by the mask gives back the values the segments delivered, one for
    every unmasked sample. *)
Theorem trend_values_land_in_order
    (R : Runtime) (time flux : loc) (kw : kwargs) (s : store)
    (ta fa : ndarray) (st : settings) (gaps_indexes : list Z)
    (ls : loop_state) :
  s !! time = Some ta ->
  s !! flux = Some fa ->
  length (data ta) = length (data fa) ->
  prologue R kw = Ok st ->
  get_gaps_indexes R (time_compressed ta fa) (s_break_tolerance st) =
    Ok gaps_indexes ->
  segment_loop R kw st (time32 ta) (time_compressed ta fa)
    (flux_compressed ta fa) gaps_indexes (initial_loop_state st) = Ok ls ->
  (unmasked ta fa <= length (ls_trend_flux ls))%nat ->
  exists trend flat,
    flatten R time flux kw s =
      (Ok (returned_at (length s) kw),
       s ++ copies ta fa ++ [trend; flat]) /\
    Np.compress (data trend) (nan_mask ta fa) =
      take (unmasked ta fa) (ls_trend_flux ls) /\
    forall k j v x,
      Np.where_not (nan_mask ta fa) !! k = Some j ->
      ls_trend_flux ls !! k = Some v ->
      map F.to_float32 (data fa) !! j = Some x ->
      data trend !! j = Some v /\
      data flat !! j = Some (F.div64 x v).
Proof.
  intros Htime Hflux Hlen Hpro Hgaps Hloop Henough.
  exists (trend_array ta fa (ls_trend_flux ls)),
         (flattened_array ta fa (ls_trend_flux ls)).
  split.
  { by apply (flatten_enough R time flux kw s ta fa st
                Htime Hflux Hlen Hpro gaps_indexes ls Hgaps Hloop). }
  split.
  { unfold trend_array. cbn [data]. by apply compress_expand. }
  intros k j v x Hk Hv Hx. unfold Np.where_not in Hk.
  destruct (expand_unmasked _ _ 0%nat k j v Hk Hv) as [_ Hexp].
  rewrite Nat.sub_0_r in Hexp.
  unfold trend_array, flattened_array, flux32. cbn [data].
  split; [exact Hexp|].
  by rewrite lookup_zip_with, Hx, Hexp.
Qed.

Lemma trend_values_land_in_order_witness :
  exists trend flat,
    flatten Example.pointwise 0%nat 1%nat defaults example_store =
      (Ok (Flattened 7%nat),
       example_store ++
         copies (Example.sequence (map F.of_Z [0; 1; 2; 10; 11; 12]))
                (Example.sequence
                   [F.of_Z 1; F.of_Z 2; F.nan; F.of_Z 4; F.inf; F.of_Z 6])
         ++ [trend; flat]) /\
    data trend !! 3%nat = Some (F.to_float32 (F.of_Z 4)).
Proof.
  destruct (trend_values_land_in_order Example.pointwise 0%nat 1%nat
              defaults example_store
              (Example.sequence (map F.of_Z [0; 1; 2; 10; 11; 12]))
              (Example.sequence
                 [F.of_Z 1; F.of_Z 2; F.nan; F.of_Z 4; F.inf; F.of_Z 6])
              {| s_method_code := Some 1;
                 s_cval := PInt 5;
                 s_supersmoother_alpha := None;
                 s_window_length := PInt 2;
                 s_break_tolerance := PFloat (F.of_Z 1) |}
              [0; 2; 5]
              {| ls_window_length := PInt 2;
                 ls_trend_segment :=
                   map F.to_float32 [F.of_Z 4; F.inf; F.of_Z 6];
                 ls_trend_flux :=
                   map F.to_float32
                     [F.of_Z 1; F.of_Z 2; F.of_Z 4; F.inf; F.of_Z 6] |}
              eq_refl eq_refl eq_refl)
    as (trend & flat & Hrun & _ & Hat).
  - vm_compute. reflexivity.
  - vm_compute. reflexivity.
  - vm_compute. reflexivity.
  - vm_compute. lia.
  - exists trend, flat. split; [exact Hrun|].
    apply (Hat 2%nat 3%nat (F.to_float32 (F.of_Z 4)) (F.to_float32 (F.of_Z 4)));
      vm_compute; reflexivity.
Defined.

(** ** The views of the segment loop (lines 162 to 164) *)

Lemma slice_take_drop {A} (l : list A) (lo hi : Z) :
  0 <= lo -> lo <= hi ->
  Py.slice lo hi l =
  take (Z.to_nat (Z.min hi (Z.of_nat (length l)) -
                  Z.min lo (Z.of_nat (length l))))
       (drop (Z.to_nat (Z.min lo (Z.of_nat (length l)))) l).
Proof.
  intros Hlo Hhi. unfold Py.slice, Py.clamp.
  destruct (lo <? 0) eqn:E1; [apply Z.ltb_lt in E1; lia|].
  destruct (hi <? 0) eqn:E2; [apply Z.ltb_lt in E2; lia|].
  reflexivity.
Qed.

Lemma concat_views_chain {A} (l : list A) :
  forall (rest : list Z) (lo : Z),
    0 <= lo ->
    chain lo rest (Z.of_nat (length l)) ->
    concat (views (lo :: rest) l) =
    drop (Z.to_nat (Z.min lo (Z.of_nat (length l)))) l.
Proof.
  induction rest as [|hi rest IH]; intros lo Hlo Hchain.
  - simpl in *. rewrite drop_ge; [done | lia].
  - destruct Hchain as [Hhi Hchain].
    rewrite views_cons, concat_cons.
    rewrite (IH hi ltac:(lia) Hchain).
    rewrite (slice_take_drop l lo hi Hlo Hhi).
    set (a := Z.to_nat (Z.min lo (Z.of_nat (length l)))).
    replace (Z.to_nat (Z.min hi (Z.of_nat (length l))))
      with (a + Z.to_nat (Z.min hi (Z.of_nat (length l)) -
                          Z.min lo (Z.of_nat (length l))))%nat
      by (unfold a; lia).
    rewrite <- drop_drop. apply take_drop.
Qed.

(** The views partition the series. When the boundaries start at 0, never
    decrease and end at the length of the series or beyond (the bounds of
    a slice are clamped), the views of lines 163 and 164, put end to end,
    are the series: every unmasked sample is handed to the estimator
    once, in order, and none is left out. *)
Theorem views_partition {A} (gaps_indexes : list Z) (l : list A) :
  boundaries gaps_indexes (length l) ->
  concat (views gaps_indexes l) = l.
Proof.
  destruct gaps_indexes as [|lo rest]; simpl boundaries.
  - intros H. by destruct l.
  - intros [-> Hchain].
    rewrite (concat_views_chain l rest 0 ltac:(lia) Hchain).
    replace (Z.to_nat (Z.min 0 (Z.of_nat (length l)))) with 0%nat by lia.
    reflexivity.
Qed.

Lemma views_partition_witness :
  concat (views [0; 2; 6] (map F.of_Z [0; 1; 10; 11; 12])) =
  map F.of_Z [0; 1; 10; 11; 12].
Proof.
  apply (views_partition [0; 2; 6] (map F.of_Z [0; 1; 10; 11; 12])).
  vm_compute. repeat split; discriminate.
Defined.

(** For the eight windowed location estimators the trend is the
    concatenation, in the order of the segments, of the answers of
    [running_segment] to the views of the compressed time and flux, every
    view asked with the same window length, edge cutoff, [cval] and method
    code. *)
Theorem windowed_trend_is_concatenation
    (R : Runtime) (kw : kwargs) (st : settings)
    (t tc fc : list float) (gaps_indexes : list Z) (ls : loop_state) :
  prologue R kw = Ok st ->
  Py.str_in (method kw) methods = true ->
  segment_loop R kw st t tc fc gaps_indexes (initial_loop_state st) = Ok ls ->
  exists code segs,
    method_code (method kw) = Some code /\
    Forall2
      (fun view seg =>
         running_segment R view.1 view.2
           (default_window_length (window_length kw))
           (edge_cutoff kw)
           (default_cval (method kw) (cval kw) (proportiontocut kw))
           code = Ok seg)
      (zip (views gaps_indexes tc) (views gaps_indexes fc)) segs /\
    ls_trend_flux ls = concat segs.
Proof.
  intros Hpro Hm Hloop.
  destruct (method_code_windowed _ Hm) as [code Hcode].
  assert (Hst : s_method_code st = Some code /\
                s_window_length st = default_window_length (window_length kw)
                /\ s_cval st =
                   default_cval (method kw) (cval kw) (proportiontocut kw)).
  { revert Hpro. unfold prologue, rbind.
    repeat case_match; try discriminate. intros [= <-]. by cbn. }
  destruct Hst as (Hc & Hw & Hcv).
  destruct (segment_loop_windowed R kw st t tc fc code Hm Hc
              gaps_indexes _ ls Hloop) as (segs & Hall & Hflux).
  exists code, segs. split; [exact Hcode|].
  cbn [initial_loop_state ls_window_length ls_trend_flux] in *.
  rewrite Hw, Hcv in Hall. split; [exact Hall | exact Hflux].
Qed.

Lemma windowed_trend_is_concatenation_witness :
  exists code segs,
    method_code "biweight" = Some code /\
    Forall2
      (fun view seg =>
         running_segment Example.overlong view.1 view.2
           (PInt 2) (PInt 0) (PInt 5) code = Ok seg)
      (zip (views [0; 2] (map F.of_Z [0; 1]))
           (views [0; 2] (map F.of_Z [3; 4]))) segs /\
    [F.of_Z 3; F.of_Z 4; F.of_Z 7] = concat segs.
Proof.
  apply (windowed_trend_is_concatenation Example.overlong defaults
           {| s_method_code := Some 1;
              s_cval := PInt 5;
              s_supersmoother_alpha := None;
              s_window_length := PInt 2;
              s_break_tolerance := PFloat (F.of_Z 1) |}
           [] (map F.of_Z [0; 1]) (map F.of_Z [3; 4]) [0; 2]
           {| ls_window_length := PInt 2;
              ls_trend_segment := [F.of_Z 3; F.of_Z 4; F.of_Z 7];
              ls_trend_flux := [F.of_Z 3; F.of_Z 4; F.of_Z 7] |}).
  - vm_compute. reflexivity.
  - reflexivity.
  - vm_compute. reflexivity.
Defined.

(** ** Which argument reaches which estimator *)

Lemma str_in_cons (x y : string) (ys : list string) :
  Py.str_in x (y :: ys) = (x =? y)%string || Py.str_in x ys.
Proof. reflexivity. Qed.

(** [proportiontocut] is checked for every method but read by two: when a
    [cval] is given, or the method is neither [trim_mean] nor [winsorize],
    any two values that pass the check give the same call. With a [cval]
    the cut fraction of [trim_mean] and [winsorize] is that [cval], which
    no line checks against the interval. *)
Theorem proportiontocut_only_checked
    (R : Runtime) (time flux : loc) (kw : kwargs) (s : store) (p : num) :
  check_proportiontocut (proportiontocut kw) = Ok tt ->
  check_proportiontocut p = Ok tt ->
  is_Some (cval kw) \/
    Py.str_in (method kw) ["trim_mean"; "winsorize"] = false ->
  flatten R time flux kw s =
  flatten R time flux (with_proportiontocut kw p) s.
Proof.
  intros Hp Hp' Hcase. apply flatten_agree; try reflexivity.
  unfold prologue.
  cbn [with_proportiontocut method proportiontocut cval window_length
       break_tolerance].
  rewrite Hp, Hp'. cbn [rbind].
  replace (default_cval (method kw) (cval kw) p)
    with (default_cval (method kw) (cval kw) (proportiontocut kw));
    [reflexivity|].
  unfold default_cval. destruct Hcase as [[c ->]|Hm]; [reflexivity|].
  destruct (cval kw); [reflexivity|]. by rewrite Hm.
Qed.

Lemma proportiontocut_only_checked_witness :
  flatten Example.pointwise 0%nat 1%nat
    (with_cval (with_method defaults "trim_mean") (Some (PFloat (F.dec 9 10))))
    example_store =
  flatten Example.pointwise 0%nat 1%nat
    (with_proportiontocut
       (with_cval (with_method defaults "trim_mean")
          (Some (PFloat (F.dec 9 10))))
       (PFloat (F.dec 4 10)))
    example_store.
Proof.
  apply (proportiontocut_only_checked Example.pointwise 0%nat 1%nat
           (with_cval (with_method defaults "trim_mean")
              (Some (PFloat (F.dec 9 10))))
           example_store (PFloat (F.dec 4 10))).
  - vm_compute. reflexivity.
  - vm_compute. reflexivity.
  - left. eexists. reflexivity.
Defined.

(** The defaults of [cval] the docstring does not list (lines 124 to 127):
    for [trim_mean] and [winsorize] an omitted [cval] is
    [proportiontocut], for [savgol] it is the polynomial order 2. *)
Theorem cval_defaults_of_trim_and_savgol
    (R : Runtime) (time flux : loc) (kw : kwargs) (s : store) (c : num) :
  cval kw = None ->
  (Py.str_in (method kw) ["trim_mean"; "winsorize"] = true /\
   c = proportiontocut kw) \/
  (method kw = "savgol" /\ c = PInt 2) ->
  flatten R time flux kw s = flatten R time flux (with_cval kw (Some c)) s.
Proof.
  intros Hc Hcase. apply flatten_agree; try reflexivity.
  apply prologue_cval; [exact Hc|].
  destruct Hcase as [[Hm ->]|[-> ->]]; [|reflexivity].
  rewrite !str_in_cons in Hm. unfold default_cval.
  destruct (method kw =? "trim_mean")%string eqn:E1.
  { apply String.eqb_eq in E1. by rewrite E1. }
  destruct (method kw =? "winsorize")%string eqn:E2; [|discriminate].
  apply String.eqb_eq in E2. by rewrite E2.
Qed.

Lemma cval_defaults_of_trim_and_savgol_witness :
  flatten Example.pointwise 0%nat 1%nat
    (with_method defaults "winsorize") example_store =
  flatten Example.pointwise 0%nat 1%nat
    (with_cval (with_method defaults "winsorize") (Some (PFloat (F.dec 1 10))))
    example_store /\
  flatten Example.pointwise 0%nat 1%nat
    (with_method defaults "savgol") example_store =
  flatten Example.pointwise 0%nat 1%nat
    (with_cval (with_method defaults "savgol") (Some (PInt 2)))
    example_store.
Proof.
  split.
  - apply (cval_defaults_of_trim_and_savgol Example.pointwise 0%nat 1%nat
             (with_method defaults "winsorize") example_store
             (PFloat (F.dec 1 10)) eq_refl).
    left. split; reflexivity.
  - apply (cval_defaults_of_trim_and_savgol Example.pointwise 0%nat 1%nat
             (with_method defaults "savgol") example_store (PInt 2) eq_refl).
    right. split; reflexivity.
Defined.

Lemma prologue_with_cval (R : Runtime) (kw : kwargs) (c : option num) :
  (forall e, prologue R kw = Raise e ->
             prologue R (with_cval kw c) = Raise e) /\
  (forall st,
     prologue R kw = Ok st ->
     prologue R (with_cval kw c) =
       Ok {| s_method_code := s_method_code st;
             s_cval := default_cval (method kw) c (proportiontocut kw);
             s_supersmoother_alpha :=
               supersmoother_alpha (method kw)
                 (default_cval (method kw) c (proportiontocut kw));
             s_window_length := s_window_length st;
             s_break_tolerance := s_break_tolerance st |}).
Proof.
  unfold prologue, rbind.
  cbn [with_cval method proportiontocut window_length break_tolerance cval].
  split.
  - intros e. repeat case_match; try discriminate; done.
  - intros st. repeat case_match; try discriminate.
    by intros [= <-].
Qed.

Lemma str_in_methods_without_cval (m : string) :
  Py.str_in m methods_without_cval = true ->
  m = "lowess" \/ m = "hspline" \/ m = "cofiam" \/ m = "medfilt" \/
  m = "gp" \/ m = "untrendy" \/ m = "pspline".
Proof.
  unfold methods_without_cval. rewrite !str_in_cons.
  repeat match goal with
         | |- context [String.eqb m ?x] =>
             let E := fresh "E" in
             destruct (String.eqb m x) eqn:E;
             [apply String.eqb_eq in E; subst; tauto | clear E]
         end.
  simpl. discriminate.
Qed.

(** [cval] reaches the windowed sliders, [huber], [supersmoother] and
    [savgol] only. For [lowess] (for which the docstring names a default
    of 5), [hspline], [cofiam], [medfilt], [gp], [untrendy] and [pspline]
    the call is the same whatever [cval] is. *)
Theorem cval_ignored_by_the_other_methods
    (R : Runtime) (time flux : loc) (kw : kwargs) (s : store)
    (c : option num) :
  Py.str_in (method kw) methods_without_cval = true ->
  flatten R time flux kw s = flatten R time flux (with_cval kw c) s.
Proof.
  intros Hm. destruct (prologue_with_cval R kw c) as [Hraise Hok].
  apply flatten_ext; [exact Hraise| |reflexivity].
  intros st Hpro. eexists. split; [by apply Hok|].
  cbn [s_window_length s_break_tolerance].
  split; [done|]. split; [done|].
  intros t tc ls tv fv. unfold segment_trend.
  cbn [with_cval method edge_cutoff kernel kernel_size kernel_period
       s_method_code s_cval s_supersmoother_alpha].
  destruct (str_in_methods_without_cval _ Hm)
    as [->|[->|[->|[->|[->|[->| ->]]]]]]; reflexivity.
Qed.

Lemma cval_ignored_by_the_other_methods_witness :
  flatten Example.pointwise 0%nat 1%nat
    (with_method defaults "lowess") example_store =
  flatten Example.pointwise 0%nat 1%nat
    (with_cval (with_method defaults "lowess") (Some (PInt 5)))
    example_store.
Proof.
  apply (cval_ignored_by_the_other_methods Example.pointwise 0%nat 1%nat
           (with_method defaults "lowess") example_store (Some (PInt 5))).
  reflexivity.
Defined.

(** For [savgol], [cval] acts through [int(cval)] alone (line 223): a
    float [cval] is the polynomial order it truncates to. *)
Theorem savgol_cval_is_truncated
    (R : Runtime) (time flux : loc) (kw : kwargs) (s : store)
    (c : num) (z : Z) :
  method kw = "savgol" ->
  cval kw = Some c ->
  Py.int c = Ok z ->
  flatten R time flux kw s =
  flatten R time flux (with_cval kw (Some (PInt z))) s.
Proof.
  intros Hm Hc Hz.
  destruct (prologue_with_cval R kw (Some (PInt z))) as [Hraise Hok].
  apply flatten_ext; [exact Hraise| |reflexivity].
  intros st Hpro. eexists. split; [by apply Hok|].
  cbn [s_window_length s_break_tolerance].
  split; [done|]. split; [done|].
  assert (Hcv : s_cval st = c).
  { revert Hpro. unfold prologue, rbind. rewrite Hc.
    repeat case_match; try discriminate. by intros [= <-]. }
  intros t tc ls tv fv. unfold segment_trend.
  cbn [with_cval method edge_cutoff kernel kernel_size kernel_period
       s_method_code s_cval s_supersmoother_alpha default_cval].
  rewrite Hm, Hcv. cbn. rewrite Hz. reflexivity.
Qed.

Lemma savgol_cval_is_truncated_witness :
  flatten Example.pointwise 0%nat 1%nat
    (with_cval (with_method defaults "savgol") (Some (PFloat (F.dec 29 10))))
    example_store =
  flatten Example.pointwise 0%nat 1%nat
    (with_cval (with_method defaults "savgol") (Some (PInt 2)))
    example_store.
Proof.
  apply (savgol_cval_is_truncated Example.pointwise 0%nat 1%nat
           (with_cval (with_method defaults "savgol")
              (Some (PFloat (F.dec 29 10))))
           example_store (PFloat (F.dec 29 10)) 2 eq_refl eq_refl).
  vm_compute. reflexivity.
Defined.

(** [edge_cutoff] reaches the windowed sliders and [huber] only (lines 172
    and 180): for every other method the call is the same whatever
    [edge_cutoff] is. *)
Theorem edge_cutoff_only_for_sliders
    (R : Runtime) (time flux : loc) (kw : kwargs) (s : store) (e : num) :
  Py.str_in (method kw) methods = false ->
  method kw <> "huber" ->
  flatten R time flux kw s = flatten R time flux (with_edge_cutoff kw e) s.
Proof.
  intros Hm Hh. apply flatten_ext; [done| |reflexivity].
  intros st Hpro. exists st. split; [exact Hpro|].
  split; [done|]. split; [done|].
  intros t tc ls tv fv. unfold segment_trend.
  cbn [with_edge_cutoff method edge_cutoff kernel kernel_size kernel_period].
  rewrite Hm.
  destruct (method kw =? "huber")%string eqn:E;
    [apply String.eqb_eq in E; contradiction | reflexivity].
Qed.

Lemma edge_cutoff_only_for_sliders_witness :
  flatten Example.pointwise 0%nat 1%nat
    (with_method defaults "medfilt") example_store =
  flatten Example.pointwise 0%nat 1%nat
    (with_edge_cutoff (with_method defaults "medfilt") (PInt 1))
    example_store.
Proof.
  apply (edge_cutoff_only_for_sliders Example.pointwise 0%nat 1%nat
           (with_method defaults "medfilt") example_store (PInt 1)).
  - reflexivity.
  - discriminate.
Defined.

(** ** Errors and edges of the segment loop *)

(** An exception of the segmenter or of the segment loop leaves [flatten]
    as it is, after the four copies of lines 150 to 154 and before the
    trend array of line 251 is allocated: nothing catches it, nothing is
    returned in its place. *)
Theorem collaborator_exception_propagates
    (R : Runtime) (time flux : loc) (kw : kwargs) (s : store)
    (ta fa : ndarray) (st : settings) (e : exn) :
  s !! time = Some ta ->
  s !! flux = Some fa ->
  length (data ta) = length (data fa) ->
  prologue R kw = Ok st ->
  get_gaps_indexes R (time_compressed ta fa) (s_break_tolerance st) =
    Raise e \/
  (exists gaps_indexes,
     get_gaps_indexes R (time_compressed ta fa) (s_break_tolerance st) =
       Ok gaps_indexes /\
     segment_loop R kw st (time32 ta) (time_compressed ta fa)
       (flux_compressed ta fa) gaps_indexes (initial_loop_state st) =
       Raise e) ->
  flatten R time flux kw s = (Raise e, s ++ copies ta fa).
Proof.
  intros Htime Hflux Hlen Hpro Hcase.
  by apply (flatten_collaborator_raise R time flux kw s ta fa st).
Qed.

(** [lowess] needs an unmasked sample and [supersmoother] a sample: line
    188 takes [numpy.max] of the compressed time series and line 206 the
    builtin [max] of the whole series, and neither has a maximum of an
    empty series. With the package installed and a segment to work on, a
    call of [lowess] on a series whose samples are all masked, and a call
    of [supersmoother] on an empty series, end in ValueError. *)
Theorem lowess_and_supersmoother_need_a_sample
    (R : Runtime) (time flux : loc) (kw : kwargs) (s : store)
    (ta fa : ndarray) (st : settings) (lo hi : Z) (rest : list Z) :
  s !! time = Some ta ->
  s !! flux = Some fa ->
  length (data ta) = length (data fa) ->
  prologue R kw = Ok st ->
  get_gaps_indexes R (time_compressed ta fa) (s_break_tolerance st) =
    Ok (lo :: hi :: rest) ->
  (method kw = "lowess" -> is_Some (statsmodels_lowess R) ->
   time_compressed ta fa = [] ->
   flatten R time flux kw s =
     (Raise (ValueError
        "zero-size array to reduction operation maximum which has no identity"),
      s ++ copies ta fa)) /\
  (method kw = "supersmoother" -> is_Some (supersmoother R) ->
   data ta = [] ->
   flatten R time flux kw s =
     (Raise (ValueError "max() arg is an empty sequence"),
      s ++ copies ta fa)).
Proof.
  intros Htime Hflux Hlen Hpro Hgaps. split.
  - intros Hm [lowess Hl] Hempty.
    apply (flatten_collaborator_raise R time flux kw s ta fa st _
             Htime Hflux Hlen Hpro).
    right. eexists. split; [exact Hgaps|].
    apply segment_loop_first_raises.
    unfold segment_trend. rewrite Hm, Hl, Hempty. reflexivity.
  - intros Hm [smoother Hs] Hempty.
    apply (flatten_collaborator_raise R time flux kw s ta fa st _
             Htime Hflux Hlen Hpro).
    right. eexists. split; [exact Hgaps|].
    apply segment_loop_first_raises.
    unfold segment_trend, time32. rewrite Hm, Hs, Hempty. reflexivity.
Qed.

Lemma collaborator_exception_propagates_witness :
  flatten Example.bare 0%nat 1%nat (with_method defaults "untrendy")
    example_store =
  (Raise (ImportError "Could not import untrendy"),
   example_store ++
     copies (Example.sequence (map F.of_Z [0; 1; 2; 10; 11; 12]))
            (Example.sequence
               [F.of_Z 1; F.of_Z 2; F.nan; F.of_Z 4; F.inf; F.of_Z 6])).
Proof.
  apply (collaborator_exception_propagates Example.bare 0%nat 1%nat
           (with_method defaults "untrendy") example_store
           (Example.sequence (map F.of_Z [0; 1; 2; 10; 11; 12]))
           (Example.sequence
              [F.of_Z 1; F.of_Z 2; F.nan; F.of_Z 4; F.inf; F.of_Z 6])
           {| s_method_code := None;
              s_cval := PInt 0;
              s_supersmoother_alpha := None;
              s_window_length := PInt 2;
              s_break_tolerance := PFloat (F.of_Z 1) |}
           (ImportError "Could not import untrendy")
           eq_refl eq_refl eq_refl).
  - vm_compute. reflexivity.
  - right. exists [0; 2; 5]. split; vm_compute; reflexivity.
Defined.

Lemma lowess_and_supersmoother_need_a_sample_witness :
  flatten Example.pointwise 0%nat 1%nat (with_method defaults "lowess")
    [Example.sequence [F.of_Z 1]; Example.sequence [F.nan]] =
  (Raise (ValueError
     "zero-size array to reduction operation maximum which has no identity"),
   [Example.sequence [F.of_Z 1]; Example.sequence [F.nan]] ++
     copies (Example.sequence [F.of_Z 1]) (Example.sequence [F.nan])) /\
  flatten Example.pointwise 0%nat 1%nat (with_method defaults "supersmoother")
    [Example.sequence []; Example.sequence []] =
  (Raise (ValueError "max() arg is an empty sequence"),
   [Example.sequence []; Example.sequence []] ++
     copies (Example.sequence []) (Example.sequence [])).
Proof.
  split.
  - destruct (lowess_and_supersmoother_need_a_sample Example.pointwise
                0%nat 1%nat (with_method defaults "lowess")
                [Example.sequence [F.of_Z 1]; Example.sequence [F.nan]]
                (Example.sequence [F.of_Z 1]) (Example.sequence [F.nan])
                {| s_method_code := None;
                   s_cval := PInt 0;
                   s_supersmoother_alpha := None;
                   s_window_length := PInt 2;
                   s_break_tolerance := PFloat (F.of_Z 1) |}
                0 0 [] eq_refl eq_refl eq_refl) as [H _].
    + vm_compute. reflexivity.
    + vm_compute. reflexivity.
    + apply H; [reflexivity | eexists; reflexivity | reflexivity].
  - destruct (lowess_and_supersmoother_need_a_sample Example.pointwise
                0%nat 1%nat (with_method defaults "supersmoother")
                [Example.sequence []; Example.sequence []]
                (Example.sequence []) (Example.sequence [])
                {| s_method_code := None;
                   s_cval := PInt 0;
                   s_supersmoother_alpha := Some None;
                   s_window_length := PInt 2;
                   s_break_tolerance := PFloat (F.of_Z 1) |}
                0 0 [] eq_refl eq_refl eq_refl) as [_ H].
    + vm_compute. reflexivity.
    + vm_compute. reflexivity.
    + apply H; [reflexivity | eexists; reflexivity | reflexivity].
Defined.

(** ** The names the loop reads are bound *)

(** Lines 91 to 106 bind [method_code] under eight comparisons and lines
    131 to 135 bind [supersmoother_alpha] under one; line 174 reads the
    first under [method in methods] and line 208 the second in the branch
    of [supersmoother]. Every method that reaches either line has passed
    the comparison that binds the name: the loop never reads an unbound
    local, and the code handed to [running_segment] is one of 1 to 8. *)
Theorem loop_reads_bound_names (R : Runtime) (kw : kwargs) (st : settings) :
  prologue R kw = Ok st ->
  (Py.str_in (method kw) methods = true ->
   exists code, s_method_code st = Some code /\ 1 <= code <= 8) /\
  (method kw = "supersmoother" ->
   exists alpha, s_supersmoother_alpha st = Some alpha).
Proof.
  intros Hpro.
  assert (Hst : s_method_code st = method_code (method kw) /\
                s_supersmoother_alpha st =
                  supersmoother_alpha (method kw) (s_cval st)).
  { revert Hpro. unfold prologue, rbind.
    repeat case_match; try discriminate. by intros [= <-]. }
  destruct Hst as [Hcode Halpha]. split.
  - intros Hm. rewrite Hcode. revert Hm.
    unfold methods, method_code. rewrite !str_in_cons.
    repeat (destruct (String.eqb (method kw) _);
            [intros _; eexists; split; [reflexivity | lia]|]).
    discriminate.
  - intros Hm. rewrite Halpha, Hm. unfold supersmoother_alpha. simpl.
    destruct (_ && _); eauto.
Qed.

Lemma loop_reads_bound_names_witness :
  (exists code,
     Some 8 = Some code /\ 1 <= code <= 8) /\
  (exists alpha : option num, Some (Some (PInt 3)) = Some alpha).
Proof.
  split.
  - destruct (loop_reads_bound_names Example.pointwise
                (with_method defaults "winsorize")
                {| s_method_code := Some 8;
                   s_cval := PFloat (F.dec 1 10);
                   s_supersmoother_alpha := None;
                   s_window_length := PInt 2;
                   s_break_tolerance := PFloat (F.of_Z 1) |})
      as [H _]; [vm_compute; reflexivity|].
    apply H. reflexivity.
  - destruct (loop_reads_bound_names Example.pointwise
                (with_cval (with_method defaults "supersmoother")
                   (Some (PInt 3)))
                {| s_method_code := None;
                   s_cval := PInt 3;
                   s_supersmoother_alpha := Some (Some (PInt 3));
                   s_window_length := PInt 2;
                   s_break_tolerance := PFloat (F.of_Z 1) |})
      as [_ H]; [vm_compute; reflexivity|].
    apply H. reflexivity.
Defined.

(** ** Calls that differ in the loop state only *)

(** Two calls run alike when their prologues agree on the tolerance and
    their segment loops end in the same exception or the same
    [trend_flux]. *)
Lemma flatten_ext_outcome (R R' : Runtime) (kw kw' : kwargs)
    (time flux : loc) (s : store) :
  (forall e, prologue R kw = Raise e -> prologue R' kw' = Raise e) ->
  (forall st,
     prologue R kw = Ok st ->
     exists st',
       prologue R' kw' = Ok st' /\
       (forall tc,
          get_gaps_indexes R tc (s_break_tolerance st) =
          get_gaps_indexes R' tc (s_break_tolerance st')) /\
       (forall t tc fc g,
          loop_outcome
            (segment_loop R kw st t tc fc g (initial_loop_state st)) =
          loop_outcome
            (segment_loop R' kw' st' t tc fc g (initial_loop_state st')))) ->
  return_trend kw = return_trend kw' ->
  flatten R time flux kw s = flatten R' time flux kw' s.
Proof.
  intros Hraise Hok Hrt.
  destruct (prologue R kw) as [st|e] eqn:Hpro.
  - destruct (Hok st eq_refl) as (st' & Hpro' & Hgaps & Hloop).
    unfold flatten. rewrite Hpro, Hpro'.
    rewrite !(bind_ok _ _ _ _ _ (lift_run _ _)).
    apply bind_ext; intros time' s1. apply bind_ext; intros flux' s2.
    apply bind_ext; intros t s3. apply bind_ext; intros f s4.
    apply bind_ext; intros mask s5.
    apply bind_ext; intros tc' s6. apply bind_ext; intros fc' s7.
    apply bind_ext; intros tc s8. apply bind_ext; intros fc s9.
    rewrite Hgaps. apply bind_ext; intros g s10.
    specialize (Hloop (data t) (data tc) (data fc) g).
    destruct (segment_loop R kw st _ _ _ g _) as [ls|e1];
      destruct (segment_loop R' kw' st' _ _ _ g _) as [ls'|e2];
      simpl in Hloop; try discriminate.
    + injection Hloop as Hflux.
      rewrite !(bind_ok _ _ _ _ _ (lift_run _ _)).
      rewrite Hflux, Hrt. reflexivity.
    + injection Hloop as <-.
      by rewrite !(bind_raise _ _ _ _ _ (lift_run _ _)).
  - rewrite (flatten_prologue_raise _ _ _ _ _ _ Hpro).
    by rewrite (flatten_prologue_raise _ _ _ _ _ _ (Hraise e eq_refl)).
Qed.

(** ** The window of [savgol] (lines 221 and 222) *)

Lemma segment_trend_savgol_even (R : Runtime) (kw : kwargs) (st : settings)
    (t tc : list float) (ls ls' : loop_state) (tv fv : list float) (w : Z) :
  method kw = "savgol" ->
  ls_window_length ls = PInt w ->
  ls_window_length ls' = PInt (w + 1) ->
  Z.even w = true ->
  ls_trend_flux ls = ls_trend_flux ls' ->
  segment_trend R kw st t tc ls tv fv = segment_trend R kw st t tc ls' tv fv.
Proof.
  intros Hm Hw Hw' Heven Hflux. unfold segment_trend.
  rewrite Hm, Hw, Hw', Hflux. cbn.
  replace (Z.even (w + 1)) with false; [by rewrite Heven|].
  rewrite Z.even_add, Heven. reflexivity.
Qed.

Lemma segment_loop_savgol_even (R : Runtime) (kw : kwargs) (st : settings)
    (t tc fc : list float) (g : list Z) (ls ls' : loop_state) (w : Z) :
  method kw = "savgol" ->
  ls_window_length ls = PInt w ->
  ls_window_length ls' = PInt (w + 1) ->
  Z.even w = true ->
  ls_trend_flux ls = ls_trend_flux ls' ->
  loop_outcome (segment_loop R kw st t tc fc g ls) =
  loop_outcome (segment_loop R kw st t tc fc g ls').
Proof.
  intros Hm Hw Hw' Heven Hflux.
  destruct g as [|lo [|hi rest]]; [by simpl; f_equal | by simpl; f_equal |].
  rewrite !segment_loop_cons. unfold segment_step.
  by rewrite (segment_trend_savgol_even R kw st t tc ls ls' _ _ w).
Qed.

(** The loop reads the window from its state, not from the arguments. *)
Lemma segment_loop_with_window_length (R : Runtime) (kw : kwargs)
    (st st' : settings) (w' : option num)
    (t tc fc : list float) (g : list Z) (ls : loop_state) :
  s_method_code st = s_method_code st' ->
  s_cval st = s_cval st' ->
  s_supersmoother_alpha st = s_supersmoother_alpha st' ->
  segment_loop R (with_window_length kw w') st' t tc fc g ls =
  segment_loop R kw st t tc fc g ls.
Proof.
  intros H1 H2 H3. symmetry. apply segment_loop_ext.
  intros ls0 tv fv. unfold segment_trend.
  cbn [with_window_length method edge_cutoff kernel kernel_size
       kernel_period].
  by rewrite H1, H2, H3.
Qed.

(** For [savgol] an even integer [window_length] is the next odd one: line
    222 adds 1 before the first segment is filtered and the window stays
    odd for the later ones. With a [break_tolerance] of its own, the call
    with the even window is the call with the odd one. *)
Theorem savgol_even_window_is_next_odd
    (R : Runtime) (time flux : loc) (kw : kwargs) (s : store)
    (w : Z) (b : num) :
  method kw = "savgol" ->
  window_length kw = Some (PInt w) ->
  Z.even w = true ->
  break_tolerance kw = Some b ->
  flatten R time flux kw s =
  flatten R time flux (with_window_length kw (Some (PInt (w + 1)))) s.
Proof.
  intros Hm Hw Heven Hb. apply flatten_ext_outcome; [| |reflexivity].
  - intros e. unfold prologue, rbind, default_break_tolerance.
    cbn [with_window_length method proportiontocut window_length
         break_tolerance cval].
    rewrite Hb. repeat case_match; try discriminate; done.
  - intros st. unfold prologue, rbind, default_break_tolerance.
    cbn [with_window_length method proportiontocut window_length
         break_tolerance cval].
    rewrite Hw, Hb. repeat case_match; try discriminate.
    all: intros [= <-]; eexists; (split; [reflexivity|]);
      cbn [s_break_tolerance]; (split; [done|]);
      intros t tc fc g;
      match goal with
      | |- loop_outcome (segment_loop _ _ ?st0 _ _ _ _ _) =
           loop_outcome (segment_loop _ _ ?st1 _ _ _ _ _) =>
          rewrite (segment_loop_with_window_length R kw st0 st1 _ t tc fc g _
                     eq_refl eq_refl eq_refl)
      end;
      by apply (segment_loop_savgol_even R _ _ t tc fc g _ _ w).
Qed.

Lemma savgol_even_window_is_next_odd_witness :
  flatten Example.pointwise 0%nat 1%nat
    (with_break_tolerance
       (with_window_length (with_method defaults "savgol") (Some (PInt 4)))
       (Some (PInt 1)))
    example_store =
  flatten Example.pointwise 0%nat 1%nat
    (with_window_length
       (with_break_tolerance
          (with_window_length (with_method defaults "savgol") (Some (PInt 4)))
          (Some (PInt 1)))
       (Some (PInt 5)))
    example_store.
Proof.
  apply (savgol_even_window_is_next_odd Example.pointwise 0%nat 1%nat
           (with_break_tolerance
              (with_window_length (with_method defaults "savgol")
                 (Some (PInt 4)))
              (Some (PInt 1)))
           example_store 4 (PInt 1)); reflexivity.
Defined.
